(** * MediPredict: the rule-based risk engine of [app.py]

    A shallow embedding of the scoring core of [src/MediPredict/app.py]:
    the "safety parsers" [s_float] and [s_int], [compute_bmi], the three
    scorers, [ai_guidance] and the POST branch of [dashboard]; then the six
    views over a session and a database, and the migration of the schema;
    followed by the properties of the specification that the code decides
    and by further properties of the code.

    Python values are represented as the program has them: [int] is [Z]
    (unbounded), [float] is the kernel's binary64 [float], [str] is
    [string] (the UTF-8 bytes of the text), [bool] is [bool], a tuple is a
    product, and the two dictionaries built by [dashboard] are records.
    An exception is a value of [Py.exc] carried by [Py.result].  Two things
    are left to the interpreter and taken as a [Py.runtime]: how a float is
    printed, and how [float] reads a text that is not ASCII. *)

From Stdlib Require Import ZArith List String Ascii Bool Lia Permutation.
From Stdlib Require Import Floats DecimalString DecimalPos.
Import ListNotations.

Set Warnings "-inexact-float".

Local Open Scope string_scope.
Local Open Scope Z_scope.

(** ** The part of the Python runtime the program relies on *)

Module Py.

(** The exceptions the built-ins used by [app.py] can raise. *)
Inductive exc : Set :=
| TypeError
| ValueError
| OverflowError
| ZeroDivisionError.

(** The outcome of evaluating an expression: a value, or a raised
    exception. *)
Inductive result (A : Type) : Type :=
| Ok (a : A)
| Raise (e : exc).
Arguments Ok {A} a.
Arguments Raise {A} e.

Definition bind {A B : Type} (r : result A) (k : A -> result B) : result B :=
  match r with
  | Ok a => k a
  | Raise e => Raise e
  end.

(** [try: return body / except: return d], with a bare [except]. *)
Definition try_except {A : Type} (body : result A) (d : A) : A :=
  match body with
  | Ok a => a
  | Raise _ => d
  end.

Definition raises {A : Type} (r : result A) : bool :=
  match r with
  | Ok _ => false
  | Raise _ => true
  end.

(** *** Floats *)

(** Truth value of a float in a condition: false exactly for [0.0] and
    [-0.0]; [nan] is true. *)
Definition float_bool (x : float) : bool := negb (x =? 0)%float.

(** [x / y] on floats: [ZeroDivisionError] when [y] is a zero, the IEEE
    quotient otherwise. *)
Definition truediv (x y : float) : result float :=
  if (y =? 0)%float then Raise ZeroDivisionError else Ok (x / y)%float.

(** The binary64 value nearest to [(-1)^s * m * 10^e10] (ties to even),
    computed on exact integers: a product for [0 <= e10], one correctly
    rounded integer division otherwise. *)
Definition SF_of_decimal (s : bool) (m : Z) (e10 : Z) : spec_float :=
  match m with
  | Z0 => S754_zero s
  | Zpos p =>
      if 0 <=? e10
      then binary_round prec emax s (p * Z.to_pos (10 ^ e10)) 0
      else SFdiv prec emax (S754_finite s p 0)
                           (S754_finite false (Z.to_pos (10 ^ (- e10))) 0)
  | Zneg _ => S754_nan
  end.

(** [n / d] rounded to the nearest integer, ties to even ([0 <= n],
    [0 < d]). *)
Definition div_half_even (n d : Z) : Z :=
  let q := n / d in
  let r := n mod d in
  match (2 * r ?= d) with
  | Lt => q
  | Gt => q + 1
  | Eq => if Z.even q then q else q + 1
  end.

(** [round(x, ndigits)] for a float [x] and [0 <= ndigits]: the exact
    value of [x] is rounded, ties to even, to [ndigits] decimal places,
    and that decimal is converted back to the nearest float.  Infinities
    and [nan] round to themselves; the sign of a zero is kept. *)
Definition round (x : float) (ndigits : N) : float :=
  match Prim2SF x with
  | S754_finite s m e =>
      let p := 10 ^ Z.of_N ndigits in
      let t := if 0 <=? e
               then Zpos m * 2 ^ e * p
               else div_half_even (Zpos m * p) (2 ^ (- e)) in
      SF2Prim (SF_of_decimal s t (- Z.of_N ndigits))
  | _ => x
  end.

(** [int(x)] for a float [x]: truncation towards zero; [ValueError] on
    [nan], [OverflowError] on an infinity. *)
Definition int_of_float (x : float) : result Z :=
  match Prim2SF x with
  | S754_nan => Raise ValueError
  | S754_infinity _ => Raise OverflowError
  | S754_zero _ => Ok 0
  | S754_finite s m e =>
      let a := if 0 <=? e then Zpos m * 2 ^ e else Zpos m / 2 ^ (- e) in
      Ok (if s then - a else a)
  end.

(** *** Lists and text *)

(** [l.append(x)], as the list after the call. *)
Definition append {A : Type} (l : list A) (x : A) : list A := (l ++ [x])%list.

(** [str(n)] for an [int]. *)
Definition str_of_int (n : Z) : string := NilZero.string_of_int (Z.to_int n).

(** [sep.join(l)]. *)
Definition join (sep : string) (l : list string) : string := String.concat sep l.

(** [sub in s] for strings. *)
Fixpoint contains (sub s : string) : bool :=
  if String.prefix sub s then true
  else match s with
       | EmptyString => false
       | String _ s' => contains sub s'
       end.

(** *** [float(text)] *)

(** What is left to the interpreter: [str(x)] of a float, and [float(text)]
    for a text that holds a character outside ASCII (Unicode digits and
    spaces are mapped to ASCII ones before the text is read). *)
Record runtime : Type := {
  float_str : float -> string;
  float_of_unicode : string -> result float
}.

Definition is_ascii (c : ascii) : bool := (N_of_ascii c <? 128)%N.

Definition is_space (c : ascii) : bool :=
  let n := N_of_ascii c in
  (((9 <=? n) && (n <=? 13)) || (n =? 32))%N.

Definition is_digit (c : ascii) : bool :=
  let n := N_of_ascii c in ((48 <=? n) && (n <=? 57))%N.

Definition digit_val (c : ascii) : Z := Z.of_N (N_of_ascii c) - 48.

Definition lower (c : ascii) : ascii :=
  let n := N_of_ascii c in
  if ((65 <=? n) && (n <=? 90))%N then ascii_of_N (n + 32) else c.

Fixpoint lstrip (l : list ascii) : list ascii :=
  match l with
  | c :: l' => if is_space c then lstrip l' else l
  | [] => []
  end.

Definition strip (l : list ascii) : list ascii :=
  rev (lstrip (rev (lstrip l))).

(** An underscore is accepted only between two digits; [prev] is the
    character before [l]. *)
Fixpoint underscores_ok (prev : ascii) (l : list ascii) : bool :=
  match l with
  | [] => negb (Ascii.eqb prev "_")
  | c :: l' =>
      (if Ascii.eqb c "_" then is_digit prev
       else negb (Ascii.eqb prev "_") || is_digit c)
      && underscores_ok c l'
  end.

Definition drop_underscores (l : list ascii) : list ascii :=
  filter (fun c => negb (Ascii.eqb c "_")) l.

(** A leading sign: [true] for [-]. *)
Definition read_sign (l : list ascii) : bool * list ascii :=
  match l with
  | "-"%char :: l' => (true, l')
  | "+"%char :: l' => (false, l')
  | _ => (false, l)
  end.

(** The longest run of digits at the head of [l], accumulated on [acc];
    [n] counts the digits read. *)
Fixpoint read_digits (acc n : Z) (l : list ascii) : Z * Z * list ascii :=
  match l with
  | c :: l' =>
      if is_digit c then read_digits (10 * acc + digit_val c) (n + 1) l'
      else (acc, n, l)
  | [] => (acc, n, [])
  end.

(** An exponent part [e], [E], optional sign, at least one digit; when
    there is none nothing is consumed. *)
Definition read_exponent (l : list ascii) : Z * list ascii :=
  match l with
  | c :: l1 =>
      if Ascii.eqb (lower c) "e" then
        let '(neg, l2) := read_sign l1 in
        let '(v, n, l3) := read_digits 0 0 l2 in
        if n =? 0 then (0, l) else ((if neg then - v else v), l3)
      else (0, l)
  | [] => (0, l)
  end.

(** [inf], [infinity] and [nan] in any letter case. *)
Definition read_inf_or_nan (l : list ascii) : option spec_float :=
  let w := string_of_list_ascii (map lower l) in
  if String.eqb w "inf" || String.eqb w "infinity" then Some (S754_infinity false)
  else if String.eqb w "nan" then Some S754_nan
  else None.

(** [float(text)]: for ASCII text, surrounding white space is dropped,
    then a signed [inf]/[infinity]/[nan] or a signed decimal numeral
    (digits with an optional point and exponent, at least one digit) must
    cover the whole text, else [ValueError].  The numeral is converted to
    the nearest float; a numeral out of range gives an infinity. *)
Definition float_of_string (rt : runtime) (text : string) : result float :=
  if negb (forallb is_ascii (list_ascii_of_string text))
  then float_of_unicode rt text
  else
  let l := strip (list_ascii_of_string text) in
  if underscores_ok "000"%char l then
    let '(neg, l1) := read_sign (drop_underscores l) in
    match read_inf_or_nan l1 with
    | Some v => Ok (SF2Prim (if neg then SFopp v else v))
    | None =>
        let '(ip, ni, l2) := read_digits 0 0 l1 in
        let '(m, nf, l3) :=
          match l2 with
          | "."%char :: l2' => read_digits ip 0 l2'
          | _ => (ip, 0, l2)
          end in
        if ni + nf =? 0 then Raise ValueError
        else
          let '(ex, l4) := read_exponent l3 in
          match l4 with
          | [] => Ok (SF2Prim (SF_of_decimal neg m (ex - nf)))
          | _ :: _ => Raise ValueError
          end
    end
  else Raise ValueError.

(** [float(v)] where [v] is what [request.form.get] returned: [None]
    ([TypeError]) or a text. *)
Definition float (rt : runtime) (v : option string) : result float :=
  match v with
  | None => Raise TypeError
  | Some text => float_of_string rt text
  end.

(** A runtime for closed terms: [str] of a float is left empty and a text
    outside ASCII is no number. *)
Definition ascii_runtime : runtime :=
  {| float_str := fun _ => EmptyString;
     float_of_unicode := fun _ => Raise ValueError |}.

End Py.

Notation "x <- c1 ;; c2" := (Py.bind c1 (fun x => c2))
  (at level 61, c1 at next level, right associativity).

(** ** The program *)

Module App.

(** [request.form]: the submitted fields in order; a field may be
    repeated and [get] returns its first value. *)
Definition form : Type := list (string * string).

(** [request.form.get(key)]: [None] when the field is absent. *)
Fixpoint form_get (key : string) (f : form) : option string :=
  match f with
  | [] => None
  | (k, v) :: f' => if String.eqb k key then Some v else form_get key f'
  end.

(** [request.form.get(key, default)]. *)
Definition form_get_default (key default : string) (f : form) : string :=
  match form_get key f with
  | Some v => v
  | None => default
  end.

(** *** Utility and safety parsers (lines 77-93) *)

Definition s_float (rt : Py.runtime) (v : option string) (d : float) : float :=
  Py.try_except (Py.float rt v) d.

Definition s_int (rt : Py.runtime) (v : option string) (d : Z) : Z :=
  Py.try_except (x <- Py.float rt v ;; Py.int_of_float x) d.

(** [h_m] is [height_cm / 100.0], or the [int] 0 when [height_cm] is
    false; that 0 is only compared with 0 and is written [0.0] here. *)
Definition compute_bmi (height_cm weight_kg : float) : Py.result float :=
  let h_m := if Py.float_bool height_cm then (height_cm / 100)%float else 0%float in
  if (h_m <=? 0)%float then Py.Ok 0%float
  else
    q <- Py.truediv weight_kg (h_m * h_m)%float ;;
    Py.Ok (Py.round q 1).

(** *** Risk scorers (lines 98-171) *)

(** The accumulator [score, reasons] of a scorer. *)
Definition acc : Type := Z * list string.

(** [score += points; reasons.append(reason)]. *)
Definition fire (points : Z) (reason : string) (st : acc) : acc :=
  (fst st + points, Py.append (snd st) reason).

Definition score_diabetes (age : Z) (bmi : float) (fasting_glucose : Z)
    (activity : string) (fam_diabetes : bool) : string * Z * list string :=
  let st : acc := (0, []) in
  let st := if age >=? 45 then fire 2 "Age ≥ 45 (+2)" st else st in
  let st := if (30 <=? bmi)%float then fire 3 "BMI ≥ 30 (+3)" st
            else if (25 <=? bmi)%float then fire 1 "BMI 25–29.9 (+1)" st
            else st in
  let st := if fasting_glucose >=? 126
            then fire 5 "Fasting glucose ≥ 126 mg/dL (+5)" st
            else if fasting_glucose >=? 100
            then fire 3 "Fasting glucose 100–125 mg/dL (+3)" st
            else st in
  let st := if String.eqb activity "low" then fire 2 "Low activity (+2)" st
            else if String.eqb activity "medium" then fire 1 "Moderate activity (+1)" st
            else st in
  let st := if fam_diabetes then fire 2 "Family history of diabetes (+2)" st else st in
  let '(score, reasons) := st in
  let category := if score >=? 7 then "High"
                  else if score >=? 4 then "Moderate" else "Low" in
  (category, score, reasons).

Definition score_hypertension (age systolic diastolic : Z) (bmi : float)
    (smoker : bool) : string * Z * list string :=
  let st : acc := (0, []) in
  let st := if (systolic >=? 160) || (diastolic >=? 100)
            then fire 5 "Stage 2 BP (≥160/≥100) (+5)" st
            else if (systolic >=? 140) || (diastolic >=? 90)
            then fire 3 "Stage 1 BP (≥140/≥90) (+3)" st
            else if (systolic >=? 130) || (diastolic >=? 80)
            then fire 2 "Elevated BP (≥130/≥80) (+2)" st
            else st in
  let st := if age >=? 55 then fire 2 "Age ≥ 55 (+2)" st else st in
  let st := if (30 <=? bmi)%float then fire 2 "BMI ≥ 30 (+2)" st
            else if (25 <=? bmi)%float then fire 1 "BMI 25–29.9 (+1)" st
            else st in
  let st := if smoker then fire 2 "Smoker (+2)" st else st in
  let '(score, reasons) := st in
  let category := if score >=? 7 then "High"
                  else if score >=? 4 then "Moderate" else "Low" in
  (category, score, reasons).

Definition score_heart (age : Z) (gender : string) (cholesterol : Z)
    (smoker : bool) (diabetes_cat : string) (systolic : Z)
    : string * Z * list string :=
  let st : acc := (0, []) in
  let st := if (String.eqb gender "male" && (age >=? 45))
               || (String.eqb gender "female" && (age >=? 55))
            then fire 2 "Age threshold (+2)" st else st in
  let st := if cholesterol >=? 240 then fire 3 "Total cholesterol ≥ 240 (+3)" st
            else if cholesterol >=? 200 then fire 2 "Total cholesterol 200–239 (+2)" st
            else st in
  let st := if smoker then fire 2 "Smoker (+2)" st else st in
  let st := if String.eqb diabetes_cat "High" then fire 2 "High diabetes risk (+2)" st
            else if String.eqb diabetes_cat "Moderate"
            then fire 1 "Moderate diabetes risk (+1)" st
            else st in
  let st := if systolic >=? 140 then fire 2 "Systolic BP ≥ 140 (+2)" st
            else if systolic >=? 130 then fire 1 "Systolic BP 130–139 (+1)" st
            else st in
  let '(score, reasons) := st in
  let category := if score >=? 7 then "High"
                  else if score >=? 4 then "Moderate" else "Low" in
  (category, score, reasons).

(** *** The dictionaries of [dashboard] (lines 328-341) *)

(** [{"category": .., "score": .., "reasons": ..}]. *)
Record assessment : Type := {
  category : string;
  score : Z;
  reasons : list string
}.

(** [result]. *)
Record result : Type := {
  res_bmi : float;
  diabetes : assessment;
  hypertension : assessment;
  heart : assessment;
  tips : list string
}.

(** [inputs]. *)
Record inputs : Type := {
  gender : string;
  age : Z;
  height_cm : float;
  weight_kg : float;
  bmi : float;
  systolic : Z;
  diastolic : Z;
  fasting_glucose : Z;
  cholesterol : Z;
  smoker : bool;
  activity : string;
  fam_diabetes : bool
}.

(** *** Guidance (lines 173-233) *)

Definition generic_tip : string :=
  "Keep up the great work! Maintain regular activity and balanced meals.".

(** The list [tips] as it stands at line 230. *)
Definition guidance_tips (i : inputs) : list string :=
  let tips : list string := [] in
  let tips := if (30 <=? bmi i)%float
              then Py.append tips "Aim for gradual weight loss (5–7% in 3–6 months)."
              else if (bmi i <? 18.5)%float
              then Py.append tips "Your BMI is low — ensure adequate calories and protein; consider a nutrition consult."
              else tips in
  let tips := if fasting_glucose i >=? 126
              then Py.append tips "Fasting glucose is in diabetic range — seek medical evaluation soon."
              else if fasting_glucose i >=? 100
              then Py.append tips "Fasting glucose is elevated — reduce refined sugar and increase fiber."
              else tips in
  let tips := if (systolic i >=? 140) || (diastolic i >=? 90)
              then Py.append tips "Lower salt intake, manage stress, and check BP at home 3–4 days/week."
              else tips in
  let tips := if cholesterol i >=? 240
              then Py.append tips "Cholesterol is high — consider a lipid panel and Mediterranean-style diet."
              else if cholesterol i >=? 200
              then Py.append tips "Borderline cholesterol — focus on unsaturated fats and regular exercise."
              else tips in
  let tips := if smoker i
              then Py.append tips "Smoking cessation gives the biggest health win — consider a cessation plan."
              else tips in
  let tips := if String.eqb (activity i) "low"
              then Py.append tips "Start with 30 minutes of brisk walking at least 5 days/week."
              else tips in
  match tips with
  | [] => Py.append tips generic_tip
  | _ :: _ => tips
  end.

(** The line appended at line 230. *)
Definition tips_line (i : inputs) : string :=
  "**Care Tips:** " ++ Py.join " " (guidance_tips i).

Section Guidance.

Variable rt : Py.runtime.

(** The list [parts] as it stands at line 233. *)
Definition guidance_parts (i : inputs) (res : result) : list string :=
  let parts : list string := [] in
  let parts := Py.append parts
    ("Based on your details (Age " ++ Py.str_of_int (age i)
     ++ ", BMI " ++ Py.float_str rt (bmi i)
     ++ ", BP " ++ Py.str_of_int (systolic i) ++ "/" ++ Py.str_of_int (diastolic i)
     ++ " mmHg, Fasting Glucose " ++ Py.str_of_int (fasting_glucose i)
     ++ " mg/dL, Cholesterol " ++ Py.str_of_int (cholesterol i)
     ++ " mg/dL), here’s a quick health check:") in
  let parts := if negb (String.eqb (category (diabetes res)) "Low")
    then Py.append parts "• You may be at risk for **diabetes**. Consider checking HbA1c and fasting glucose with a clinician."
    else parts in
  let parts := if negb (String.eqb (category (hypertension res)) "Low")
    then Py.append parts "• Your blood pressure profile suggests a **hypertension** risk. Home BP monitoring for 2–3 weeks is helpful."
    else parts in
  let parts := if negb (String.eqb (category (heart res)) "Low")
    then Py.append parts "• Cardiovascular risk is elevated. Discuss a lipid profile and lifestyle plan with your clinician."
    else parts in
  let parts := Py.append parts (tips_line i) in
  Py.append parts "⚠️ This tool is educational and not a diagnosis. For symptoms or concerns, see a licensed clinician.".

Definition ai_guidance (i : inputs) (res : result) : string :=
  Py.join (String (ascii_of_nat 10) "") (guidance_parts i res).

(** *** The POST branch of [dashboard] (lines 306-344)

    The value is what the branch hands to the template and to the
    history table: [result], [inputs] and [narrative].  The session
    check, the insertion and the rendering are outside the model. *)
Definition dashboard (f : form) : Py.result (result * inputs * string) :=
  let gender := form_get_default "gender" "male" f in
  let age := s_int rt (form_get "age" f) 0 in
  let height_cm := s_float rt (form_get "height_cm" f) 0 in
  let weight_kg := s_float rt (form_get "weight_kg" f) 0 in
  let systolic := s_int rt (form_get "systolic" f) 0 in
  let diastolic := s_int rt (form_get "diastolic" f) 0 in
  let fasting_glucose := s_int rt (form_get "fasting_glucose" f) 0 in
  let cholesterol := s_int rt (form_get "cholesterol" f) 0 in
  let smoker :=
    match form_get "smoker" f with Some v => String.eqb v "yes" | None => false end in
  let activity := form_get_default "activity" "low" f in
  let fam_diabetes :=
    match form_get "fam_diabetes" f with Some v => String.eqb v "yes" | None => false end in
  bmi <- compute_bmi height_cm weight_kg ;;
  let '(d_cat, d_score, d_reasons) :=
    score_diabetes age bmi fasting_glucose activity fam_diabetes in
  let '(h_cat, h_score, h_reasons) :=
    score_hypertension age systolic diastolic bmi smoker in
  let '(c_cat, c_score, c_reasons) :=
    score_heart age gender cholesterol smoker d_cat systolic in
  let result :=
    {| res_bmi := bmi;
       diabetes := {| category := d_cat; score := d_score; reasons := d_reasons |};
       hypertension := {| category := h_cat; score := h_score; reasons := h_reasons |};
       heart := {| category := c_cat; score := c_score; reasons := c_reasons |};
       tips := [] |} in
  let inputs :=
    {| gender := gender; age := age; height_cm := height_cm; weight_kg := weight_kg;
       bmi := bmi; systolic := systolic; diastolic := diastolic;
       fasting_glucose := fasting_glucose; cholesterol := cholesterol;
       smoker := smoker; activity := activity; fam_diabetes := fam_diabetes |} in
  let narrative := ai_guidance inputs result in
  Py.Ok (result, inputs, narrative).

End Guidance.

End App.

(** ** The rule tables of the specification *)

Module Spec.

(** What a rule contributes when it fires: its points and its reason. *)
Definition rule : Type := option (Z * string).

Definition when (cond : bool) (points : Z) (reason : string) : rule :=
  if cond then Some (points, reason) else None.

(** Mutually exclusive tiers: the first tier that fires wins. *)
Fixpoint ladder (tiers : list rule) : rule :=
  match tiers with
  | [] => None
  | Some r :: _ => Some r
  | None :: tiers' => ladder tiers'
  end.

(** The sum of the points of the rules that fired. *)
Fixpoint total (rules : list rule) : Z :=
  match rules with
  | [] => 0
  | Some (p, _) :: rules' => p + total rules'
  | None :: rules' => total rules'
  end.

(** The reasons of the rules that fired, in table order. *)
Fixpoint fired (rules : list rule) : list string :=
  match rules with
  | [] => []
  | Some (_, r) :: rules' => r :: fired rules'
  | None :: rules' => fired rules'
  end.

(** Score at least 7: High; at least 4: Moderate; else Low. *)
Definition risk_category (score : Z) : string :=
  if 7 <=? score then "High" else if 4 <=? score then "Moderate" else "Low".

(** The assessment a rule table stands for. *)
Definition assess (rules : list rule) : string * Z * list string :=
  (risk_category (total rules), total rules, fired rules).

(** Section 4.2: the five rule groups of the Diabetes scorer. *)
Definition diabetes_rules (age : Z) (bmi : float) (fasting_glucose : Z)
    (activity : string) (fam_diabetes : bool) : list rule :=
  [ when (age >=? 45) 2 "Age ≥ 45 (+2)";
    ladder [ when (30 <=? bmi)%float 3 "BMI ≥ 30 (+3)";
             when (25 <=? bmi)%float 1 "BMI 25–29.9 (+1)" ];
    ladder [ when (fasting_glucose >=? 126) 5 "Fasting glucose ≥ 126 mg/dL (+5)";
             when (fasting_glucose >=? 100) 3 "Fasting glucose 100–125 mg/dL (+3)" ];
    ladder [ when (String.eqb activity "low") 2 "Low activity (+2)";
             when (String.eqb activity "medium") 1 "Moderate activity (+1)" ];
    when fam_diabetes 2 "Family history of diabetes (+2)" ].

(** Section 4.3: the blood-pressure ladder, highest tier first, each tier
    an OR across systolic and diastolic. *)
Definition bp_ladder (systolic diastolic : Z) : rule :=
  ladder [ when ((systolic >=? 160) || (diastolic >=? 100)) 5 "Stage 2 BP (≥160/≥100) (+5)";
           when ((systolic >=? 140) || (diastolic >=? 90)) 3 "Stage 1 BP (≥140/≥90) (+3)";
           when ((systolic >=? 130) || (diastolic >=? 80)) 2 "Elevated BP (≥130/≥80) (+2)" ].

Definition hypertension_rules (age systolic diastolic : Z) (bmi : float)
    (smoker : bool) : list rule :=
  [ bp_ladder systolic diastolic;
    when (age >=? 55) 2 "Age ≥ 55 (+2)";
    ladder [ when (30 <=? bmi)%float 2 "BMI ≥ 30 (+2)";
             when (25 <=? bmi)%float 1 "BMI 25–29.9 (+1)" ];
    when smoker 2 "Smoker (+2)" ].

(** Section 4.4: the rules of the Heart scorer. *)
Definition heart_rules (age : Z) (gender : string) (cholesterol : Z)
    (smoker : bool) (diabetes_cat : string) (systolic : Z) : list rule :=
  [ when ((String.eqb gender "male" && (age >=? 45))
          || (String.eqb gender "female" && (age >=? 55))) 2 "Age threshold (+2)";
    ladder [ when (cholesterol >=? 240) 3 "Total cholesterol ≥ 240 (+3)";
             when (cholesterol >=? 200) 2 "Total cholesterol 200–239 (+2)" ];
    when smoker 2 "Smoker (+2)";
    ladder [ when (String.eqb diabetes_cat "High") 2 "High diabetes risk (+2)";
             when (String.eqb diabetes_cat "Moderate") 1 "Moderate diabetes risk (+1)" ];
    ladder [ when (systolic >=? 140) 2 "Systolic BP ≥ 140 (+2)";
             when (systolic >=? 130) 1 "Systolic BP 130–139 (+1)" ] ].

(** The thresholds a returned triple is held to (section 8). *)
Definition thresholds (t : string * Z * list string) : Prop :=
  let '(c, s, _) := t in
  (c = "High" <-> 7 <= s)
  /\ (c = "Moderate" <-> 4 <= s <= 6)
  /\ (c = "Low" <-> s <= 3).

End Spec.

(** ** The routes (lines 238-385)

    The six view functions, as functions of the request, the session and
    the database.  A view returns what it answers, the session and the
    database it leaves, and the messages it flashed; or it raises.

    The environment is taken to work: the file of the database opens and
    holds the two tables with the columns of [init_db], the templates
    render, and the keys stay below the largest row id of SQLite.  A view
    is handled with no other request between its statements; for [signup],
    the one view with two statements, [signup_between] lifts that. *)

Module Web.

(** *** Session, tables, answers *)

(** [session]: the two keys the program ever writes, each present or
    not.  The messages of [flash], which Flask keeps in the session as
    well, are handed back by the view instead. *)
Record session : Type := {
  user_id : option Z;
  username : option string
}.

(** [session.clear()]. *)
Definition no_session : session := {| user_id := None; username := None |}.

(** ["user_id" in session]. *)
Definition logged_in (s : session) : bool :=
  match user_id s with
  | Some _ => true
  | None => false
  end.

(** A row of [users]. *)
Record users_row : Type := {
  u_id : Z;
  u_username : string;
  u_password_hash : string;
  u_created_at : option string
}.

(** A row of [history]; a column that may hold NULL is an option. *)
Record history_row : Type := {
  h_id : Z;
  h_user_id : Z;
  h_inputs_json : option string;
  h_diabetes_risk : option string;
  h_hypertension_risk : option string;
  h_heart_risk : option string;
  h_narrative : option string;
  h_created_at : option string
}.

(** A table whose key is [INTEGER PRIMARY KEY AUTOINCREMENT]: its rows in
    insertion order, and the largest key it ever gave. *)
Record table (R : Type) : Type := {
  rows : list R;
  seq : Z
}.
Arguments rows {R} t.
Arguments seq {R} t.

(** The two tables, with the columns [init_db] gives them. *)
Record db : Type := {
  users_table : table users_row;
  history_table : table history_row
}.

(** The key an insertion gives: one more than the largest key the table
    holds or ever gave. *)
Definition next_id {R : Type} (id : R -> Z) (t : table R) : Z :=
  fold_right Z.max (seq t) (map id (rows t)) + 1.

(** What the program can raise: an exception of the scoring engine, a
    missing key, a violated constraint of the database. *)
Inductive exc : Set :=
| Python (e : Py.exc)
| KeyError
| IntegrityError.

(** The request, with what the outside world settles while it is handled:
    the value of [CURRENT_TIMESTAMP] and the salt [generate_password_hash]
    draws. *)
Record request : Type := {
  method : string;
  form : App.form;
  now : string;
  salt : string
}.

(** [SELECT ... FROM users WHERE username=?], then [fetchone()]. *)
Definition select_user (name : string) (d : db) : option users_row :=
  find (fun r => String.eqb (u_username r) name) (rows (users_table d)).

(** [INSERT INTO users(username, password_hash) VALUES(?, ?)]: the column
    [username] is [UNIQUE]. *)
Definition insert_user (name hash : string) (created : string) (d : db)
    : exc + db :=
  if existsb (fun r => String.eqb (u_username r) name) (rows (users_table d))
  then inl IntegrityError
  else
    let id := next_id u_id (users_table d) in
    inr {| users_table :=
             {| rows := Py.append (rows (users_table d))
                          {| u_id := id; u_username := name;
                             u_password_hash := hash;
                             u_created_at := Some created |};
                seq := id |};
           history_table := history_table d |}.

(** [INSERT INTO history(user_id, inputs_json, diabetes_risk,
    hypertension_risk, heart_risk, narrative) VALUES(?, ?, ?, ?, ?, ?)]. *)
Definition insert_history (uid : Z)
    (inputs_json d_cat h_cat c_cat narrative : string) (created : string)
    (d : db) : db :=
  let id := next_id h_id (history_table d) in
  {| users_table := users_table d;
     history_table :=
       {| rows := Py.append (rows (history_table d))
                    {| h_id := id; h_user_id := uid;
                         h_inputs_json := Some inputs_json;
                         h_diabetes_risk := Some d_cat;
                         h_hypertension_risk := Some h_cat;
                         h_heart_risk := Some c_cat;
                         h_narrative := Some narrative;
                         h_created_at := Some created |};
          seq := id |} |}.

Section Views.

(** The values [json.loads] returns. *)
Variable J : Type.

(** What is left to the libraries: [str.strip], the two password functions
    of werkzeug, [json.dumps] of the dictionary [inputs], [json.loads] and
    the empty dictionary, and the order [ORDER BY created_at DESC] gives to
    the rows it is handed.  [check_password_hash] can raise: werkzeug's
    does, with [ValueError], on a stored hash whose method it does not
    know. *)
Record library : Type := {
  engine : Py.runtime;
  strip : string -> string;
  generate_password_hash : string -> string -> string;
  check_password_hash : string -> string -> Py.result bool;
  json_dumps : App.inputs -> string;
  json_loads : string -> Py.result J;
  empty_dict : J;
  order_by_created_at_desc : list history_row -> list history_row
}.

Variable lib : library.

(** An entry of [records] in [history]. *)
Record history_record : Type := {
  rec_id : Z;
  rec_created_at : option string;
  rec_diabetes : option string;
  rec_hypertension : option string;
  rec_heart : option string;
  rec_inputs : J;
  rec_narrative : string
}.

(** The keyword arguments of [render_template]. *)
Inductive context : Type :=
| NoContext
| DashboardContext (result : option App.result) (narrative : option string)
| HistoryContext (records : list history_record).

(** What a request is answered with: a rendered template, a redirection to
    the URL of a view, or a bare status when no view is called. *)
Inductive response : Type :=
| Render (template : string) (ctx : context)
| Redirect (endpoint : string)
| Status (code : Z).

(** What a view leaves behind when it returns. *)
Record outcome : Type := {
  answer : response;
  session_after : session;
  db_after : db;
  flashed : list (string * string)
}.

Definition result : Type := exc + outcome.

Definition returns (a : response) (s : session) (d : db)
    (msgs : list (string * string)) : result :=
  inr {| answer := a; session_after := s; db_after := d; flashed := msgs |}.

(** [(request.form.get(key) or "").strip()]. *)
Definition stripped_field (key : string) (req : request) : string :=
  strip lib (match App.form_get key (form req) with
             | Some v => v
             | None => ""
             end).

(** *** The views *)

Definition index (req : request) (s : session) (d : db) : result :=
  if logged_in s then returns (Redirect "dashboard") s d []
  else returns (Render "index.html" NoContext) s d [].

(** [signup], when the database is [d] at its SELECT (line 258) and
    [d_insert] at its INSERT (line 264).  The two statements are not one
    transaction: under the threaded server of [app.run] a request of
    another thread can be handled between them. *)
Definition signup_between (req : request) (s : session) (d d_insert : db)
    : result :=
  if String.eqb (method req) "POST" then
    let username := stripped_field "username" req in
    let password := stripped_field "password" req in
    if String.eqb username "" || String.eqb password "" then
      returns (Render "signup.html" NoContext) s d
        [("Please fill both username and password.", "danger")]
    else
      match select_user username d with
      | Some _ =>
          returns (Render "signup.html" NoContext) s d
            [("⚠️ Username already exists. Try logging in.", "warning")]
      | None =>
          match insert_user username
                  (generate_password_hash lib (salt req) password) (now req)
                  d_insert
          with
          | inl e => inl e
          | inr d' =>
              returns (Redirect "login") s d'
                [("✅ Account created! Please login.", "success")]
          end
      end
  else returns (Render "signup.html" NoContext) s d [].

(** [signup], handled with no other request between its two statements. *)
Definition signup (req : request) (s : session) (d : db) : result :=
  signup_between req s d d.

Definition login (req : request) (s : session) (d : db) : result :=
  if String.eqb (method req) "POST" then
    let username := stripped_field "username" req in
    let password := stripped_field "password" req in
    match select_user username d with
    | Some user =>
        match check_password_hash lib (u_password_hash user) password with
        | Py.Raise e => inl (Python e)
        | Py.Ok true =>
            returns (Redirect "dashboard")
              {| user_id := Some (u_id user);
                 username := Some (u_username user) |}
              d []
        | Py.Ok false =>
            returns (Render "login.html" NoContext) s d
              [("❌ Invalid credentials.", "danger")]
        end
    | None =>
        returns (Render "login.html" NoContext) s d
          [("❌ Invalid credentials.", "danger")]
    end
  else returns (Render "login.html" NoContext) s d [].

Definition logout (req : request) (s : session) (d : db) : result :=
  returns (Redirect "index") no_session d [].

Definition dashboard (req : request) (s : session) (d : db) : result :=
  if negb (logged_in s) then returns (Redirect "login") s d []
  else if String.eqb (method req) "POST" then
    match App.dashboard (engine lib) (form req) with
    | Py.Raise e => inl (Python e)
    | Py.Ok (result, inputs, narrative) =>
        match user_id s with
        | None => inl KeyError
        | Some uid =>
            let d' :=
              insert_history uid (json_dumps lib inputs)
                (App.category (App.diabetes result))
                (App.category (App.hypertension result))
                (App.category (App.heart result))
                narrative (now req) d in
            returns (Render "dashboard.html"
                       (DashboardContext (Some result) (Some narrative)))
              s d' []
        end
    end
  else
    returns (Render "dashboard.html" (DashboardContext None None)) s d [].

(** The body of the loop of [history]: one fetched row as a record. *)
Definition to_record (r : history_row) : history_record :=
  {| rec_id := h_id r;
     rec_created_at := h_created_at r;
     rec_diabetes := h_diabetes_risk r;
     rec_hypertension := h_hypertension_risk r;
     rec_heart := h_heart_risk r;
     rec_inputs :=
       match h_inputs_json r with
       | Some text =>
           if String.eqb text "" then empty_dict lib
           else Py.try_except (json_loads lib text) (empty_dict lib)
       | None => empty_dict lib
       end;
     rec_narrative :=
       match h_narrative r with
       | Some text => text
       | None => ""
       end |}.

(** [SELECT ... FROM history WHERE user_id=? ORDER BY created_at DESC]. *)
Definition select_history (uid : Z) (d : db) : list history_row :=
  order_by_created_at_desc lib
    (filter (fun r => h_user_id r =? uid) (rows (history_table d))).

Definition history (req : request) (s : session) (d : db) : result :=
  if negb (logged_in s) then returns (Redirect "login") s d []
  else
    match user_id s with
    | None => inl KeyError
    | Some uid =>
        returns (Render "history.html"
                   (HistoryContext (map to_record (select_history uid d))))
          s d []
    end.

(** *** The URL map of the [@app.route] decorators *)

Inductive route : Set :=
| RIndex
| RSignup
| RLogin
| RLogout
| RDashboard
| RHistory.

Definition view (r : route) : request -> session -> db -> result :=
  match r with
  | RIndex => index
  | RSignup => signup
  | RLogin => login
  | RLogout => logout
  | RDashboard => dashboard
  | RHistory => history
  end.

(** The [methods] of the decorator; [GET] alone when it gives none. *)
Definition methods (r : route) : list string :=
  match r with
  | RSignup | RLogin | RDashboard => ["GET"; "POST"]
  | RIndex | RLogout | RHistory => ["GET"]
  end.

(** A request to the URL of a view: the view is called for a method of its
    decorator and for [HEAD]; [OPTIONS] is answered without calling it and
    any other method is refused with status 405. *)
Definition handle (r : route) (req : request) (s : session) (d : db) : result :=
  if String.eqb (method req) "OPTIONS" then returns (Status 200) s d []
  else if existsb (String.eqb (method req)) ("HEAD" :: methods r)
  then view r req s d
  else returns (Status 405) s d [].

End Views.

Arguments engine {J}.
Arguments strip {J}.
Arguments generate_password_hash {J}.
Arguments check_password_hash {J}.
Arguments json_dumps {J}.
Arguments json_loads {J}.
Arguments empty_dict {J}.
Arguments order_by_created_at_desc {J}.
Arguments rec_id {J}.
Arguments rec_created_at {J}.
Arguments rec_diabetes {J}.
Arguments rec_hypertension {J}.
Arguments rec_heart {J}.
Arguments rec_inputs {J}.
Arguments rec_narrative {J}.
Arguments NoContext {J}.
Arguments DashboardContext {J}.
Arguments HistoryContext {J}.
Arguments Render {J}.
Arguments Redirect {J}.
Arguments Status {J}.
Arguments answer {J}.
Arguments session_after {J}.
Arguments db_after {J}.
Arguments flashed {J}.
Arguments returns {J}.
Arguments stripped_field {J}.
Arguments index {J}.
Arguments signup_between {J}.
Arguments signup {J}.
Arguments login {J}.
Arguments logout {J}.
Arguments dashboard {J}.
Arguments to_record {J}.
Arguments select_history {J}.
Arguments history {J}.
Arguments view {J}.
Arguments handle {J}.

End Web.

(** ** The schema and its migration (lines 21-72)

    What [init_db] and [column_exists] see of the database: its tables and,
    for each, the names of its columns in order.  SQLite compares the names
    of tables and columns without regard to the case of ASCII letters;
    Python's [in] compares them exactly.

    The database is taken to hold ordinary tables only (no view or index
    named like a table, no hidden column), each below the number of columns
    SQLite allows. *)

Module Schema.

Definition schema : Type := list (string * list string).

(** What a statement can raise: [sqlite3.OperationalError]. *)
Inductive exc : Set :=
| OperationalError.

Fixpoint fold_case (s : string) : string :=
  match s with
  | EmptyString => EmptyString
  | String c s' => String (Py.lower c) (fold_case s')
  end.

(** Two names that SQLite takes for the same. *)
Definition same_name (a b : string) : bool :=
  String.eqb (fold_case a) (fold_case b).

(** [PRAGMA table_info(table)], the [name] of each row: the columns of the
    table, none when there is no such table. *)
Definition table_info (table : string) (s : schema) : list string :=
  match find (fun t => same_name (fst t) table) s with
  | Some t => snd t
  | None => []
  end.

(** [CREATE TABLE IF NOT EXISTS table(columns)]. *)
Definition create_table_if_not_exists (table : string) (columns : list string)
    (s : schema) : schema :=
  if existsb (fun t => same_name (fst t) table) s then s
  else Py.append s (table, columns).

(** [ALTER TABLE table ADD COLUMN column TEXT]: the column is added after
    the others; a table that is missing or a column the table has already
    is an error. *)
Fixpoint add_column (table column : string) (s : schema) : exc + schema :=
  match s with
  | [] => inl OperationalError
  | t :: s' =>
      if same_name (fst t) table then
        if existsb (same_name column) (snd t) then inl OperationalError
        else inr ((fst t, Py.append (snd t) column) :: s')
      else
        match add_column table column s' with
        | inl e => inl e
        | inr s'' => inr (t :: s'')
        end
  end.

Definition users_columns : list string :=
  ["id"; "username"; "password_hash"; "created_at"].

Definition history_columns : list string :=
  ["id"; "user_id"; "inputs_json"; "diabetes_risk"; "hypertension_risk";
   "heart_risk"; "narrative"; "created_at"].

(** [if column not in cols: ALTER TABLE history ADD COLUMN column TEXT]. *)
Definition ensure_column (cols : list string) (column : string) (s : schema)
    : exc + schema :=
  if negb (existsb (String.eqb column) cols)
  then add_column "history" column s
  else inr s.

(** [column_exists(cursor, table, column)], for a [table] that SQL reads
    as a name. *)
Definition column_exists (s : schema) (table column : string) : bool :=
  let cols := table_info table s in
  existsb (String.eqb column) cols.

(** [init_db()]: the schema it leaves, or what it raises. *)
Definition init_db (s : schema) : exc + schema :=
  let s := create_table_if_not_exists "users" users_columns s in
  let s := create_table_if_not_exists "history" history_columns s in
  let cols := table_info "history" s in
  match ensure_column cols "inputs_json" s with
  | inl e => inl e
  | inr s =>
  match ensure_column cols "diabetes_risk" s with
  | inl e => inl e
  | inr s =>
  match ensure_column cols "hypertension_risk" s with
  | inl e => inl e
  | inr s =>
  match ensure_column cols "heart_risk" s with
  | inl e => inl e
  | inr s => ensure_column cols "narrative" s
  end end end end.

End Schema.

(** ** Notions used in the statements *)

Import App.

(** The category and the score of a returned triple. *)
Definition verdict (t : string * Z * list string) : string * Z :=
  (fst (fst t), snd (fst t)).

(** The effect of one rule of a table on the accumulator. *)
Definition apply_rule (r : Spec.rule) (st : acc) : acc :=
  match r with
  | Some (points, reason) => fire points reason st
  | None => st
  end.

Definition run_rules (rules : list Spec.rule) (st : acc) : acc :=
  fold_left (fun st r => apply_rule r st) rules st.

(** A rule that fires brings between 1 and 5 points. *)
Definition rule_ok (r : Spec.rule) : Prop :=
  match r with
  | Some (p, _) => 1 <= p <= 5
  | None => True
  end.

(** What a returned triple says about its score and its reasons: one
    reason and between 1 and 5 points for every rule that fired. *)
Definition score_matches_reasons (t : string * Z * list string) : Prop :=
  let '(_, s, r) := t in
  (s = 0 <-> r = [])
  /\ (0 < s <-> r <> [])
  /\ Z.of_nat (List.length r) <= s <= 5 * Z.of_nat (List.length r).

(** The points a rule brings. *)
Definition points (r : Spec.rule) : Z :=
  match r with
  | Some (p, _) => p
  | None => 0
  end.

(** The score of a returned triple. *)
Definition score_of (t : string * Z * list string) : Z := snd (fst t).

(** The rules of a table that fire, each with its points and its reason,
    in table order. *)
Definition fired_rules (rules : list Spec.rule) : list (Z * string) :=
  flat_map (fun r : Spec.rule =>
              match r with
              | Some pr => [pr]
              | None => []
              end) rules.

(** A returned triple accounts for the rules of a table one by one: its
    score is the sum of the points of the rules that fire, each of them
    positive, and its reasons are their reasons, one for each, in table
    order. *)
Definition one_reason_per_rule (rules : list Spec.rule)
    (t : string * Z * list string) : Prop :=
  let '(_, s, r) := t in
  s = fold_right Z.add 0 (map fst (fired_rules rules))
  /\ r = map snd (fired_rules rules)
  /\ Forall (fun pr : Z * string => 1 <= fst pr <= 5) (fired_rules rules).

(** The diabetes entry of what [dashboard] returns. *)
Definition diabetes_of (r : Py.result (result * inputs * string)) : Py.result assessment :=
  x <- r ;; Py.Ok (diabetes (fst (fst x))).

(** The fields of the form the diabetes entry is computed from. *)
Definition diabetes_fields : list string :=
  ["age"; "height_cm"; "weight_kg"; "fasting_glucose"; "activity"; "fam_diabetes"].

(** The six tip conditions of section 4.5, in evaluation order. *)
Definition tip_conditions (i : inputs) : list bool :=
  [ (30 <=? bmi i)%float || (bmi i <? 18.5)%float;
    (fasting_glucose i >=? 126) || (fasting_glucose i >=? 100);
    (systolic i >=? 140) || (diastolic i >=? 90);
    (cholesterol i >=? 240) || (cholesterol i >=? 200);
    smoker i;
    String.eqb (activity i) "low" ].

Definition any_tip_condition (i : inputs) : bool :=
  existsb (fun b : bool => b) (tip_conditions i).

(** The tips of the conditions that fire, in evaluation order. *)
Definition specific_tips (i : inputs) : list string :=
  ((if (30 <=? bmi i)%float
    then ["Aim for gradual weight loss (5–7% in 3–6 months)."]
    else if (bmi i <? 18.5)%float
    then ["Your BMI is low — ensure adequate calories and protein; consider a nutrition consult."]
    else [])
   ++ (if fasting_glucose i >=? 126
       then ["Fasting glucose is in diabetic range — seek medical evaluation soon."]
       else if fasting_glucose i >=? 100
       then ["Fasting glucose is elevated — reduce refined sugar and increase fiber."]
       else [])
   ++ (if (systolic i >=? 140) || (diastolic i >=? 90)
       then ["Lower salt intake, manage stress, and check BP at home 3–4 days/week."]
       else [])
   ++ (if cholesterol i >=? 240
       then ["Cholesterol is high — consider a lipid panel and Mediterranean-style diet."]
       else if cholesterol i >=? 200
       then ["Borderline cholesterol — focus on unsaturated fats and regular exercise."]
       else [])
   ++ (if smoker i
       then ["Smoking cessation gives the biggest health win — consider a cessation plan."]
       else [])
   ++ (if String.eqb (activity i) "low"
       then ["Start with 30 minutes of brisk walking at least 5 days/week."]
       else []))%list.

(** The nine specific tips, in evaluation order. *)
Definition specific_tip_texts : list string :=
  [ "Aim for gradual weight loss (5–7% in 3–6 months).";
    "Your BMI is low — ensure adequate calories and protein; consider a nutrition consult.";
    "Fasting glucose is in diabetic range — seek medical evaluation soon.";
    "Fasting glucose is elevated — reduce refined sugar and increase fiber.";
    "Lower salt intake, manage stress, and check BP at home 3–4 days/week.";
    "Cholesterol is high — consider a lipid panel and Mediterranean-style diet.";
    "Borderline cholesterol — focus on unsaturated fats and regular exercise.";
    "Smoking cessation gives the biggest health win — consider a cessation plan.";
    "Start with 30 minutes of brisk walking at least 5 days/week." ].

(** The label that opens the combined line. *)
Definition tips_label : string := "**Care Tips:** ".

(** A scorer's triple as the dictionary [dashboard] stores it. *)
Definition as_assessment (t : string * Z * list string) : assessment :=
  {| category := fst (fst t); score := snd (fst t); reasons := snd t |}.

(** *** Numerals *)

(** The characters of the numeral of [d]. *)
Definition numeral (d : Decimal.uint) : list ascii :=
  list_ascii_of_string (NilEmpty.string_of_uint d).

(** A decimal digit. *)
Definition plain_digit (c : ascii) : Prop :=
  Py.is_digit c = true.

(** What [float] asks of the characters around a numeral. *)
Definition plain (c : ascii) : Prop :=
  Py.is_ascii c = true /\ Py.is_space c = false /\ Ascii.eqb c "_" = false.

(** *** The report and its narrative *)

(** The advisory lines of [ai_guidance] and its closing line. *)
Definition diabetes_advisory : string :=
  "• You may be at risk for **diabetes**. Consider checking HbA1c and fasting glucose with a clinician.".

Definition hypertension_advisory : string :=
  "• Your blood pressure profile suggests a **hypertension** risk. Home BP monitoring for 2–3 weeks is helpful.".

Definition heart_advisory : string :=
  "• Cardiovascular risk is elevated. Discuss a lipid profile and lifestyle plan with your clinician.".

Definition disclaimer : string :=
  "⚠️ This tool is educational and not a diagnosis. For symptoms or concerns, see a licensed clinician.".

(** The advisory lines a report calls for: one for each score of 4 or
    more, diabetes first, then hypertension, then heart. *)
Definition advisories (res : result) : list string :=
  ((if 4 <=? score (diabetes res) then [diabetes_advisory] else [])
   ++ (if 4 <=? score (hypertension res) then [hypertension_advisory] else [])
   ++ (if 4 <=? score (heart res) then [heart_advisory] else []))%list.

(** *** The views *)

(** A library for closed terms: nothing is stripped, a hash is the password
    after the name of the method, [plain], checking a hash of another
    method raises [ValueError], no text is JSON, and the rows keep their
    order. *)
Definition plain_library : Web.library unit :=
  {| Web.engine := Py.ascii_runtime;
     Web.strip := fun s => s;
     Web.generate_password_hash := fun _ password => "plain$" ++ password;
     Web.check_password_hash := fun hash password =>
       if String.prefix "plain$" hash
       then Py.Ok (String.eqb hash ("plain$" ++ password))
       else Py.Raise Py.ValueError;
     Web.json_dumps := fun _ => "{}";
     Web.json_loads := fun _ => Py.Raise Py.ValueError;
     Web.empty_dict := tt;
     Web.order_by_created_at_desc := fun l => l |}.

Definition empty_db : Web.db :=
  {| Web.users_table := {| Web.rows := []; Web.seq := 0 |};
     Web.history_table := {| Web.rows := []; Web.seq := 0 |} |}.

Definition post (f : form) : Web.request :=
  {| Web.method := "POST"; Web.form := f; Web.now := "2025-01-01 00:00:00";
     Web.salt := "salt" |}.

(** The rows of the two tables. *)
Definition user_rows (d : Web.db) : list Web.users_row :=
  Web.rows (Web.users_table d).

Definition history_rows (d : Web.db) : list Web.history_row :=
  Web.rows (Web.history_table d).

(** No two users share a name or a key, no user has an empty name, and no
    two rows of the history share a key. *)
Definition db_ok (d : Web.db) : Prop :=
  NoDup (map Web.u_username (user_rows d))
  /\ NoDup (map Web.u_id (user_rows d))
  /\ Forall (fun r => Web.u_username r <> "") (user_rows d)
  /\ NoDup (map Web.h_id (history_rows d)).

(** What handling a request does to the session and to the database: the
    five ways in which a view that returns leaves them. *)
Inductive effect {J : Type} (lib : Web.library J) (req : Web.request)
    (s : Web.session) (d : Web.db) : Web.route -> Web.outcome J -> Prop :=
| Quiet (r : Web.route) (o : Web.outcome J) :
    Web.session_after o = s -> Web.db_after o = d ->
    effect lib req s d r o
| SignedUp (o : Web.outcome J) :
    Web.method req = "POST" ->
    Web.stripped_field lib "username" req <> "" ->
    Web.stripped_field lib "password" req <> "" ->
    Web.select_user (Web.stripped_field lib "username" req) d = None ->
    Web.answer o = Web.Redirect "login" ->
    Web.session_after o = s ->
    user_rows (Web.db_after o)
    = (user_rows d
       ++ [{| Web.u_id := Web.next_id Web.u_id (Web.users_table d);
              Web.u_username := Web.stripped_field lib "username" req;
              Web.u_password_hash :=
                Web.generate_password_hash lib (Web.salt req)
                  (Web.stripped_field lib "password" req);
              Web.u_created_at := Some (Web.now req) |}])%list ->
    Web.history_table (Web.db_after o) = Web.history_table d ->
    effect lib req s d Web.RSignup o
| LoggedIn (o : Web.outcome J) (user : Web.users_row) :
    Web.method req = "POST" ->
    Web.select_user (Web.stripped_field lib "username" req) d = Some user ->
    Web.check_password_hash lib (Web.u_password_hash user)
      (Web.stripped_field lib "password" req) = Py.Ok true ->
    Web.answer o = Web.Redirect "dashboard" ->
    Web.session_after o
    = {| Web.user_id := Some (Web.u_id user);
         Web.username := Some (Web.u_username user) |} ->
    Web.db_after o = d ->
    effect lib req s d Web.RLogin o
| LoggedOut (o : Web.outcome J) :
    Web.answer o = Web.Redirect "index" ->
    Web.session_after o = Web.no_session ->
    Web.db_after o = d ->
    effect lib req s d Web.RLogout o
| Assessed (o : Web.outcome J) (uid : Z) (res : result) (inp : inputs)
    (narrative : string) :
    Web.method req = "POST" ->
    Web.user_id s = Some uid ->
    dashboard (Web.engine lib) (Web.form req) = Py.Ok (res, inp, narrative) ->
    Web.answer o
    = Web.Render "dashboard.html"
        (Web.DashboardContext (Some res) (Some narrative)) ->
    Web.session_after o = s ->
    Web.users_table (Web.db_after o) = Web.users_table d ->
    history_rows (Web.db_after o)
    = (history_rows d
       ++ [{| Web.h_id := Web.next_id Web.h_id (Web.history_table d);
              Web.h_user_id := uid;
              Web.h_inputs_json := Some (Web.json_dumps lib inp);
              Web.h_diabetes_risk := Some (category (diabetes res));
              Web.h_hypertension_risk := Some (category (hypertension res));
              Web.h_heart_risk := Some (category (heart res));
              Web.h_narrative := Some narrative;
              Web.h_created_at := Some (Web.now req) |}])%list ->
    effect lib req s d Web.RDashboard o.

(** What a request is answered with, when the view returns. *)
Definition answer_of {J : Type} (r : Web.result J) : option (Web.response J) :=
  match r with
  | inr o => Some (Web.answer o)
  | inl _ => None
  end.

(** A request with the method [GET]. *)
Definition get : Web.request :=
  {| Web.method := "GET"; Web.form := []; Web.now := "2025-01-01 00:00:00";
     Web.salt := "salt" |}.

(** *** The schema *)

(** The columns the migration of [init_db] looks for, in its order. *)
Definition migrated_columns : list string :=
  ["inputs_json"; "diabetes_risk"; "hypertension_risk"; "heart_risk";
   "narrative"].

(** There is a table that SQLite takes for [table]. *)
Definition has_table (table : string) (s : Schema.schema) : bool :=
  existsb (fun t => Schema.same_name (fst t) table) s.

(** The five tests of [init_db], one after the other. *)
Fixpoint ensure_columns (cols columns : list string) (s : Schema.schema)
    : Schema.exc + Schema.schema :=
  match columns with
  | [] => inr s
  | c :: columns' =>
      match Schema.ensure_column cols c s with
      | inl e => inl e
      | inr s' => ensure_columns cols columns' s'
      end
  end.

(** A column of the table [history] that stops the migration: SQLite takes
    it for one of the five, Python does not. *)
Definition clashes (s : Schema.schema) (c : string) : Prop :=
  In c migrated_columns
  /\ ~ In c (Schema.table_info "history" s)
  /\ existsb (Schema.same_name c) (Schema.table_info "history" s) = true.

(** The schema after the two [CREATE TABLE IF NOT EXISTS] of [init_db]. *)
Definition created (s : Schema.schema) : Schema.schema :=
  Schema.create_table_if_not_exists "history" Schema.history_columns
    (Schema.create_table_if_not_exists "users" Schema.users_columns s).

(** *** Closed inputs *)

(** Closed inputs: the form a user signs up and logs in with, the session
    and the database after that, the session of another user, and a form
    for an assessment. *)
Definition credentials : form :=
  [("username", "alice"); ("password", "secret")].

Definition alice : Web.session :=
  {| Web.user_id := Some 1; Web.username := Some "alice" |}.

Definition bob : Web.session :=
  {| Web.user_id := Some 2; Web.username := Some "bob" |}.

Definition alice_db : Web.db :=
  {| Web.users_table :=
       {| Web.rows := [{| Web.u_id := 1; Web.u_username := "alice";
                          Web.u_password_hash := "plain$secret";
                          Web.u_created_at := Some "2025-01-01 00:00:00" |}];
          Web.seq := 1 |};
     Web.history_table := {| Web.rows := []; Web.seq := 0 |} |}.

(** The form another user signs up and logs in with, and a database that
    holds both users and an assessment of the first. *)
Definition bob_credentials : form :=
  [("username", "bob"); ("password", "hunter2")].

Definition bob_row : Web.users_row :=
  {| Web.u_id := 2; Web.u_username := "bob";
     Web.u_password_hash := "plain$hunter2";
     Web.u_created_at := Some "2025-01-02 00:00:00" |}.

Definition two_users_db : Web.db :=
  {| Web.users_table :=
       {| Web.rows := [{| Web.u_id := 1; Web.u_username := "alice";
                          Web.u_password_hash := "plain$secret";
                          Web.u_created_at := Some "2025-01-01 00:00:00" |};
                       bob_row];
          Web.seq := 2 |};
     Web.history_table :=
       {| Web.rows := [{| Web.h_id := 1; Web.h_user_id := 1;
                          Web.h_inputs_json := Some "{}";
                          Web.h_diabetes_risk := Some "Low";
                          Web.h_hypertension_risk := Some "Low";
                          Web.h_heart_risk := Some "Low";
                          Web.h_narrative := Some "";
                          Web.h_created_at := Some "2025-01-03 00:00:00" |}];
          Web.seq := 1 |} |}.

(** A database whose one user has a hash of a method the library does not
    know. *)
Definition legacy_db : Web.db :=
  {| Web.users_table :=
       {| Web.rows := [{| Web.u_id := 1; Web.u_username := "alice";
                          Web.u_password_hash := "md5$salt$0123";
                          Web.u_created_at := Some "2020-01-01 00:00:00" |}];
          Web.seq := 1 |};
     Web.history_table := {| Web.rows := []; Web.seq := 0 |} |}.

Definition checkup : form :=
  [("age", "50"); ("fasting_glucose", "130"); ("systolic", "150");
   ("diastolic", "95"); ("cholesterol", "210"); ("smoker", "yes")].

(** The schema of a database made by an older version: [history] without
    the five columns. *)
Definition old_schema : Schema.schema :=
  [("users", Schema.users_columns); ("history", ["id"; "user_id"; "created_at"])].

(** *** Tactics *)

(** Case analysis on the tests of the goal, one [if] at a time. *)
Ltac split_ifs :=
  repeat match goal with
         | |- context [if ?b then _ else _] =>
             lazymatch type of b with bool => destruct b eqn:? end
         end.

(** Turns the integer tests among the hypotheses into inequalities. *)
Ltac tests_to_props :=
  repeat match goal with
         | H : (_ || _) = true |- _ => apply orb_true_iff in H; destruct H
         | H : (_ || _) = false |- _ => apply orb_false_iff in H; destruct H
         | H : (_ && _) = true |- _ => apply andb_true_iff in H; destruct H
         | H : (_ && _) = false |- _ => apply andb_false_iff in H; destruct H
         | H : (_ >=? _) = true |- _ => rewrite Z.geb_leb in H; apply Z.leb_le in H
         | H : (_ >=? _) = false |- _ => rewrite Z.geb_leb in H; apply Z.leb_gt in H
         end.

(** Two sums of rule groups are compared group by group. *)
Ltac by_groups :=
  repeat (apply Z.add_le_mono; [| try apply Z.le_refl ]);
  try apply Z.le_refl;
  split_ifs; tests_to_props; try lia; try congruence.

(** Case analysis on the tests and matches of a view in the goal. *)
Ltac view_cases :=
  repeat match goal with
         | |- context [if ?b then _ else _] => destruct b eqn:?
         | |- context [match ?x with _ => _ end] => destruct x eqn:?
         end.

(** ** Properties *)

(** *** Scores and categories *)

Lemma category_expr_thresholds (s : Z) (r : list string) :
  Spec.thresholds
    ((if s >=? 7 then "High" else if s >=? 4 then "Moderate" else "Low"), s, r).
Proof.
  unfold Spec.thresholds.
  destruct (s >=? 7) eqn:H7; [| destruct (s >=? 4) eqn:H4];
    repeat split; intros; try lia; try discriminate.
Qed.

Lemma score_diabetes_thresholds age bmi fasting_glucose activity fam_diabetes :
  Spec.thresholds (score_diabetes age bmi fasting_glucose activity fam_diabetes).
Proof.
  unfold score_diabetes.
  match goal with |- context [let '(score, reasons) := ?st in _] => destruct st end.
  apply category_expr_thresholds.
Qed.

Lemma score_hypertension_thresholds age systolic diastolic bmi smoker :
  Spec.thresholds (score_hypertension age systolic diastolic bmi smoker).
Proof.
  unfold score_hypertension.
  match goal with |- context [let '(score, reasons) := ?st in _] => destruct st end.
  apply category_expr_thresholds.
Qed.

Lemma score_heart_thresholds age gender cholesterol smoker diabetes_cat systolic :
  Spec.thresholds (score_heart age gender cholesterol smoker diabetes_cat systolic).
Proof.
  unfold score_heart.
  match goal with |- context [let '(score, reasons) := ?st in _] => destruct st end.
  apply category_expr_thresholds.
Qed.

(** C1. In each of the three scorers the returned category is High exactly
    when the returned score is at least 7, Moderate exactly when it lies
    between 4 and 6, and Low exactly when it is at most 3; every scorer
    reaches the scores 3, 4, 6 and 7, where it answers Low, Moderate,
    Moderate and High. *)
Theorem category_thresholds_uniform :
  (forall age bmi fasting_glucose activity fam_diabetes,
      Spec.thresholds (score_diabetes age bmi fasting_glucose activity fam_diabetes))
  /\ (forall age systolic diastolic bmi smoker,
         Spec.thresholds (score_hypertension age systolic diastolic bmi smoker))
  /\ (forall age gender cholesterol smoker diabetes_cat systolic,
         Spec.thresholds (score_heart age gender cholesterol smoker diabetes_cat systolic))
  /\ map verdict
       [ score_diabetes 30 31 90 "high" false;
         score_diabetes 30 26 110 "high" false;
         score_diabetes 30 31 110 "high" false;
         score_diabetes 30 20 130 "low" false ]
     = [ ("Low", 3); ("Moderate", 4); ("Moderate", 6); ("High", 7) ]
  /\ map verdict
       [ score_hypertension 30 145 70 20 false;
         score_hypertension 30 145 70 26 false;
         score_hypertension 60 145 70 26 false;
         score_hypertension 60 165 70 20 false ]
     = [ ("Low", 3); ("Moderate", 4); ("Moderate", 6); ("High", 7) ]
  /\ map verdict
       [ score_heart 30 "male" 250 false "Low" 120;
         score_heart 30 "male" 250 false "Moderate" 120;
         score_heart 30 "male" 250 true "Moderate" 120;
         score_heart 30 "male" 250 true "High" 120 ]
     = [ ("Low", 3); ("Moderate", 4); ("Moderate", 6); ("High", 7) ].
Proof.
  split; [exact score_diabetes_thresholds |].
  split; [exact score_hypertension_thresholds |].
  split; [exact score_heart_thresholds |].
  repeat split; vm_compute; reflexivity.
Qed.

(** *** The scorers against the rule tables *)

Lemma run_rules_total_fired (rules : list Spec.rule) :
  forall st : acc,
    run_rules rules st
    = (fst st + Spec.total rules, (snd st ++ Spec.fired rules)%list).
Proof.
  unfold run_rules.
  induction rules as [| [[p reason] |] rules IH]; intros [s rs]; simpl.
  - now rewrite Z.add_0_r, app_nil_r.
  - rewrite IH. unfold fire, Py.append. simpl.
    now rewrite Z.add_assoc, <- app_assoc.
  - now rewrite IH.
Qed.

Lemma when_fire (b : bool) (p : Z) (reason : string) (st : acc) :
  (if b then fire p reason st else st) = apply_rule (Spec.when b p reason) st.
Proof. now destruct b. Qed.

Lemma ladder2_fire (b1 b2 : bool) (p1 p2 : Z) (r1 r2 : string) (st : acc) :
  (if b1 then fire p1 r1 st else if b2 then fire p2 r2 st else st)
  = apply_rule (Spec.ladder [Spec.when b1 p1 r1; Spec.when b2 p2 r2]) st.
Proof. now destruct b1, b2. Qed.

Lemma ladder3_fire (b1 b2 b3 : bool) (p1 p2 p3 : Z) (r1 r2 r3 : string) (st : acc) :
  (if b1 then fire p1 r1 st
   else if b2 then fire p2 r2 st
   else if b3 then fire p3 r3 st else st)
  = apply_rule
      (Spec.ladder [Spec.when b1 p1 r1; Spec.when b2 p2 r2; Spec.when b3 p3 r3]) st.
Proof. now destruct b1, b2, b3. Qed.

Lemma category_expr_spec (s : Z) :
  (if s >=? 7 then "High" else if s >=? 4 then "Moderate" else "Low")
  = Spec.risk_category s.
Proof.
  unfold Spec.risk_category.
  rewrite !Z.geb_leb. reflexivity.
Qed.

(** A scorer whose accumulator is the run of a rule table returns the
    assessment of that table. *)
Lemma finish_table (rules : list Spec.rule) :
  (let '(score, reasons) := run_rules rules (0, []) in
   ((if score >=? 7 then "High" else if score >=? 4 then "Moderate" else "Low"),
    score, reasons))
  = Spec.assess rules.
Proof.
  rewrite run_rules_total_fired. simpl fst. simpl snd.
  rewrite category_expr_spec. reflexivity.
Qed.

Lemma score_diabetes_table age bmi fasting_glucose activity fam_diabetes :
  score_diabetes age bmi fasting_glucose activity fam_diabetes
  = Spec.assess (Spec.diabetes_rules age bmi fasting_glucose activity fam_diabetes).
Proof.
  rewrite <- finish_table.
  unfold score_diabetes. cbv zeta.
  rewrite !ladder2_fire, !when_fire.
  reflexivity.
Qed.

Lemma score_hypertension_table age systolic diastolic bmi smoker :
  score_hypertension age systolic diastolic bmi smoker
  = Spec.assess (Spec.hypertension_rules age systolic diastolic bmi smoker).
Proof.
  rewrite <- finish_table.
  unfold score_hypertension. cbv zeta.
  rewrite !ladder3_fire, !ladder2_fire, !when_fire.
  reflexivity.
Qed.

Lemma score_heart_table age gender cholesterol smoker diabetes_cat systolic :
  score_heart age gender cholesterol smoker diabetes_cat systolic
  = Spec.assess (Spec.heart_rules age gender cholesterol smoker diabetes_cat systolic).
Proof.
  rewrite <- finish_table.
  unfold score_heart. cbv zeta.
  rewrite !ladder2_fire, !when_fire.
  reflexivity.
Qed.

Lemma total_cons (r : Spec.rule) (rules : list Spec.rule) :
  Spec.total (r :: rules) = points r + Spec.total rules.
Proof. destruct r as [[p reason] |]; reflexivity. Qed.

Lemma points_when (b : bool) (p : Z) (reason : string) :
  points (Spec.when b p reason) = if b then p else 0.
Proof. now destruct b. Qed.

Lemma points_ladder2 (b1 b2 : bool) (p1 p2 : Z) (r1 r2 : string) :
  points (Spec.ladder [Spec.when b1 p1 r1; Spec.when b2 p2 r2])
  = if b1 then p1 else if b2 then p2 else 0.
Proof. now destruct b1, b2. Qed.

Lemma score_diabetes_points age bmi fasting_glucose activity fam_diabetes :
  score_of (score_diabetes age bmi fasting_glucose activity fam_diabetes)
  = Spec.total (Spec.diabetes_rules age bmi fasting_glucose activity fam_diabetes).
Proof. rewrite score_diabetes_table. reflexivity. Qed.

Lemma score_heart_points age gender cholesterol smoker diabetes_cat systolic :
  score_of (score_heart age gender cholesterol smoker diabetes_cat systolic)
  = Spec.total (Spec.heart_rules age gender cholesterol smoker diabetes_cat systolic).
Proof. rewrite score_heart_table. reflexivity. Qed.

(** C2. The Diabetes scorer returns the total and the reasons of its five
    rule groups, in table order; its score is the sum of 2 for an age of at
    least 45, 3 for a BMI of at least 30 or else 1 for at least 25, 5 for a
    fasting glucose of at least 126 or else 3 for at least 100, 2 for low
    activity or else 1 for medium, and 2 for a family history.  A height of
    170 cm and a weight of 92.5 kg give a BMI of 32.0, and for age 50, that
    BMI, fasting glucose 130, low activity and a family history the scorer
    returns High, 14 and the five reasons. *)
Theorem score_diabetes_additive :
  (forall age bmi fasting_glucose activity fam_diabetes,
      score_diabetes age bmi fasting_glucose activity fam_diabetes
      = Spec.assess (Spec.diabetes_rules age bmi fasting_glucose activity fam_diabetes))
  /\ (forall age bmi fasting_glucose activity fam_diabetes,
         score_of (score_diabetes age bmi fasting_glucose activity fam_diabetes)
         = (if age >=? 45 then 2 else 0)
           + (if (30 <=? bmi)%float then 3 else if (25 <=? bmi)%float then 1 else 0)
           + (if fasting_glucose >=? 126 then 5
              else if fasting_glucose >=? 100 then 3 else 0)
           + (if String.eqb activity "low" then 2
              else if String.eqb activity "medium" then 1 else 0)
           + (if fam_diabetes then 2 else 0))
  /\ compute_bmi 170 92.5 = Py.Ok 32%float
  /\ score_diabetes 50 32 130 "low" true
     = ("High", 14,
        [ "Age ≥ 45 (+2)"; "BMI ≥ 30 (+3)"; "Fasting glucose ≥ 126 mg/dL (+5)";
          "Low activity (+2)"; "Family history of diabetes (+2)" ]).
Proof.
  split; [exact score_diabetes_table |].
  split; [| split; vm_compute; reflexivity].
  intros. rewrite score_diabetes_points. unfold Spec.diabetes_rules.
  rewrite !total_cons, !points_ladder2, !points_when. cbn [Spec.total]. lia.
Qed.

(** C3. The Hypertension scorer returns the total and the reasons of the
    blood-pressure ladder (5 for systolic at least 160 or diastolic at
    least 100, else 3 for 140 or 90, else 2 for 130 or 80, else nothing)
    followed by the age, BMI and smoker rules; for 125/78, age 40, BMI 22
    and a non-smoker it returns Low, 0 and no reason. *)
Theorem score_hypertension_ladder :
  (forall age systolic diastolic bmi smoker,
      score_hypertension age systolic diastolic bmi smoker
      = Spec.assess (Spec.hypertension_rules age systolic diastolic bmi smoker))
  /\ (forall systolic diastolic,
         Spec.total [Spec.bp_ladder systolic diastolic]
         = if (systolic >=? 160) || (diastolic >=? 100) then 5
           else if (systolic >=? 140) || (diastolic >=? 90) then 3
           else if (systolic >=? 130) || (diastolic >=? 80) then 2
           else 0)
  /\ score_hypertension 40 125 78 22 false = ("Low", 0, []).
Proof.
  split; [exact score_hypertension_table |].
  split; [| vm_compute; reflexivity].
  intros systolic diastolic.
  unfold Spec.bp_ladder, Spec.when.
  destruct ((systolic >=? 160) || (diastolic >=? 100)),
           ((systolic >=? 140) || (diastolic >=? 90)),
           ((systolic >=? 130) || (diastolic >=? 80)); reflexivity.
Qed.

(** C4. The Heart scorer returns the total and the reasons of its five
    rule groups, in table order; its score is the sum of 2 for a man of at
    least 45 or a woman of at least 55, 3 for a cholesterol of at least 240
    or else 2 for at least 200, 2 for a smoker, 2 for the diabetes category
    High or else 1 for Moderate, and 2 for a systolic of at least 140 or
    else 1 for at least 130.  For a woman of 60 with cholesterol 250, a
    smoker, diabetes category Moderate and systolic 145 it returns High, 10
    and the five reasons. *)
Theorem score_heart_rules :
  (forall age gender cholesterol smoker diabetes_cat systolic,
      score_heart age gender cholesterol smoker diabetes_cat systolic
      = Spec.assess (Spec.heart_rules age gender cholesterol smoker diabetes_cat systolic))
  /\ (forall age gender cholesterol smoker diabetes_cat systolic,
         score_of (score_heart age gender cholesterol smoker diabetes_cat systolic)
         = (if (String.eqb gender "male" && (age >=? 45))
               || (String.eqb gender "female" && (age >=? 55)) then 2 else 0)
           + (if cholesterol >=? 240 then 3 else if cholesterol >=? 200 then 2 else 0)
           + (if smoker then 2 else 0)
           + (if String.eqb diabetes_cat "High" then 2
              else if String.eqb diabetes_cat "Moderate" then 1 else 0)
           + (if systolic >=? 140 then 2 else if systolic >=? 130 then 1 else 0))
  /\ score_heart 60 "female" 250 true "Moderate" 145
     = ("High", 10,
        [ "Age threshold (+2)"; "Total cholesterol ≥ 240 (+3)"; "Smoker (+2)";
          "Moderate diabetes risk (+1)"; "Systolic BP ≥ 140 (+2)" ]).
Proof.
  split; [exact score_heart_table |].
  split; [| vm_compute; reflexivity].
  intros. rewrite score_heart_points. unfold Spec.heart_rules.
  rewrite !total_cons, !points_ladder2, !points_when. cbn [Spec.total]. lia.
Qed.

(** *** Scores and reasons *)

Lemma rule_ok_when (b : bool) (p : Z) (reason : string) :
  1 <= p <= 5 -> rule_ok (Spec.when b p reason).
Proof. intros H. destruct b; simpl; auto. Qed.

Lemma rule_ok_ladder (tiers : list Spec.rule) :
  Forall rule_ok tiers -> rule_ok (Spec.ladder tiers).
Proof.
  induction 1 as [| [[p reason] |] tiers Hr _ IH]; simpl; auto.
Qed.

Lemma total_bounds (rules : list Spec.rule) :
  Forall rule_ok rules ->
  Z.of_nat (List.length (Spec.fired rules)) <= Spec.total rules
  <= 5 * Z.of_nat (List.length (Spec.fired rules)).
Proof.
  induction 1 as [| [[p reason] |] rules Hr _ IH]; simpl Spec.total; simpl Spec.fired.
  - simpl. lia.
  - simpl in Hr. rewrite length_cons, Nat2Z.inj_succ. lia.
  - exact IH.
Qed.

Lemma assess_matches_reasons (rules : list Spec.rule) :
  Forall rule_ok rules -> score_matches_reasons (Spec.assess rules).
Proof.
  intros H. apply total_bounds in H.
  unfold score_matches_reasons, Spec.assess.
  destruct (Spec.fired rules) as [| r rs] eqn:E.
  - simpl in H |- *.
    repeat split; intros; try lia; try reflexivity; try contradiction.
  - rewrite length_cons, Nat2Z.inj_succ in H |- *.
    repeat split; intros; try lia; try discriminate.
Qed.

Create HintDb rules.
#[local] Hint Resolve rule_ok_when rule_ok_ladder : rules.
#[local] Hint Extern 1 (_ <= _ <= _) => lia : rules.

Lemma diabetes_rules_ok age bmi fasting_glucose activity fam_diabetes :
  Forall rule_ok (Spec.diabetes_rules age bmi fasting_glucose activity fam_diabetes).
Proof. unfold Spec.diabetes_rules. repeat constructor; auto 6 with rules. Qed.

Lemma hypertension_rules_ok age systolic diastolic bmi smoker :
  Forall rule_ok (Spec.hypertension_rules age systolic diastolic bmi smoker).
Proof.
  unfold Spec.hypertension_rules, Spec.bp_ladder.
  repeat constructor; auto 6 with rules.
Qed.

Lemma heart_rules_ok age gender cholesterol smoker diabetes_cat systolic :
  Forall rule_ok (Spec.heart_rules age gender cholesterol smoker diabetes_cat systolic).
Proof. unfold Spec.heart_rules. repeat constructor; auto 6 with rules. Qed.

Lemma total_of_fired_rules (rules : list Spec.rule) :
  Spec.total rules = fold_right Z.add 0 (map fst (fired_rules rules)).
Proof.
  induction rules as [| [[p reason] |] rules IH]; cbn; [reflexivity | | exact IH].
  now rewrite IH.
Qed.

Lemma reasons_of_fired_rules (rules : list Spec.rule) :
  Spec.fired rules = map snd (fired_rules rules).
Proof.
  induction rules as [| [[p reason] |] rules IH]; cbn; [reflexivity | | exact IH].
  now rewrite IH.
Qed.

Lemma fired_rules_positive (rules : list Spec.rule) :
  Forall rule_ok rules ->
  Forall (fun pr : Z * string => 1 <= fst pr <= 5) (fired_rules rules).
Proof.
  induction 1 as [| [[p reason] |] rules Hr _ IH]; cbn;
    [constructor | constructor; [exact Hr | exact IH] | exact IH].
Qed.

Lemma assess_one_reason_per_rule (rules : list Spec.rule) :
  Forall rule_ok rules -> one_reason_per_rule rules (Spec.assess rules).
Proof.
  intros H. unfold one_reason_per_rule, Spec.assess.
  split; [apply total_of_fired_rules |].
  split; [apply reasons_of_fired_rules | now apply fired_rules_positive].
Qed.

(** C10. In each of the three scorers the returned score is 0 exactly when
    the returned list of reasons is empty, and positive exactly when it is
    not: every rule of the scorer's table that fires adds its points,
    between 1 and 5, and exactly one reason, so that the score is the sum
    of the points of the rules that fire and the reasons are their
    reasons, one for each, in table order; the score lies between the
    number of reasons and five times it.  For each scorer, arguments for
    which one rule fires return its points and its one reason, and
    arguments for which none fires return 0 and no reason. *)
Theorem score_zero_iff_no_reason :
  (forall age bmi fasting_glucose activity fam_diabetes,
      score_matches_reasons
        (score_diabetes age bmi fasting_glucose activity fam_diabetes)
      /\ one_reason_per_rule
           (Spec.diabetes_rules age bmi fasting_glucose activity fam_diabetes)
           (score_diabetes age bmi fasting_glucose activity fam_diabetes))
  /\ (forall age systolic diastolic bmi smoker,
         score_matches_reasons
           (score_hypertension age systolic diastolic bmi smoker)
         /\ one_reason_per_rule
              (Spec.hypertension_rules age systolic diastolic bmi smoker)
              (score_hypertension age systolic diastolic bmi smoker))
  /\ (forall age gender cholesterol smoker diabetes_cat systolic,
         score_matches_reasons
           (score_heart age gender cholesterol smoker diabetes_cat systolic)
         /\ one_reason_per_rule
              (Spec.heart_rules age gender cholesterol smoker diabetes_cat
                 systolic)
              (score_heart age gender cholesterol smoker diabetes_cat systolic))
  /\ [ score_diabetes 50 20 90 "high" false;
       score_hypertension 30 120 70 27 false;
       score_heart 30 "male" 150 true "Low" 120 ]
     = [ ("Low", 2, ["Age ≥ 45 (+2)"]);
         ("Low", 1, ["BMI 25–29.9 (+1)"]);
         ("Low", 2, ["Smoker (+2)"]) ]
  /\ [ score_diabetes 20 20 80 "high" false;
       score_hypertension 30 120 70 20 false;
       score_heart 30 "male" 150 false "Low" 120 ]
     = [ ("Low", 0, []); ("Low", 0, []); ("Low", 0, []) ].
Proof.
  split; [| split; [| split; [| split; vm_compute; reflexivity]]]; intros.
  - rewrite score_diabetes_table. split.
    + apply assess_matches_reasons, diabetes_rules_ok.
    + apply assess_one_reason_per_rule, diabetes_rules_ok.
  - rewrite score_hypertension_table. split.
    + apply assess_matches_reasons, hypertension_rules_ok.
    + apply assess_one_reason_per_rule, hypertension_rules_ok.
  - rewrite score_heart_table. split.
    + apply assess_matches_reasons, heart_rules_ok.
    + apply assess_one_reason_per_rule, heart_rules_ok.
Qed.

(** *** Monotonicity of the diabetes score *)

(** The order of floats is transitive ([nan] is related to nothing). *)
Lemma SFleb_trans (a b c : spec_float) :
  SFleb a b = true -> SFleb b c = true -> SFleb a c = true.
Proof.
  unfold SFleb, SFcompare.
  destruct a as [sa | sa | | sa ma ea], b as [sb | sb | | sb mb eb],
           c as [sc | sc | | sc mc ec];
    try discriminate; try reflexivity;
    repeat match goal with s : bool |- _ => destruct s end;
    try discriminate; try reflexivity;
    change (Pos.compare_cont Eq) with Pos.compare;
    destruct (Z.compare_spec ea eb), (Z.compare_spec eb ec), (Z.compare_spec ea ec);
    try discriminate; try reflexivity; try lia;
    destruct (Pos.compare_spec ma mb), (Pos.compare_spec mb mc),
             (Pos.compare_spec ma mc);
    simpl; try discriminate; try reflexivity; lia.
Qed.

Lemma float_leb_trans (a b c : float) :
  (a <=? b)%float = true -> (b <=? c)%float = true -> (a <=? c)%float = true.
Proof. rewrite !leb_spec. apply SFleb_trans. Qed.

Lemma diabetes_monotone_age age age' bmi fasting_glucose activity fam_diabetes :
  age <= age' ->
  score_of (score_diabetes age bmi fasting_glucose activity fam_diabetes)
  <= score_of (score_diabetes age' bmi fasting_glucose activity fam_diabetes).
Proof.
  intros H. rewrite !score_diabetes_points.
  unfold Spec.diabetes_rules. rewrite !(total_cons (Spec.when _ _ _)).
  apply Z.add_le_mono_r.
  destruct (age >=? 45) eqn:E, (age' >=? 45) eqn:E'; simpl; lia.
Qed.

Lemma diabetes_monotone_bmi age bmi bmi' fasting_glucose activity fam_diabetes :
  (bmi <=? bmi')%float = true ->
  score_of (score_diabetes age bmi fasting_glucose activity fam_diabetes)
  <= score_of (score_diabetes age bmi' fasting_glucose activity fam_diabetes).
Proof.
  intros H. rewrite !score_diabetes_points.
  unfold Spec.diabetes_rules. rewrite !total_cons.
  apply Z.add_le_mono_l, Z.add_le_mono_r.
  pose proof (fun c : float => float_leb_trans c bmi bmi') as T.
  destruct (30 <=? bmi)%float eqn:E30.
  - rewrite (T _ E30 H). simpl. lia.
  - destruct (25 <=? bmi)%float eqn:E25.
    + rewrite (T _ E25 H). destruct (30 <=? bmi')%float; simpl; lia.
    + destruct (30 <=? bmi')%float, (25 <=? bmi')%float; simpl; lia.
Qed.

Lemma diabetes_monotone_glucose age bmi fasting_glucose fasting_glucose'
    activity fam_diabetes :
  fasting_glucose <= fasting_glucose' ->
  score_of (score_diabetes age bmi fasting_glucose activity fam_diabetes)
  <= score_of (score_diabetes age bmi fasting_glucose' activity fam_diabetes).
Proof.
  intros H. rewrite !score_diabetes_points.
  unfold Spec.diabetes_rules. rewrite !total_cons.
  do 2 apply Z.add_le_mono_l. apply Z.add_le_mono_r.
  destruct (fasting_glucose >=? 126) eqn:E1, (fasting_glucose >=? 100) eqn:E2,
           (fasting_glucose' >=? 126) eqn:E3, (fasting_glucose' >=? 100) eqn:E4;
    simpl; lia.
Qed.

Lemma dashboard_diabetes_fields (rt : Py.runtime) (f f' : form) :
  (forall k, In k diabetes_fields -> form_get k f = form_get k f') ->
  diabetes_of (dashboard rt f) = diabetes_of (dashboard rt f').
Proof.
  intros H. unfold dashboard, form_get_default.
  rewrite (H "age"), (H "height_cm"), (H "weight_kg"), (H "fasting_glucose"),
    (H "activity"), (H "fam_diabetes") by (simpl; tauto).
  destruct (compute_bmi _ _) as [b | e]; [| reflexivity].
  unfold diabetes_of. cbn [Py.bind].
  destruct (score_diabetes _ _ _ _ _) as [[d_cat d_score] d_reasons].
  do 2 destruct (score_hypertension _ _ _ _ _) as [[? ?] ?].
  do 2 destruct (score_heart _ _ _ _ _ _) as [[? ?] ?].
  reflexivity.
Qed.

(** C8. The diabetes score is non-decreasing in the age, in the BMI (for
    the order of floats) and in the fasting glucose, the other arguments
    being fixed; and the diabetes entry of the report is the same for two
    forms that agree on the fields it is computed from, whatever they hold
    for gender, cholesterol, systolic, diastolic and smoker. *)
Theorem diabetes_score_monotone :
  (forall age age' bmi fasting_glucose activity fam_diabetes,
      age <= age' ->
      score_of (score_diabetes age bmi fasting_glucose activity fam_diabetes)
      <= score_of (score_diabetes age' bmi fasting_glucose activity fam_diabetes))
  /\ (forall age bmi bmi' fasting_glucose activity fam_diabetes,
         (bmi <=? bmi')%float = true ->
         score_of (score_diabetes age bmi fasting_glucose activity fam_diabetes)
         <= score_of (score_diabetes age bmi' fasting_glucose activity fam_diabetes))
  /\ (forall age bmi fasting_glucose fasting_glucose' activity fam_diabetes,
         fasting_glucose <= fasting_glucose' ->
         score_of (score_diabetes age bmi fasting_glucose activity fam_diabetes)
         <= score_of (score_diabetes age bmi fasting_glucose' activity fam_diabetes))
  /\ (forall (rt : Py.runtime) (f f' : form),
         (forall k, In k diabetes_fields -> form_get k f = form_get k f') ->
         diabetes_of (dashboard rt f) = diabetes_of (dashboard rt f')).
Proof.
  split; [exact diabetes_monotone_age |].
  split; [exact diabetes_monotone_bmi |].
  split; [exact diabetes_monotone_glucose |].
  exact dashboard_diabetes_fields.
Qed.

Lemma diabetes_score_monotone_witness :
  score_of (score_diabetes 40 24 90 "high" false)
  <= score_of (score_diabetes 50 24 90 "high" false)
  /\ score_of (score_diabetes 40 24 90 "high" false)
     <= score_of (score_diabetes 40 31 90 "high" false)
  /\ score_of (score_diabetes 40 24 90 "high" false)
     <= score_of (score_diabetes 40 24 130 "high" false)
  /\ diabetes_of (dashboard Py.ascii_runtime [("age", "50")])
     = diabetes_of
         (dashboard Py.ascii_runtime
            [("gender", "female"); ("cholesterol", "250"); ("systolic", "150");
             ("diastolic", "95"); ("smoker", "yes"); ("age", "50")]).
Proof.
  split; [apply (proj1 diabetes_score_monotone); lia |].
  split; [apply (proj1 (proj2 diabetes_score_monotone)); reflexivity |].
  split; [apply (proj1 (proj2 (proj2 diabetes_score_monotone))); lia |].
  apply (proj2 (proj2 (proj2 diabetes_score_monotone))).
  intros k Hk. simpl in Hk.
  decompose [or] Hk; subst; try reflexivity; contradiction.
Defined.

(** *** Care tips *)

Lemma tip_when (b : bool) (x : string) (tips : list string) :
  (if b then Py.append tips x else tips)
  = (tips ++ (if b then [x] else []))%list.
Proof. destruct b; [reflexivity | now rewrite app_nil_r]. Qed.

Lemma tip_ladder (b1 b2 : bool) (x1 x2 : string) (tips : list string) :
  (if b1 then Py.append tips x1 else if b2 then Py.append tips x2 else tips)
  = (tips ++ (if b1 then [x1] else if b2 then [x2] else []))%list.
Proof. destruct b1, b2; try reflexivity; now rewrite app_nil_r. Qed.

Lemma guidance_tips_cases (i : inputs) :
  guidance_tips i
  = if any_tip_condition i then specific_tips i else [generic_tip].
Proof.
  unfold guidance_tips, specific_tips, any_tip_condition, tip_conditions.
  cbv zeta. rewrite !tip_ladder, !tip_when, <- !app_assoc.
  cbn [existsb app].
  destruct (30 <=? bmi i)%float; [reflexivity |].
  destruct (bmi i <? 18.5)%float; [reflexivity |].
  destruct (fasting_glucose i >=? 126); [reflexivity |].
  destruct (fasting_glucose i >=? 100); [reflexivity |].
  destruct ((systolic i >=? 140) || (diastolic i >=? 90)); [reflexivity |].
  destruct (cholesterol i >=? 240); [reflexivity |].
  destruct (cholesterol i >=? 200); [reflexivity |].
  destruct (smoker i); [reflexivity |].
  destruct (String.eqb (activity i) "low"); reflexivity.
Qed.

Lemma tips_line_generic (i : inputs) :
  Py.contains generic_tip (tips_line i) = negb (any_tip_condition i).
Proof.
  unfold tips_line. rewrite guidance_tips_cases.
  unfold any_tip_condition, tip_conditions, specific_tips. cbn [existsb].
  generalize (30 <=? bmi i)%float, (bmi i <? 18.5)%float,
    (fasting_glucose i >=? 126), (fasting_glucose i >=? 100),
    ((systolic i >=? 140) || (diastolic i >=? 90)),
    (cholesterol i >=? 240), (cholesterol i >=? 200),
    (smoker i), (String.eqb (activity i) "low").
  intros b1 b2 b3 b4 b5 b6 b7 b8 b9.
  destruct b1, b2, b3, b4, b5, b6, b7, b8, b9; vm_compute; reflexivity.
Qed.

Lemma prefix_app (x r : string) : String.prefix x (x ++ r) = true.
Proof.
  induction x as [| a x IH]; simpl.
  - now destruct r.
  - destruct (ascii_dec a a) as [_ | N]; [exact IH | now elim N].
Qed.

Lemma prefix_refl (x : string) : String.prefix x x = true.
Proof.
  induction x as [| a x IH]; simpl; [reflexivity |].
  destruct (ascii_dec a a) as [_ | N]; [exact IH | now elim N].
Qed.

Lemma contains_prefix (x s : string) :
  String.prefix x s = true -> Py.contains x s = true.
Proof. intros H. destruct s; cbn [Py.contains]; now rewrite H. Qed.

Lemma contains_app_l (x r : string) : Py.contains x (x ++ r) = true.
Proof. apply contains_prefix, prefix_app. Qed.

Lemma contains_app_r (x p s : string) :
  Py.contains x s = true -> Py.contains x (p ++ s) = true.
Proof.
  intros H. induction p as [| a p IH]; cbn [String.append Py.contains]; [exact H |].
  rewrite IH. now destruct (String.prefix x (String a (p ++ s))).
Qed.

Lemma contains_join (x sep : string) (l : list string) :
  In x l -> Py.contains x (Py.join sep l) = true.
Proof.
  unfold Py.join.
  induction l as [| y l IH]; simpl; [contradiction |].
  intros [-> | H].
  - destruct l; [| apply contains_app_l].
    apply contains_prefix, prefix_refl.
  - destruct l as [| z l]; [contradiction |].
    apply contains_app_r, contains_app_r, IH, H.
Qed.

(** Which specific tips the combined line shows, and in which order the
    list holds them. *)
Lemma tips_line_specific (i : inputs) :
  forallb (fun t => Bool.eqb (Py.contains t (tips_line i))
                      (existsb (String.eqb t) (specific_tips i)))
    specific_tip_texts = true
  /\ specific_tips i
     = filter (fun t => existsb (String.eqb t) (specific_tips i))
         specific_tip_texts.
Proof.
  unfold tips_line. rewrite guidance_tips_cases.
  unfold any_tip_condition, tip_conditions, specific_tips. cbn [existsb].
  generalize (30 <=? bmi i)%float, (bmi i <? 18.5)%float,
    (fasting_glucose i >=? 126), (fasting_glucose i >=? 100),
    ((systolic i >=? 140) || (diastolic i >=? 90)),
    (cholesterol i >=? 240), (cholesterol i >=? 200),
    (smoker i), (String.eqb (activity i) "low").
  intros b1 b2 b3 b4 b5 b6 b7 b8 b9.
  destruct b1, b2, b3, b4, b5, b6, b7, b8, b9; vm_compute; split; reflexivity.
Qed.

(** C9. The combined tips line of the narrative is the label followed by
    the tips, joined by spaces: the generic encouragement tip alone when
    none of the six tip conditions fires, and otherwise the tips of the
    conditions that fire, in the fixed evaluation order, without the
    generic tip.  So the line contains the generic tip exactly when no
    condition fires, it contains a specific tip exactly when the condition
    of that tip fires, and it is the last line but one of the narrative. *)
Theorem generic_tip_iff_no_condition (rt : Py.runtime)
    (i : inputs) (res : result) :
  Py.contains generic_tip (tips_line i) = negb (any_tip_condition i)
  /\ (In generic_tip (guidance_tips i) <-> any_tip_condition i = false)
  /\ guidance_tips i
     = (if any_tip_condition i then specific_tips i else [generic_tip])
  /\ (guidance_tips i = [generic_tip] \/ ~ In generic_tip (guidance_tips i))
  /\ nth_error (rev (guidance_parts rt i res)) 1 = Some (tips_line i)
  /\ tips_line i
     = tips_label
       ++ Py.join " "
            (if any_tip_condition i then specific_tips i else [generic_tip])
  /\ (forall t, In t specific_tip_texts ->
                (Py.contains t (tips_line i) = true <-> In t (specific_tips i)))
  /\ specific_tips i
     = filter (fun t => Py.contains t (tips_line i)) specific_tip_texts
  /\ (any_tip_condition i = true -> specific_tips i <> [])
  /\ Py.contains (tips_line i) (ai_guidance rt i res) = true.
Proof.
  pose proof (tips_line_generic i) as HL.
  pose proof (guidance_tips_cases i) as HC.
  destruct (tips_line_specific i) as [HS HO].
  assert (HI : In generic_tip (guidance_tips i) -> any_tip_condition i = false).
  { intros H. apply (contains_join _ " ") in H.
    apply (contains_app_r _ "**Care Tips:** ") in H.
    fold (tips_line i) in H. rewrite HL in H.
    now destruct (any_tip_condition i). }
  assert (HP : nth_error (rev (guidance_parts rt i res)) 1 = Some (tips_line i)).
  { unfold guidance_parts, Py.append. cbv zeta.
    rewrite !rev_app_distr. reflexivity. }
  assert (HB : forall t, In t specific_tip_texts ->
                 Py.contains t (tips_line i)
                 = existsb (String.eqb t) (specific_tips i)).
  { intros t Hin. rewrite forallb_forall in HS.
    apply Bool.eqb_prop. now apply HS. }
  assert (HE : forall t, existsb (String.eqb t) (specific_tips i) = true
                         <-> In t (specific_tips i)).
  { intros t. rewrite existsb_exists. split.
    - intros (x & Hin & E). apply String.eqb_eq in E. now subst.
    - intros Hin. exists t. split; [exact Hin | apply String.eqb_refl]. }
  split; [exact HL |].
  split.
  { split; [exact HI |].
    intros E. rewrite HC, E. now left. }
  split; [exact HC |].
  split.
  { destruct (any_tip_condition i) eqn:E.
    - right. intros H. apply HI in H. discriminate.
    - left. exact HC. }
  split; [exact HP |].
  split; [unfold tips_line, tips_label; now rewrite HC |].
  split; [intros t Hin; rewrite (HB t Hin); apply HE |].
  split.
  { rewrite HO at 1. apply filter_ext_in.
    intros t Hin. symmetry. now apply HB. }
  split.
  { unfold any_tip_condition, tip_conditions, specific_tips. cbn [existsb].
    generalize (30 <=? bmi i)%float, (bmi i <? 18.5)%float,
      (fasting_glucose i >=? 126), (fasting_glucose i >=? 100),
      ((systolic i >=? 140) || (diastolic i >=? 90)),
      (cholesterol i >=? 240), (cholesterol i >=? 200),
      (smoker i), (String.eqb (activity i) "low").
    intros b1 b2 b3 b4 b5 b6 b7 b8 b9.
    destruct b1, b2, b3, b4, b5, b6, b7, b8, b9; cbn; intros E;
      (discriminate E || discriminate). }
  unfold ai_guidance. apply contains_join.
  apply in_rev. exact (nth_error_In _ _ HP).
Qed.

(** *** Enumerated fields *)

(** C6 (as amended). When [dashboard] returns, the gender and the activity
    it hands to the scorers and stores in [inputs] are the first value the
    form holds for the field, whatever token that is, and "male" and "low"
    only when the field is absent; the diabetes and heart entries are the
    scorers' answers on those very values. *)
Theorem enum_fields_pass_through (rt : Py.runtime) (f : form)
    (res : result) (inp : inputs) (narrative : string) :
  dashboard rt f = Py.Ok (res, inp, narrative) ->
  gender inp = match form_get "gender" f with Some g => g | None => "male" end
  /\ activity inp = match form_get "activity" f with Some a => a | None => "low" end
  /\ diabetes res
     = as_assessment
         (score_diabetes (age inp) (bmi inp) (fasting_glucose inp)
            (activity inp) (fam_diabetes inp))
  /\ heart res
     = as_assessment
         (score_heart (age inp) (gender inp) (cholesterol inp) (smoker inp)
            (category (diabetes res)) (systolic inp)).
Proof.
  unfold dashboard, form_get_default.
  destruct (compute_bmi _ _) as [b | e]; [| discriminate].
  cbn [Py.bind].
  destruct (score_diabetes _ _ _ _ _) as [[d_cat d_score] d_reasons] eqn:Ed.
  destruct (score_hypertension _ _ _ _ _) as [[h_cat h_score] h_reasons].
  destruct (score_heart _ _ _ _ _ _) as [[c_cat c_score] c_reasons] eqn:Ec.
  intros H. injection H as <- <- _.
  cbn [gender activity diabetes heart age bmi fasting_glucose fam_diabetes
       cholesterol smoker systolic category].
  rewrite Ed, Ec. repeat split; reflexivity.
Qed.

Lemma enum_fields_pass_through_witness :
  exists res inp narrative,
    dashboard Py.ascii_runtime
      [("gender", "other"); ("activity", "sedentary"); ("age", "50")]
    = Py.Ok (res, inp, narrative)
    /\ gender inp = "other" /\ activity inp = "sedentary"
    /\ score (diabetes res) = 2 /\ score (heart res) = 0.
Proof.
  destruct (dashboard Py.ascii_runtime
              [("gender", "other"); ("activity", "sedentary"); ("age", "50")])
    as [[[res inp] narrative] | e] eqn:E; [| vm_compute in E; discriminate].
  exists res, inp, narrative.
  destruct (enum_fields_pass_through _ _ _ _ _ E) as (Hg & Ha & Hd & Hh).
  split; [reflexivity |].
  split; [exact Hg |]. split; [exact Ha |].
  vm_compute in E. injection E as <- <- _.
  split; reflexivity.
Defined.

(** C6 (counterexample). With gender "other" and activity "sedentary" the
    scorers receive those tokens, not "male" and "low": the diabetes score
    is 2 and the heart score 0, where the same form without the two fields
    (the defaults) gives 4 and 3. *)
Lemma unrecognized_enum_not_defaulted :
  match dashboard Py.ascii_runtime
          [("gender", "other"); ("activity", "sedentary"); ("age", "50")],
        dashboard Py.ascii_runtime [("age", "50")]
  with
  | Py.Ok (res, inp, _), Py.Ok (res0, inp0, _) =>
      gender inp = "other" /\ activity inp = "sedentary"
      /\ gender inp0 = "male" /\ activity inp0 = "low"
      /\ score (diabetes res) = 2 /\ score (diabetes res0) = 4
      /\ score (heart res) = 0 /\ score (heart res0) = 3
  | _, _ => False
  end.
Proof. vm_compute. repeat split; reflexivity. Qed.

(** *** The unguarded division of [compute_bmi] *)

(** C5 (failing input). The height [1e-170] is positive, and on it
    [compute_bmi] raises [ZeroDivisionError]: a hundredth of it is positive
    but its square underflows to zero. *)
Theorem compute_bmi_tiny_height_raises :
  (0 <? 1e-170)%float = true
  /\ (0 <? 1e-170 / 100)%float = true
  /\ ((1e-170 / 100) * (1e-170 / 100) =? 0)%float = true
  /\ compute_bmi 1e-170 70 = Py.Raise Py.ZeroDivisionError.
Proof. repeat split; vm_compute; reflexivity. Qed.

(** C7 (failing input). On the form whose height is the text [1e-170] and
    whose weight is [70] the POST branch of [dashboard] raises
    [ZeroDivisionError] and produces no report. *)
Theorem dashboard_tiny_height_raises (rt : Py.runtime) :
  s_float rt (Some "1e-170") 0 = 1e-170%float
  /\ dashboard rt [("height_cm", "1e-170"); ("weight_kg", "70")]
     = Py.Raise Py.ZeroDivisionError.
Proof. split; vm_compute; reflexivity. Qed.

(** *** The guard of [compute_bmi] *)

Lemma shr_1_nonneg (mrs : shr_record) :
  0 <= shr_m mrs -> 0 <= shr_m (shr_1 mrs).
Proof.
  destruct mrs as [m r s]. simpl.
  destruct m as [| p | p]; simpl; try lia; destruct p; simpl; lia.
Qed.

Lemma iter_shr_1_nonneg (p : positive) :
  forall mrs, 0 <= shr_m mrs -> 0 <= shr_m (iter_pos shr_1 p mrs).
Proof.
  induction p as [p IH | p IH |]; simpl; intros mrs H.
  - apply IH, IH, shr_1_nonneg, H.
  - apply IH, IH, H.
  - apply shr_1_nonneg, H.
Qed.

Lemma shr_fexp_nonneg (m e : Z) (l : location) :
  0 <= m -> 0 <= shr_m (fst (shr_fexp prec emax m e l)).
Proof.
  intros H. unfold shr_fexp, shr.
  assert (H0 : 0 <= shr_m (shr_record_of_loc m l)) by (destruct l as [| []]; exact H).
  destruct (fexp prec emax (Zdigits2 m + e) - e); simpl; auto.
  apply iter_shr_1_nonneg, H0.
Qed.

(** Rounding a non-negative mantissa never gives [nan], and keeps the
    sign it is given. *)
Lemma binary_round_aux_sign (s : bool) (m e : Z) (l : location) :
  0 <= m ->
  match binary_round_aux prec emax s m e l with
  | S754_zero s' | S754_infinity s' | S754_finite s' _ _ => s' = s
  | S754_nan => False
  end.
Proof.
  intros H. unfold binary_round_aux.
  pose proof (shr_fexp_nonneg m e l H) as H1.
  destruct (shr_fexp prec emax m e l) as [mrs' e']. simpl in H1.
  assert (H2 : 0 <= round_nearest_even (shr_m mrs') (loc_of_shr_record mrs')).
  { unfold round_nearest_even.
    destruct (loc_of_shr_record mrs') as [| []]; try lia.
    destruct (Z.even (shr_m mrs')); lia. }
  pose proof (shr_fexp_nonneg _ e' loc_Exact H2) as H3.
  destruct (shr_fexp prec emax _ e' loc_Exact) as [mrs'' e'']. simpl in H3.
  destruct (shr_m mrs'') as [| p | p]; [reflexivity | | lia].
  destruct (e'' <=? emax - prec); reflexivity.
Qed.

Lemma SFdiv_sign (s : bool) (mx my : positive) (ex ey : Z) :
  match SFdiv prec emax (S754_finite s mx ex) (S754_finite false my ey) with
  | S754_zero s' | S754_infinity s' | S754_finite s' _ _ => s' = s
  | S754_nan => False
  end.
Proof.
  unfold SFdiv, SFdiv_core_binary.
  set (e' := Z.min _ _). set (m' := match ex - ey - e' with 0 => _ | _ => _ end).
  assert (Hm : 0 <= m').
  { subst m'. destruct (ex - ey - e'); try lia. apply Z.shiftl_nonneg. lia. }
  pose proof (Z_div_mod m' (Z.pos my) eq_refl) as Hq.
  destruct (Z.div_eucl m' (Z.pos my)) as [q r].
  rewrite xorb_false_r.
  apply binary_round_aux_sign. nia.
Qed.

(** A hundredth of a float that is at most zero is at most zero. *)
Lemma hundredth_nonpos (h : float) :
  (h <=? 0)%float = true -> (h / 100 <=? 0)%float = true.
Proof.
  rewrite !leb_spec, div_spec. unfold SF64div.
  change (Prim2SF 0) with (S754_zero false).
  change (Prim2SF 100) with (S754_finite false 7036874417766400 (-46)).
  destruct (Prim2SF h) as [s | s | | s m e]; try discriminate.
  - reflexivity.
  - destruct s; [reflexivity | discriminate].
  - destruct s; [intros _ | discriminate].
    pose proof (SFdiv_sign true m 7036874417766400 e (-46)) as H.
    destruct (SFdiv prec emax _ _) as [s' | s' | | s' m' e2];
      [subst s' | subst s' | contradiction | subst s']; reflexivity.
Qed.

Lemma compute_bmi_guard (height_cm weight_kg : float) :
  (height_cm <=? 0)%float = true ->
  Py.raises (compute_bmi height_cm weight_kg) = false.
Proof.
  intros H. unfold compute_bmi.
  destruct (Py.float_bool height_cm); [| reflexivity].
  now rewrite (hundredth_nonpos _ H).
Qed.

(** The two examples of section 8: 170 cm and 70 kg give 24.2, and a
    height of 0 gives 0.0. *)
Theorem compute_bmi_examples :
  compute_bmi 170 70 = Py.Ok 24.2%float
  /\ compute_bmi 0 70 = Py.Ok 0%float.
Proof. split; vm_compute; reflexivity. Qed.

(** X2. For every height that is at most zero, [-0.0] and minus infinity
    included, [compute_bmi] returns [0.0] and raises nothing, whatever the
    weight. *)
Theorem compute_bmi_nonpositive_height (height_cm weight_kg : float) :
  (height_cm <=? 0)%float = true ->
  compute_bmi height_cm weight_kg = Py.Ok 0%float.
Proof.
  intros H. unfold compute_bmi.
  destruct (Py.float_bool height_cm).
  - (* a non-zero height: its hundredth is still at most zero *)
    now rewrite (hundredth_nonpos _ H).
  - (* a zero: [h_m] is 0 *)
    reflexivity.
Qed.

Lemma compute_bmi_nonpositive_height_witness :
  compute_bmi (-170) 70 = Py.Ok 0%float.
Proof. apply compute_bmi_nonpositive_height. reflexivity. Defined.

(** When a hundredth of the height is positive and its square is not
    zero, [compute_bmi] raises nothing and returns the quotient of the
    weight by that square, rounded to one decimal place. *)
Theorem compute_bmi_quotient (height_cm weight_kg : float) :
  (0 <? height_cm / 100)%float = true ->
  ((height_cm / 100) * (height_cm / 100) =? 0)%float = false ->
  compute_bmi height_cm weight_kg
  = Py.Ok (Py.round (weight_kg / ((height_cm / 100) * (height_cm / 100))) 1).
Proof.
  intros Hpos Hsq. unfold compute_bmi, Py.float_bool, Py.truediv.
  assert (Hnz : (height_cm =? 0)%float = false).
  { revert Hpos. rewrite eqb_spec, ltb_spec, div_spec. unfold SF64div.
    change (Prim2SF 0) with (S754_zero false).
    change (Prim2SF 100) with (S754_finite false 7036874417766400 (-46)).
    destruct (Prim2SF height_cm) as [s | s | | s m e]; intros H;
      [simpl in H; discriminate H | | reflexivity |]; destruct s; reflexivity. }
  assert (Hgt : (height_cm / 100 <=? 0)%float = false).
  { revert Hpos. rewrite leb_spec, ltb_spec.
    change (Prim2SF 0) with (S754_zero false).
    destruct (Prim2SF (height_cm / 100)) as [s | s | | s m e]; intros H;
      try discriminate H; destruct s; try discriminate H; reflexivity. }
  rewrite Hnz. cbn [negb]. rewrite Hgt, Hsq. reflexivity.
Qed.

Lemma compute_bmi_quotient_witness :
  compute_bmi 170 70 = Py.Ok (Py.round (70 / ((170 / 100) * (170 / 100))) 1).
Proof. apply compute_bmi_quotient; reflexivity. Defined.

(** *** The safety parsers and the pipeline *)

(** An absent field, a text that is no number, [nan] and an infinity all
    give the default of [s_int]; an absent field and a text that is no
    number give the default of [s_float], which lets [nan] and infinities
    through. *)
Theorem safe_parsers_examples (rt : Py.runtime) :
  s_int rt None 0 = 0
  /\ s_int rt (Some "abc") 0 = 0
  /\ s_int rt (Some "") 0 = 0
  /\ s_int rt (Some "nan") 0 = 0
  /\ s_int rt (Some "inf") 0 = 0
  /\ s_int rt (Some " 45.9 ") 0 = 45
  /\ s_int rt (Some "-7.5") 0 = -7
  /\ s_float rt None 0 = 0%float
  /\ s_float rt (Some "12,5") 0 = 0%float
  /\ s_float rt (Some "92.5") 0 = 92.5%float
  /\ s_float rt (Some "inf") 0 = infinity
  /\ Prim2SF (s_float rt (Some "nan") 0) = S754_nan.
Proof. repeat split; vm_compute; reflexivity. Qed.

(** The POST branch of [dashboard] raises exactly when [compute_bmi]
    raises on the parsed height and weight. *)
Theorem dashboard_raises_iff_bmi (rt : Py.runtime) (f : form) :
  Py.raises (dashboard rt f)
  = Py.raises (compute_bmi (s_float rt (form_get "height_cm" f) 0)
                           (s_float rt (form_get "weight_kg" f) 0)).
Proof.
  unfold dashboard.
  destruct (compute_bmi _ _) as [b | e]; cbn [Py.bind]; [| reflexivity].
  destruct (score_diabetes _ _ _ _ _) as [[d_cat d_score] d_reasons].
  destruct (score_hypertension _ _ _ _ _) as [[h_cat h_score] h_reasons].
  destruct (score_heart _ _ _ _ _ _) as [[c_cat c_score] c_reasons].
  reflexivity.
Qed.

(** X4. When the height is absent, is no number, or parses to a float that is
    at most zero, [dashboard] returns a report. *)
Theorem dashboard_returns_without_height (rt : Py.runtime) (f : form) :
  (s_float rt (form_get "height_cm" f) 0 <=? 0)%float = true ->
  Py.raises (dashboard rt f) = false.
Proof.
  intros H.
  pose proof (compute_bmi_guard _ (s_float rt (form_get "weight_kg" f) 0) H) as G.
  unfold dashboard.
  destruct (compute_bmi _ _) as [b | e]; cbn [Py.bind]; [| discriminate G].
  destruct (score_diabetes _ _ _ _ _) as [[d_cat d_score] d_reasons].
  destruct (score_hypertension _ _ _ _ _) as [[h_cat h_score] h_reasons].
  destruct (score_heart _ _ _ _ _ _) as [[c_cat c_score] c_reasons].
  reflexivity.
Qed.

Lemma dashboard_returns_without_height_witness :
  Py.raises (dashboard Py.ascii_runtime [("height_cm", "tall"); ("weight_kg", "70")])
  = false.
Proof. apply dashboard_returns_without_height. reflexivity. Defined.

(** X6. Section 8: with the other arguments fixed, the heart score for the
    diabetes category High is at least the one for Moderate, which is at
    least the one for Low. *)
Theorem heart_score_by_diabetes_category age gender cholesterol smoker systolic :
  score_of (score_heart age gender cholesterol smoker "Low" systolic)
  <= score_of (score_heart age gender cholesterol smoker "Moderate" systolic)
  <= score_of (score_heart age gender cholesterol smoker "High" systolic).
Proof.
  rewrite !score_heart_table. unfold score_of, Spec.assess, Spec.heart_rules.
  cbn [fst snd]. rewrite !total_cons. cbn [String.eqb Ascii.eqb Bool.eqb].
  cbn [Spec.when Spec.ladder points]. lia.
Qed.

(** *** The range of the scores *)

Lemma points_ladder3 (b1 b2 b3 : bool) (p1 p2 p3 : Z) (r1 r2 r3 : string) :
  points (Spec.ladder [Spec.when b1 p1 r1; Spec.when b2 p2 r2; Spec.when b3 p3 r3])
  = if b1 then p1 else if b2 then p2 else if b3 then p3 else 0.
Proof. now destruct b1, b2, b3. Qed.

Lemma score_hypertension_points age systolic diastolic bmi smoker :
  score_of (score_hypertension age systolic diastolic bmi smoker)
  = Spec.total (Spec.hypertension_rules age systolic diastolic bmi smoker).
Proof. rewrite score_hypertension_table. reflexivity. Qed.

(** The score of each scorer as the sum of the points of its rule groups. *)
Lemma score_diabetes_sum age bmi fasting_glucose activity fam_diabetes :
  score_of (score_diabetes age bmi fasting_glucose activity fam_diabetes)
  = (if age >=? 45 then 2 else 0)
    + ((if (30 <=? bmi)%float then 3 else if (25 <=? bmi)%float then 1 else 0)
       + ((if fasting_glucose >=? 126 then 5
           else if fasting_glucose >=? 100 then 3 else 0)
          + ((if String.eqb activity "low" then 2
              else if String.eqb activity "medium" then 1 else 0)
             + ((if fam_diabetes then 2 else 0) + 0)))).
Proof.
  rewrite score_diabetes_points. unfold Spec.diabetes_rules.
  rewrite !total_cons, !points_ladder2, !points_when. reflexivity.
Qed.

Lemma score_hypertension_sum age systolic diastolic bmi smoker :
  score_of (score_hypertension age systolic diastolic bmi smoker)
  = (if (systolic >=? 160) || (diastolic >=? 100) then 5
     else if (systolic >=? 140) || (diastolic >=? 90) then 3
     else if (systolic >=? 130) || (diastolic >=? 80) then 2 else 0)
    + ((if age >=? 55 then 2 else 0)
       + ((if (30 <=? bmi)%float then 2 else if (25 <=? bmi)%float then 1 else 0)
          + ((if smoker then 2 else 0) + 0))).
Proof.
  rewrite score_hypertension_points.
  unfold Spec.hypertension_rules, Spec.bp_ladder.
  rewrite !total_cons, points_ladder3, points_ladder2, !points_when.
  reflexivity.
Qed.

Lemma score_heart_sum age gender cholesterol smoker diabetes_cat systolic :
  score_of (score_heart age gender cholesterol smoker diabetes_cat systolic)
  = (if (String.eqb gender "male" && (age >=? 45))
        || (String.eqb gender "female" && (age >=? 55)) then 2 else 0)
    + ((if cholesterol >=? 240 then 3 else if cholesterol >=? 200 then 2 else 0)
       + ((if smoker then 2 else 0)
          + ((if String.eqb diabetes_cat "High" then 2
              else if String.eqb diabetes_cat "Moderate" then 1 else 0)
             + ((if systolic >=? 140 then 2
                 else if systolic >=? 130 then 1 else 0) + 0)))).
Proof.
  rewrite score_heart_points. unfold Spec.heart_rules.
  rewrite !total_cons, !points_ladder2, !points_when. reflexivity.
Qed.

(** X1. The diabetes score lies between 0 and 14, the hypertension score
    and the heart score between 0 and 11, and each of these bounds is
    reached. *)
Theorem score_ranges :
  (forall age bmi fasting_glucose activity fam_diabetes,
      0 <= score_of (score_diabetes age bmi fasting_glucose activity fam_diabetes)
      <= 14)
  /\ (forall age systolic diastolic bmi smoker,
         0 <= score_of (score_hypertension age systolic diastolic bmi smoker) <= 11)
  /\ (forall age gender cholesterol smoker diabetes_cat systolic,
         0 <= score_of (score_heart age gender cholesterol smoker diabetes_cat systolic)
         <= 11)
  /\ map score_of
       [ score_diabetes 20 20 80 "high" false;
         score_diabetes 45 30 126 "low" true;
         score_hypertension 20 120 70 20 false;
         score_hypertension 55 160 100 30 true;
         score_heart 20 "male" 150 false "Low" 120;
         score_heart 45 "male" 240 true "High" 140 ]
     = [0; 14; 0; 11; 0; 11].
Proof.
  split; [intros; rewrite score_diabetes_sum; split_ifs; lia |].
  split; [intros; rewrite score_hypertension_sum; split_ifs; lia |].
  split; [intros; rewrite score_heart_sum; split_ifs; lia |].
  reflexivity.
Qed.

(** *** Monotonicity of the hypertension and heart scores *)

Lemma hypertension_monotone_numbers age age' systolic systolic' diastolic diastolic'
    bmi smoker :
  age <= age' -> systolic <= systolic' -> diastolic <= diastolic' ->
  score_of (score_hypertension age systolic diastolic bmi smoker)
  <= score_of (score_hypertension age' systolic' diastolic' bmi smoker).
Proof. intros Ha Hs Hd. rewrite !score_hypertension_sum. by_groups. Qed.

Lemma bmi_points_monotone (bmi bmi' : float) (p1 p2 : Z) :
  (bmi <=? bmi')%float = true -> 0 <= p2 <= p1 ->
  (if (30 <=? bmi)%float then p1 else if (25 <=? bmi)%float then p2 else 0)
  <= (if (30 <=? bmi')%float then p1 else if (25 <=? bmi')%float then p2 else 0).
Proof.
  intros H Hp.
  pose proof (fun c : float => float_leb_trans c bmi bmi') as T.
  destruct (30 <=? bmi)%float eqn:E30.
  - rewrite (T _ E30 H). lia.
  - destruct (25 <=? bmi)%float eqn:E25.
    + rewrite (T _ E25 H). destruct (30 <=? bmi')%float; lia.
    + destruct (30 <=? bmi')%float, (25 <=? bmi')%float; lia.
Qed.

Lemma hypertension_monotone_bmi age systolic diastolic bmi bmi' smoker :
  (bmi <=? bmi')%float = true ->
  score_of (score_hypertension age systolic diastolic bmi smoker)
  <= score_of (score_hypertension age systolic diastolic bmi' smoker).
Proof.
  intros H. rewrite !score_hypertension_sum.
  do 2 apply Z.add_le_mono_l. apply Z.add_le_mono_r.
  apply bmi_points_monotone; [exact H | lia].
Qed.

Lemma hypertension_monotone_smoker age systolic diastolic bmi :
  score_of (score_hypertension age systolic diastolic bmi false)
  <= score_of (score_hypertension age systolic diastolic bmi true).
Proof. rewrite !score_hypertension_sum. by_groups. Qed.

Lemma heart_monotone_numbers age age' gender cholesterol cholesterol' smoker
    diabetes_cat systolic systolic' :
  age <= age' -> cholesterol <= cholesterol' -> systolic <= systolic' ->
  score_of (score_heart age gender cholesterol smoker diabetes_cat systolic)
  <= score_of (score_heart age' gender cholesterol' smoker diabetes_cat systolic').
Proof. intros Ha Hc Hs. rewrite !score_heart_sum. by_groups. Qed.

Lemma heart_monotone_smoker age gender cholesterol diabetes_cat systolic :
  score_of (score_heart age gender cholesterol false diabetes_cat systolic)
  <= score_of (score_heart age gender cholesterol true diabetes_cat systolic).
Proof. rewrite !score_heart_sum. by_groups. Qed.

(** X5. The hypertension score never decreases when the age, the systolic
    and the diastolic pressure grow together, when the BMI grows (in the
    order of floats), or when a non-smoker becomes a smoker; the heart
    score never decreases when the age, the cholesterol and the systolic
    pressure grow together for a fixed gender, or when a non-smoker becomes
    a smoker. *)
Theorem pressure_and_heart_scores_monotone :
  (forall age age' systolic systolic' diastolic diastolic' bmi smoker,
      age <= age' -> systolic <= systolic' -> diastolic <= diastolic' ->
      score_of (score_hypertension age systolic diastolic bmi smoker)
      <= score_of (score_hypertension age' systolic' diastolic' bmi smoker))
  /\ (forall age systolic diastolic bmi bmi' smoker,
         (bmi <=? bmi')%float = true ->
         score_of (score_hypertension age systolic diastolic bmi smoker)
         <= score_of (score_hypertension age systolic diastolic bmi' smoker))
  /\ (forall age systolic diastolic bmi,
         score_of (score_hypertension age systolic diastolic bmi false)
         <= score_of (score_hypertension age systolic diastolic bmi true))
  /\ (forall age age' gender cholesterol cholesterol' smoker diabetes_cat
             systolic systolic',
         age <= age' -> cholesterol <= cholesterol' -> systolic <= systolic' ->
         score_of (score_heart age gender cholesterol smoker diabetes_cat systolic)
         <= score_of
              (score_heart age' gender cholesterol' smoker diabetes_cat systolic'))
  /\ (forall age gender cholesterol diabetes_cat systolic,
         score_of (score_heart age gender cholesterol false diabetes_cat systolic)
         <= score_of (score_heart age gender cholesterol true diabetes_cat systolic)).
Proof.
  split; [exact hypertension_monotone_numbers |].
  split; [exact hypertension_monotone_bmi |].
  split; [exact hypertension_monotone_smoker |].
  split; [exact heart_monotone_numbers |].
  exact heart_monotone_smoker.
Qed.

Lemma pressure_and_heart_scores_monotone_witness :
  score_of (score_hypertension 40 125 78 22 false)
  <= score_of (score_hypertension 60 145 95 22 false)
  /\ score_of (score_hypertension 40 125 78 22 false)
     <= score_of (score_hypertension 40 125 78 31 false)
  /\ score_of (score_heart 40 "female" 180 false "Low" 120)
     <= score_of (score_heart 60 "female" 250 false "Low" 145).
Proof.
  split; [apply (proj1 pressure_and_heart_scores_monotone); lia |].
  split; [apply (proj1 (proj2 pressure_and_heart_scores_monotone)); reflexivity |].
  apply (proj1 (proj2 (proj2 (proj2 pressure_and_heart_scores_monotone)))); lia.
Defined.

(** *** Integer fields are read exactly *)

Lemma digits2_pos_lower (p : positive) :
  2 ^ (Z.pos (digits2_pos p) - 1) <= Z.pos p.
Proof.
  induction p as [p IH | p IH |]; cbn [digits2_pos]; [| | simpl; lia];
    rewrite Pos2Z.inj_succ;
    replace (Z.succ (Z.pos (digits2_pos p)) - 1)
      with (Z.succ (Z.pos (digits2_pos p) - 1)) by lia;
    rewrite Z.pow_succ_r by lia; lia.
Qed.

Lemma digits2_pos_small (p : positive) :
  Z.pos p < 2 ^ 53 -> Z.pos (digits2_pos p) <= 53.
Proof.
  intros H. destruct (Z_le_gt_dec (Z.pos (digits2_pos p)) 53) as [L | G];
    [exact L |].
  pose proof (digits2_pos_lower p) as Hl.
  assert (2 ^ 53 <= 2 ^ (Z.pos (digits2_pos p) - 1))
    by (apply Z.pow_le_mono_r; lia).
  lia.
Qed.

Lemma digits2_pos_shift (k p : positive) :
  Z.pos (digits2_pos (Pos.iter xO p k)) = Z.pos (digits2_pos p) + Z.pos k.
Proof.
  induction k as [| k IH] using Pos.peano_ind.
  - cbn [Pos.iter digits2_pos]. lia.
  - rewrite Pos.iter_succ. cbn [digits2_pos]. lia.
Qed.

Lemma shift_value (k p : positive) :
  Z.pos (Pos.iter xO p k) = Z.pos p * 2 ^ Z.pos k.
Proof.
  induction k as [| k IH] using Pos.peano_ind.
  - cbn [Pos.iter]. lia.
  - rewrite Pos.iter_succ, Pos2Z.inj_succ, Z.pow_succ_r by lia.
    rewrite Pos2Z.inj_xO, IH. lia.
Qed.

(** A mantissa of 53 bits with an exponent in range is left as it is. *)
Lemma binary_round_aux_canonical (s : bool) (m : positive) (e : Z) :
  Z.pos (digits2_pos m) = 53 -> -1074 <= e <= 971 ->
  binary_round_aux prec emax s (Z.pos m) e loc_Exact = S754_finite s m e.
Proof.
  intros Hd He.
  assert (F : fexp prec emax (Zdigits2 (Z.pos m) + e) - e = 0).
  { unfold fexp, SpecFloat.emin, Zdigits2. rewrite Hd.
    change prec with 53. change emax with 1024. lia. }
  unfold binary_round_aux, shr_fexp. rewrite F.
  cbn [shr shr_record_of_loc shr_m loc_of_shr_record round_nearest_even].
  rewrite F. cbn [shr shr_m].
  change (emax - prec) with 971.
  destruct (Z.leb_spec e 971); [reflexivity | lia].
Qed.

(** An integer below 2^53 is a float. *)
Lemma binary_round_exact (s : bool) (p : positive) :
  Z.pos p < 2 ^ 53 ->
  exists m e,
    binary_round prec emax s p 0 = S754_finite s m e
    /\ -52 <= e <= 0
    /\ Z.pos m = Z.pos p * 2 ^ (- e)
    /\ Z.pos (digits2_pos m) = 53.
Proof.
  intros H. pose proof (digits2_pos_small p H) as Hd.
  unfold binary_round.
  assert (F : fexp prec emax (Z.pos (digits2_pos p) + 0)
              = Z.pos (digits2_pos p) - 53).
  { unfold fexp, SpecFloat.emin. change prec with 53. change emax with 1024.
    lia. }
  rewrite F. unfold shl_align.
  destruct (Z.pos (digits2_pos p) - 53 - 0) as [| k | k] eqn:K; try lia.
  - assert (D : Z.pos (digits2_pos p) = 53) by lia.
    exists p, 0. rewrite D. cbn [Z.sub Z.opp Z.add Z.pos_sub Pos.pred_double].
    rewrite binary_round_aux_canonical by lia.
    repeat split; try lia.
  - exists (Pos.iter xO p k), (Z.pos (digits2_pos p) - 53).
    rewrite binary_round_aux_canonical
      by (try rewrite digits2_pos_shift; lia).
    split; [reflexivity |]. split; [lia |].
    split; [| rewrite digits2_pos_shift; lia].
    rewrite shift_value. f_equal. f_equal. lia.
Qed.

Lemma int_of_float_integer (s : bool) (p : positive) :
  Z.pos p < 2 ^ 53 ->
  Py.int_of_float (SF2Prim (binary_round prec emax s p 0))
  = Py.Ok (if s then Z.neg p else Z.pos p).
Proof.
  intros H. destruct (binary_round_exact s p H) as (m & e & -> & He & Hm & Hd).
  unfold Py.int_of_float. rewrite Prim2SF_SF2Prim.
  - destruct (Z.leb_spec 0 e) as [L | L].
    + replace e with 0 in * by lia. rewrite Hm. cbn [Z.opp].
      rewrite Z.pow_0_r, !Z.mul_1_r. now destruct s.
    + rewrite Hm, Z.div_mul by (apply Z.pow_nonzero; lia). now destruct s.
  - unfold SpecFloat.valid_binary, bounded, canonical_mantissa, fexp,
      SpecFloat.emin.
    rewrite Hd. change prec with 53. change emax with 1024.
    apply andb_true_iff. split; [apply Z.eqb_eq | apply Z.leb_le]; lia.
Qed.

Lemma plain_digit_facts (c : ascii) :
  plain_digit c ->
  Py.is_ascii c = true
  /\ Py.is_space c = false
  /\ Ascii.eqb c "_" = false
  /\ Ascii.eqb c "-" = false
  /\ Ascii.eqb c "+" = false
  /\ Ascii.eqb (Py.lower c) "i" = false
  /\ Ascii.eqb (Py.lower c) "n" = false.
Proof.
  unfold plain_digit.
  destruct c as [[] [] [] [] [] [] [] []]; vm_compute; intros H;
    try discriminate H; repeat split.
Qed.

Lemma numeral_digits (d : Decimal.uint) : Forall plain_digit (numeral d).
Proof.
  unfold numeral.
  induction d; cbn [NilEmpty.string_of_uint list_ascii_of_string];
    constructor; try assumption; reflexivity.
Qed.

Lemma numeral_nonnil (d : Decimal.uint) :
  d <> Decimal.Nil -> exists c l, numeral d = c :: l.
Proof.
  unfold numeral.
  destruct d; [congruence | ..]; intros _;
    cbn [NilEmpty.string_of_uint list_ascii_of_string]; eauto.
Qed.

Lemma read_digits_numeral (d : Decimal.uint) :
  forall (acc : positive) (n : Z),
    Py.read_digits (Z.pos acc) n (numeral d)
    = (Z.pos (Pos.of_uint_acc d acc), n + Z.of_nat (List.length (numeral d)), []).
Proof.
  unfold numeral.
  induction d; intros acc n;
    cbn [NilEmpty.string_of_uint list_ascii_of_string Py.read_digits
         Pos.of_uint_acc List.length];
    [f_equal; f_equal; lia | ..];
    (match goal with
     | |- context [Py.is_digit ?c] =>
         change (Py.is_digit c) with true; cbv iota
     end;
     match goal with
     | |- context [Py.digit_val ?c] =>
         let v := eval vm_compute in (Py.digit_val c) in
         change (Py.digit_val c) with v
     end;
     match goal with
     | |- Py.read_digits ?a _ _ = (Z.pos (Pos.of_uint_acc _ ?b), _, _) =>
         replace a with (Z.pos b) by lia
     end;
     rewrite IHd; f_equal; f_equal; lia).
Qed.

Lemma read_digits_numeral_0 (d : Decimal.uint) :
  forall n : Z,
    Py.read_digits 0 n (numeral d)
    = (Z.of_N (Pos.of_uint d), n + Z.of_nat (List.length (numeral d)), []).
Proof.
  induction d; intros n;
    try (change (numeral (Decimal.D0 d)) with ("0"%char :: numeral d);
         cbn [Py.read_digits Pos.of_uint List.length];
         change (Py.is_digit "0") with true; cbv iota;
         change (10 * 0 + Py.digit_val "0") with 0;
         rewrite IHd; f_equal; f_equal; lia);
    [cbn; f_equal; f_equal; lia | ..];
    (unfold numeral;
     cbn [NilEmpty.string_of_uint list_ascii_of_string Py.read_digits
          Pos.of_uint List.length];
     match goal with
     | |- context [Py.is_digit ?c] =>
         change (Py.is_digit c) with true; cbv iota
     end;
     match goal with
     | |- context [10 * 0 + Py.digit_val ?c] =>
         let v := eval vm_compute in (10 * 0 + Py.digit_val c) in
         change (10 * 0 + Py.digit_val c) with v
     end;
     fold (numeral d); rewrite read_digits_numeral;
     cbn [Z.of_N]; f_equal; f_equal; lia).
Qed.

Lemma plain_of_digit (c : ascii) : plain_digit c -> plain c.
Proof. intros H. destruct (plain_digit_facts c H) as (A & B & C & _). now repeat split. Qed.

Lemma forallb_is_ascii (l : list ascii) :
  Forall plain l -> forallb Py.is_ascii l = true.
Proof.
  induction 1 as [| c l (A & _) _ IH]; [reflexivity |].
  cbn [forallb]. now rewrite A, IH.
Qed.

Lemma lstrip_plain (l : list ascii) : Forall plain l -> Py.lstrip l = l.
Proof.
  destruct 1 as [| c l (_ & B & _) _]; [reflexivity |].
  cbn [Py.lstrip]. now rewrite B.
Qed.

Lemma strip_plain (l : list ascii) : Forall plain l -> Py.strip l = l.
Proof.
  intros H. unfold Py.strip. rewrite (lstrip_plain l H).
  rewrite lstrip_plain by (apply Forall_rev; exact H).
  apply rev_involutive.
Qed.

Lemma underscores_ok_plain (l : list ascii) :
  Forall plain l ->
  forall prev, Ascii.eqb prev "_" = false -> Py.underscores_ok prev l = true.
Proof.
  induction 1 as [| c l (_ & _ & C) _ IH]; intros prev Hp;
    cbn [Py.underscores_ok].
  - now rewrite Hp.
  - rewrite C, Hp. cbn [negb orb andb]. now apply IH.
Qed.

Lemma drop_underscores_plain (l : list ascii) :
  Forall plain l -> Py.drop_underscores l = l.
Proof.
  unfold Py.drop_underscores.
  induction 1 as [| c l (_ & _ & C) _ IH]; [reflexivity |].
  cbn [filter]. rewrite C. cbn [negb]. now rewrite IH.
Qed.

Lemma read_sign_digit (c : ascii) (l : list ascii) :
  plain_digit c -> Py.read_sign (c :: l) = (false, c :: l).
Proof.
  unfold plain_digit.
  destruct c as [[] [] [] [] [] [] [] []]; vm_compute; intros H;
    try discriminate H; reflexivity.
Qed.

Lemma read_inf_or_nan_digit (c : ascii) (l : list ascii) :
  plain_digit c -> Py.read_inf_or_nan (c :: l) = None.
Proof.
  intros H. destruct (plain_digit_facts c H) as (_ & _ & _ & _ & _ & I & N).
  unfold Py.read_inf_or_nan.
  cbn [map string_of_list_ascii String.eqb]. now rewrite I, N.
Qed.

(** Reading the numeral of a positive integer, with a minus sign or
    without. *)
Lemma float_of_numeral (rt : Py.runtime) (neg : bool) (p : positive) :
  Py.float_of_string rt
    (string_of_list_ascii
       ((if neg then ["-"%char] else []) ++ numeral (Pos.to_uint p)))
  = Py.Ok (SF2Prim (binary_round prec emax neg p 0)).
Proof.
  pose proof (numeral_digits (Pos.to_uint p)) as Hd.
  destruct (numeral_nonnil _ (Unsigned.to_uint_nonnil p)) as (c & l & E).
  pose proof (read_digits_numeral_0 (Pos.to_uint p) 0) as Hr.
  rewrite Unsigned.of_to in Hr. cbn [Z.of_N] in Hr.
  rewrite E in *.
  assert (Hc : plain_digit c) by now inversion Hd.
  assert (Hp : Forall plain ((if neg then ["-"%char] else []) ++ c :: l)%list).
  { apply Forall_app. split.
    - destruct neg; repeat constructor.
    - eapply Forall_impl; [apply plain_of_digit | exact Hd]. }
  unfold Py.float_of_string.
  rewrite list_ascii_of_string_of_list_ascii.
  rewrite (forallb_is_ascii _ Hp). cbn [negb].
  rewrite (strip_plain _ Hp), (underscores_ok_plain _ Hp) by reflexivity.
  rewrite (drop_underscores_plain _ Hp).
  assert (Hs : Py.read_sign ((if neg then ["-"%char] else []) ++ c :: l)%list
               = (neg, c :: l)).
  { destruct neg; [reflexivity | now apply read_sign_digit]. }
  rewrite Hs, (read_inf_or_nan_digit c l Hc), Hr.
  cbn [List.length]. 
  destruct (Z.eqb_spec (0 + Z.of_nat (S (List.length l)) + 0) 0) as [Z0 | _];
    [lia |].
  cbn [Py.read_exponent]. unfold Py.SF_of_decimal.
  change (0 <=? 0 - 0) with true. cbv iota.
  change (Z.to_pos (10 ^ (0 - 0))) with 1%positive.
  now rewrite Pos.mul_1_r.
Qed.

(** X23. The integer fields are read exactly: [s_int] of the decimal
    numeral of an integer of magnitude below 2^53, as [str] prints it, is
    that integer, whatever the default; and [s_float] of it is a float of
    exactly that value. *)
Theorem s_int_reads_decimal (rt : Py.runtime) (n d : Z) (x : float) :
  Z.abs n < 2 ^ 53 ->
  s_int rt (Some (Py.str_of_int n)) d = n
  /\ Py.int_of_float (s_float rt (Some (Py.str_of_int n)) x) = Py.Ok n.
Proof.
  intros H. unfold s_int, s_float, Py.float, Py.str_of_int.
  destruct n as [| p | p].
  - now vm_compute.
  - cbn [Z.to_int NilZero.string_of_int].
    assert (E : NilZero.string_of_uint (Pos.to_uint p)
                = string_of_list_ascii
                    (([] : list ascii) ++ numeral (Pos.to_uint p))).
    { unfold numeral. cbn [app]. rewrite string_of_list_ascii_of_string.
      pose proof (Unsigned.to_uint_nonnil p).
      now destruct (Pos.to_uint p). }
    rewrite E, (float_of_numeral rt false p).
    cbn [Py.bind Py.try_except].
    rewrite (int_of_float_integer false p) by lia. now split.
  - cbn [Z.to_int NilZero.string_of_int].
    assert (E : String "-" (NilZero.string_of_uint (Pos.to_uint p))
                = string_of_list_ascii
                    (["-"%char] ++ numeral (Pos.to_uint p))).
    { unfold numeral. cbn [app string_of_list_ascii].
      rewrite string_of_list_ascii_of_string.
      pose proof (Unsigned.to_uint_nonnil p).
      now destruct (Pos.to_uint p). }
    rewrite E, (float_of_numeral rt true p).
    cbn [Py.bind Py.try_except].
    rewrite (int_of_float_integer true p) by lia. now split.
Qed.

Lemma s_int_reads_decimal_witness :
  s_int Py.ascii_runtime (Some "-126") 0 = -126
  /\ Py.int_of_float (s_float Py.ascii_runtime (Some "-126") 0) = Py.Ok (-126).
Proof. apply (s_int_reads_decimal Py.ascii_runtime (-126) 0 0). reflexivity. Defined.

(** *** The narrative against the scores *)

Lemma not_low_iff (s : Z) :
  negb (String.eqb (Spec.risk_category s) "Low") = (4 <=? s).
Proof.
  unfold Spec.risk_category.
  destruct (7 <=? s) eqn:H7; [| now destruct (4 <=? s)].
  apply Z.leb_le in H7. symmetry. apply Z.leb_le. lia.
Qed.

(** X8. The narrative of a report is its opening line, then one advisory
    line for each condition whose score is at least 4 (diabetes, then
    hypertension, then heart) and none for the others, then the line of
    care tips and the closing line, joined by new lines. *)
Theorem narrative_advisories_by_score (rt : Py.runtime) (f : form)
    (res : result) (inp : inputs) (narrative : string) :
  dashboard rt f = Py.Ok (res, inp, narrative) ->
  exists opening,
    String.prefix "Based on your details (Age " opening = true
    /\ narrative
       = Py.join (String (ascii_of_nat 10) "")
           ([opening] ++ advisories res ++ [tips_line inp; disclaimer])%list.
Proof.
  unfold dashboard.
  destruct (compute_bmi _ _) as [b |]; cbn [Py.bind]; [| discriminate].
  rewrite score_diabetes_table. unfold Spec.assess at 1. cbv beta iota.
  rewrite score_hypertension_table. unfold Spec.assess at 1. cbv beta iota.
  rewrite score_heart_table. unfold Spec.assess at 1. cbv beta iota.
  intros [= <- <- <-].
  unfold ai_guidance, guidance_parts, advisories.
  cbn [category score diabetes hypertension heart].
  rewrite !not_low_iff.
  eexists. split; [| destruct (4 <=? _), (4 <=? _), (4 <=? _); reflexivity].
  apply prefix_app.
Qed.



Lemma narrative_advisories_by_score_witness :
  exists res inp narrative opening,
    dashboard Py.ascii_runtime checkup = Py.Ok (res, inp, narrative)
    /\ narrative
       = Py.join (String (ascii_of_nat 10) "")
           ([opening] ++ advisories res ++ [tips_line inp; disclaimer])%list.
Proof.
  destruct (dashboard Py.ascii_runtime checkup) as [[[res inp] narrative] | e] eqn:E;
    [| vm_compute in E; discriminate E].
  destruct (narrative_advisories_by_score _ _ _ _ _ E) as (opening & _ & H).
  exists res, inp, narrative, opening. split; [reflexivity | exact H].
Defined.

(** *** The views *)

Lemma compute_bmi_raises_zero_division (height_cm weight_kg : float) (e : Py.exc) :
  compute_bmi height_cm weight_kg = Py.Raise e -> e = Py.ZeroDivisionError.
Proof.
  unfold compute_bmi, Py.truediv.
  destruct (_ <=? 0)%float; [discriminate |].
  destruct (_ =? 0)%float; cbn [Py.bind]; [| discriminate].
  now intros [= <-].
Qed.

Lemma dashboard_raises_zero_division (rt : Py.runtime) (f : form) (e : Py.exc) :
  dashboard rt f = Py.Raise e -> e = Py.ZeroDivisionError.
Proof.
  unfold dashboard.
  destruct (compute_bmi _ _) as [b | e'] eqn:E; cbn [Py.bind].
  - destruct (score_diabetes _ _ _ _ _) as [[d_cat d_score] d_reasons].
    destruct (score_hypertension _ _ _ _ _) as [[h_cat h_score] h_reasons].
    destruct (score_heart _ _ _ _ _ _) as [[c_cat c_score] c_reasons].
    discriminate.
  - intros [= <-]. exact (compute_bmi_raises_zero_division _ _ _ E).
Qed.

Section ViewProperties.

Context {J : Type} (lib : Web.library J).

Lemma insert_user_after_select (name hash created : string) (d : Web.db) :
  Web.select_user name d = None ->
  Web.insert_user name hash created d
  = inr {| Web.users_table :=
             {| Web.rows :=
                  Py.append (user_rows d)
                    {| Web.u_id := Web.next_id Web.u_id (Web.users_table d);
                       Web.u_username := name;
                       Web.u_password_hash := hash;
                       Web.u_created_at := Some created |};
                Web.seq := Web.next_id Web.u_id (Web.users_table d) |};
           Web.history_table := Web.history_table d |}.
Proof.
  unfold Web.select_user, Web.insert_user. intros H.
  destruct (existsb _ _) eqn:E; [| reflexivity].
  apply existsb_exists in E. destruct E as (r & Hin & Hr).
  rewrite (find_none _ _ H r Hin) in Hr. discriminate.
Qed.

(** The INSERT of [signup] alone: it raises exactly on a name that is
    stored, and what it raises is [sqlite3.IntegrityError]. *)
Lemma insert_user_raises (name hash created : string) (d : Web.db)
    (e : Web.exc) :
  Web.insert_user name hash created d = inl e
  <-> e = Web.IntegrityError /\ In name (map Web.u_username (user_rows d)).
Proof.
  unfold Web.insert_user. cbv zeta. fold (user_rows d).
  destruct (existsb _ (user_rows d)) eqn:E.
  - apply existsb_exists in E. destruct E as (r & Hin & Hr).
    apply String.eqb_eq in Hr. split.
    + intros [= <-]. split; [reflexivity |].
      apply in_map_iff. now exists r.
    + now intros [-> _].
  - split; [discriminate |]. intros [_ Hin].
    apply in_map_iff in Hin. destruct Hin as (r & Hr & Hin).
    assert (X : existsb (fun r => String.eqb (Web.u_username r) name)
                  (user_rows d) = true).
    { apply existsb_exists. exists r. split; [exact Hin |].
      now apply String.eqb_eq. }
    congruence.
Qed.

(** X9. When no other request is handled between the statements of a
    view, a request can end in an exception in two places only: the
    [ZeroDivisionError] of the scoring pipeline, in a POST to [dashboard]
    by a session that is logged in; and what [check_password_hash] raises
    on the stored hash of the user that a POST to [login] names (werkzeug
    raises [ValueError] on a hash of a method it does not know).  So
    [index], [signup], [logout] and [history] do not raise, whatever the
    request, the session and the database. *)
Theorem views_raise_in_two_places (r : Web.route) (req : Web.request)
    (s : Web.session) (d : Web.db) (e : Web.exc) :
  Web.handle lib r req s d = inl e ->
  (r = Web.RDashboard
   /\ Web.method req = "POST"
   /\ Web.logged_in s = true
   /\ e = Web.Python Py.ZeroDivisionError
   /\ dashboard (Web.engine lib) (Web.form req)
      = Py.Raise Py.ZeroDivisionError)
  \/ (r = Web.RLogin
      /\ Web.method req = "POST"
      /\ exists user e',
           In user (user_rows d)
           /\ Web.u_username user = Web.stripped_field lib "username" req
           /\ Web.check_password_hash lib (Web.u_password_hash user)
                (Web.stripped_field lib "password" req) = Py.Raise e'
           /\ e = Web.Python e').
Proof.
  unfold Web.handle, Web.returns.
  destruct (String.eqb _ "OPTIONS"); [discriminate |].
  destruct (existsb _ _); [| discriminate].
  destruct r; cbn [Web.view];
    unfold Web.index, Web.signup, Web.signup_between, Web.login, Web.logout,
      Web.dashboard, Web.history, Web.returns.
  - view_cases; discriminate.
  - destruct (String.eqb _ "POST"); [| discriminate].
    destruct (_ || _); [discriminate |].
    destruct (Web.select_user _ d) eqn:E; [discriminate |].
    rewrite (insert_user_after_select _ _ _ _ E). discriminate.
  - destruct (String.eqb _ "POST") eqn:M; [| discriminate].
    apply String.eqb_eq in M.
    destruct (Web.select_user _ d) as [user |] eqn:E; [| discriminate].
    destruct (Web.check_password_hash _ _ _) as [[|] | e'] eqn:C;
      try discriminate.
    intros [= <-]. right. split; [reflexivity |]. split; [exact M |].
    apply find_some in E. destruct E as [Hin Hn]. apply String.eqb_eq in Hn.
    exists user, e'. repeat split; assumption.
  - discriminate.
  - destruct (Web.logged_in s) eqn:L; cbn [negb]; [| discriminate].
    destruct (String.eqb _ "POST") eqn:M; [| discriminate].
    apply String.eqb_eq in M.
    destruct (dashboard _ _) as [[[res inp] narrative] | e'] eqn:E.
    + unfold Web.logged_in in L. destruct (Web.user_id s); discriminate.
    + intros [= <-].
      pose proof (dashboard_raises_zero_division _ _ _ E) as ->.
      left. repeat split; assumption.
  - unfold Web.logged_in.
    destruct (Web.user_id s); cbn [negb]; discriminate.
Qed.

Lemma handle_effect (r : Web.route) (req : Web.request)
    (s : Web.session) (d : Web.db) (o : Web.outcome J) :
  Web.handle lib r req s d = inr o -> effect lib req s d r o.
Proof.
  unfold Web.handle, Web.returns.
  destruct (String.eqb _ "OPTIONS"); [intros [= <-]; now apply Quiet |].
  destruct (existsb _ _); [| intros [= <-]; now apply Quiet].
  destruct r; cbn [Web.view];
    unfold Web.index, Web.signup, Web.signup_between, Web.login, Web.logout,
      Web.dashboard, Web.history, Web.returns.
  - view_cases; intros [= <-]; now apply Quiet.
  - destruct (String.eqb _ "POST") eqn:M; [| intros [= <-]; now apply Quiet].
    apply String.eqb_eq in M.
    destruct (_ || _) eqn:B; [intros [= <-]; now apply Quiet |].
    apply orb_false_iff in B. destruct B as [Bu Bp].
    apply String.eqb_neq in Bu, Bp.
    destruct (Web.select_user _ d) eqn:E; [intros [= <-]; now apply Quiet |].
    rewrite (insert_user_after_select _ _ _ _ E).
    intros [= <-]. now apply SignedUp.
  - destruct (String.eqb _ "POST") eqn:M; [| intros [= <-]; now apply Quiet].
    apply String.eqb_eq in M.
    destruct (Web.select_user _ d) as [user |] eqn:E;
      [| intros [= <-]; now apply Quiet].
    destruct (Web.check_password_hash _ _ _) as [[|] | e'] eqn:C;
      [intros [= <-]; now apply (LoggedIn _ _ _ _ _ user)
      | intros [= <-]; now apply Quiet
      | discriminate].
  - intros [= <-]. now apply LoggedOut.
  - destruct (Web.logged_in s) eqn:L; cbn [negb];
      [| intros [= <-]; now apply Quiet].
    destruct (String.eqb _ "POST") eqn:M; [| intros [= <-]; now apply Quiet].
    apply String.eqb_eq in M.
    destruct (dashboard _ _) as [[[res inp] narrative] | e'] eqn:E;
      [| discriminate].
    destruct (Web.user_id s) as [uid |] eqn:U; [| discriminate].
    intros [= <-]. now apply (Assessed _ _ _ _ _ uid res inp narrative).
  - destruct (Web.logged_in s) eqn:L; cbn [negb];
      [| intros [= <-]; now apply Quiet].
    destruct (Web.user_id s) as [uid |] eqn:U; [| discriminate].
    intros [= <-]. now apply Quiet.
Qed.

(** X10. No view deletes or alters a stored row, and a request adds at most one:
    a user through a POST to [signup], or an assessment of the logged-in
    user through a POST to [dashboard]. *)
Theorem views_only_append (r : Web.route) (req : Web.request)
    (s : Web.session) (d : Web.db) (o : Web.outcome J) :
  Web.handle lib r req s d = inr o ->
  exists new_users new_history,
    user_rows (Web.db_after o) = (user_rows d ++ new_users)%list
    /\ history_rows (Web.db_after o) = (history_rows d ++ new_history)%list
    /\ (List.length new_users + List.length new_history <= 1)%nat
    /\ (new_users <> [] -> r = Web.RSignup /\ Web.method req = "POST")
    /\ (new_history <> [] ->
        r = Web.RDashboard /\ Web.method req = "POST"
        /\ forall row, In row new_history -> Web.user_id s = Some (Web.h_user_id row)).
Proof.
  intros H. apply handle_effect in H.
  destruct H as [r o Hs Hd | o M Hu Hp E A Hs Hr Hh | o user M E C A Hs Hd
                | o A Hs Hd | o uid res inp narrative M U E A Hs Hu Hr].
  - exists [], []. rewrite Hd, !app_nil_r. repeat split; try easy. simpl; lia.
  - eexists. exists []. split; [exact Hr |].
    unfold history_rows. rewrite Hh, app_nil_r.
    repeat split; try easy.
  - exists [], []. rewrite Hd, !app_nil_r. repeat split; try easy. simpl; lia.
  - exists [], []. rewrite Hd, !app_nil_r. repeat split; try easy. simpl; lia.
  - exists []. eexists.
    split; [unfold user_rows; now rewrite Hu, app_nil_r |].
    split; [exact Hr |].
    repeat split; try easy.
    intros row [<- | []]. exact U.
Qed.

Lemma next_id_above {R : Type} (id : R -> Z) (t : Web.table R) (r : R) :
  In r (Web.rows t) -> id r < Web.next_id id t.
Proof.
  unfold Web.next_id. generalize (Web.seq t).
  induction (Web.rows t) as [| x l IH]; simpl; [contradiction |].
  intros z [-> | H]; [lia |].
  specialize (IH z H). lia.
Qed.

Lemma next_id_fresh {R : Type} (id : R -> Z) (t : Web.table R) :
  ~ In (Web.next_id id t) (map id (Web.rows t)).
Proof.
  intros H. apply in_map_iff in H. destruct H as (r & E & Hin).
  pose proof (next_id_above id t r Hin). lia.
Qed.

Lemma select_user_none (name : string) (d : Web.db) :
  Web.select_user name d = None ->
  ~ In name (map Web.u_username (user_rows d)).
Proof.
  unfold Web.select_user. intros H Hin.
  apply in_map_iff in Hin. destruct Hin as (r & E & Hin).
  pose proof (find_none _ _ H r Hin) as F. cbn beta in F.
  rewrite E, String.eqb_refl in F. discriminate.
Qed.

Lemma NoDup_snoc {A : Type} (l : list A) (x : A) :
  NoDup l -> ~ In x l -> NoDup (l ++ [x]).
Proof.
  intros Hl Hx. apply NoDup_app; [exact Hl | repeat constructor; easy |].
  intros y Hy [<- | []]. exact (Hx Hy).
Qed.

(** X11. If no two users share a name or a key, no user has an empty name and
    no two assessments share a key, the same holds after any request. *)
Theorem views_keep_db_ok (r : Web.route) (req : Web.request)
    (s : Web.session) (d : Web.db) (o : Web.outcome J) :
  db_ok d ->
  Web.handle lib r req s d = inr o ->
  db_ok (Web.db_after o).
Proof.
  intros (Hn & Hi & He & Hh) H. apply handle_effect in H.
  destruct H as [r o Hs Hd | o M Hu Hp E A Hs Hr Hh' | o user M E C A Hs Hd
                | o A Hs Hd | o uid res inp narrative M U E A Hs Hu Hr];
    try (rewrite Hd; now repeat split).
  - unfold db_ok, history_rows. rewrite Hr, Hh', !map_app. cbn [map].
    repeat split.
    + apply NoDup_snoc; [exact Hn | now apply select_user_none].
    + apply NoDup_snoc; [exact Hi | apply next_id_fresh].
    + apply Forall_app. split; [exact He | now repeat constructor].
    + exact Hh.
  - unfold db_ok, user_rows. rewrite Hr, Hu, !map_app. cbn [map].
    repeat split; try assumption.
    apply NoDup_snoc; [exact Hh | apply next_id_fresh].
Qed.

(** X12. A session holds a user id after a request only if it held it before,
    or if the request is a POST to [login] whose stripped name is that of
    the stored user with this id and whose stripped password the stored
    hash of that user verifies. *)
Theorem session_only_by_login (r : Web.route) (req : Web.request)
    (s : Web.session) (d : Web.db) (o : Web.outcome J) (uid : Z) :
  Web.handle lib r req s d = inr o ->
  Web.user_id (Web.session_after o) = Some uid ->
  Web.user_id s = Some uid
  \/ (r = Web.RLogin /\ Web.method req = "POST"
      /\ exists user,
           In user (user_rows d)
           /\ Web.u_id user = uid
           /\ Web.u_username user = Web.stripped_field lib "username" req
           /\ Web.check_password_hash lib (Web.u_password_hash user)
                (Web.stripped_field lib "password" req) = Py.Ok true
           /\ Web.username (Web.session_after o) = Some (Web.u_username user)).
Proof.
  intros H U. apply handle_effect in H.
  destruct H as [r o Hs Hd | o M Hu Hp E A Hs Hr Hh' | o user M E C A Hs Hd
                | o A Hs Hd | o uid' res inp narrative M U' E A Hs Hu Hr];
    try (left; congruence).
  - right. repeat split; try assumption.
    exists user. rewrite Hs in U |- *. cbn in U |- *.
    apply find_some in E. destruct E as [Hin Hname].
    apply String.eqb_eq in Hname.
    repeat split; try assumption; congruence.
  - rewrite Hs in U. discriminate.
Qed.

Lemma find_snoc {A : Type} (f : A -> bool) (l : list A) (x : A) :
  find f l = None -> f x = true -> find f (l ++ [x]) = Some x.
Proof.
  intros H Hx. induction l as [| y l IH]; simpl in *; [now rewrite Hx |].
  destruct (f y); [discriminate | exact (IH H)].
Qed.

Lemma handle_post (r : Web.route) (req : Web.request) (s : Web.session)
    (d : Web.db) :
  Web.method req = "POST" ->
  In r [Web.RSignup; Web.RLogin; Web.RDashboard] ->
  Web.handle lib r req s d = Web.view lib r req s d.
Proof.
  intros M Hr. unfold Web.handle. rewrite M.
  simpl in Hr. decompose [or] Hr; subst; try contradiction; reflexivity.
Qed.

Lemma handle_get (r : Web.route) (req : Web.request) (s : Web.session)
    (d : Web.db) :
  Web.method req = "GET" ->
  Web.handle lib r req s d = Web.view lib r req s d.
Proof. intros M. unfold Web.handle. rewrite M. now destruct r. Qed.

Lemma select_user_some (name : string) (d : Web.db) (user : Web.users_row) :
  Web.select_user name d = Some user ->
  In name (map Web.u_username (user_rows d)).
Proof.
  intros E. apply find_some in E. destruct E as [Hin Hn].
  apply String.eqb_eq in Hn. apply in_map_iff. now exists user.
Qed.

(** X13. A POST to [signup] that is handled with no other request between
    its SELECT and its INSERT does not raise.  It redirects to [login]
    exactly when the stripped name and the stripped password are not empty
    and no stored user has that name, and then it has stored one new user
    with that name, the hash of that password and a fresh key; otherwise
    it renders [signup.html] and leaves the database as it was.  When
    other requests are handled between the two statements, it raises
    exactly when the name was free at the SELECT and is stored at the
    INSERT, and what it raises is [sqlite3.IntegrityError]. *)
Theorem signup_creates_iff (req : Web.request) (s : Web.session) (d : Web.db) :
  Web.method req = "POST" ->
  (exists o,
      Web.handle lib Web.RSignup req s d = inr o
      /\ Web.session_after o = s
      /\ (Web.answer o = Web.Redirect "login"
          <-> Web.stripped_field lib "username" req <> ""
              /\ Web.stripped_field lib "password" req <> ""
              /\ ~ In (Web.stripped_field lib "username" req)
                      (map Web.u_username (user_rows d)))
      /\ ((Web.answer o = Web.Redirect "login"
           /\ user_rows (Web.db_after o)
              = (user_rows d
                 ++ [{| Web.u_id := Web.next_id Web.u_id (Web.users_table d);
                        Web.u_username := Web.stripped_field lib "username" req;
                        Web.u_password_hash :=
                          Web.generate_password_hash lib (Web.salt req)
                            (Web.stripped_field lib "password" req);
                        Web.u_created_at := Some (Web.now req) |}])%list
           /\ Web.history_table (Web.db_after o) = Web.history_table d)
          \/ (Web.answer o = Web.Render "signup.html" Web.NoContext
              /\ Web.db_after o = d)))
  /\ (forall (d_insert : Web.db) (e : Web.exc),
         Web.signup_between lib req s d d_insert = inl e
         <-> e = Web.IntegrityError
             /\ Web.stripped_field lib "username" req <> ""
             /\ Web.stripped_field lib "password" req <> ""
             /\ ~ In (Web.stripped_field lib "username" req)
                     (map Web.u_username (user_rows d))
             /\ In (Web.stripped_field lib "username" req)
                   (map Web.u_username (user_rows d_insert))).
Proof.
  intros M. split.
  { rewrite handle_post; [| exact M | simpl; tauto].
    cbn [Web.view]. unfold Web.signup, Web.signup_between, Web.returns.
    rewrite M. cbn [String.eqb Ascii.eqb Bool.eqb].
    destruct (String.eqb (Web.stripped_field lib "username" req) "") eqn:Eu.
    { apply String.eqb_eq in Eu. eexists. split; [reflexivity |]. cbn.
      intuition (try congruence; try discriminate). }
    destruct (String.eqb (Web.stripped_field lib "password" req) "") eqn:Ep.
    { apply String.eqb_eq in Ep. eexists. split; [reflexivity |]. cbn.
      intuition (try congruence; try discriminate). }
    apply String.eqb_neq in Eu, Ep. cbn [orb].
    destruct (Web.select_user _ d) as [user |] eqn:E.
    - pose proof (select_user_some _ _ _ E) as Hin.
      eexists. split; [reflexivity |]. cbn.
      intuition (try congruence; try discriminate).
    - pose proof (select_user_none _ _ E) as Hnot.
      rewrite (insert_user_after_select _ _ _ _ E).
      eexists. split; [reflexivity |]. cbn.
      split; [reflexivity |]. split; [tauto |]. left. repeat split. }
  intros d_insert e. unfold Web.signup_between, Web.returns.
  rewrite M. cbn [String.eqb Ascii.eqb Bool.eqb].
  destruct (String.eqb (Web.stripped_field lib "username" req) "") eqn:Eu.
  { apply String.eqb_eq in Eu. cbn [orb]. split; [discriminate | tauto]. }
  destruct (String.eqb (Web.stripped_field lib "password" req) "") eqn:Ep.
  { apply String.eqb_eq in Ep. cbn [orb]. split; [discriminate | tauto]. }
  apply String.eqb_neq in Eu, Ep. cbn [orb].
  destruct (Web.select_user _ d) as [user |] eqn:E.
  - pose proof (select_user_some _ _ _ E) as Hin.
    split; [discriminate | tauto].
  - pose proof (select_user_none _ _ E) as Hnot.
    destruct (Web.insert_user _ _ _ d_insert) as [e0 | d'] eqn:I.
    + apply insert_user_raises in I. destruct I as [-> Hin']. split.
      * intros [= <-]. tauto.
      * now intros [-> _].
    + split; [discriminate |]. intros (-> & _ & _ & _ & Hin').
      assert (X : Web.insert_user (Web.stripped_field lib "username" req)
                    (Web.generate_password_hash lib (Web.salt req)
                       (Web.stripped_field lib "password" req))
                    (Web.now req) d_insert = inl Web.IntegrityError)
        by (apply insert_user_raises; now split).
      congruence.
Qed.

(** X14. An account created by [signup] can be used at once: when werkzeug's
    [check_password_hash] accepts what its [generate_password_hash] made,
    a POST to [login] with the same name and password, up to stripping,
    redirects to [dashboard] and puts the key and the name of the new user
    in the session. *)
Theorem signup_then_login (req req' : Web.request) (s s' : Web.session)
    (d : Web.db) (o : Web.outcome J) :
  (forall salt password,
      Web.check_password_hash lib
        (Web.generate_password_hash lib salt password) password
      = Py.Ok true) ->
  Web.handle lib Web.RSignup req s d = inr o ->
  Web.answer o = Web.Redirect "login" ->
  Web.method req' = "POST" ->
  Web.stripped_field lib "username" req' = Web.stripped_field lib "username" req ->
  Web.stripped_field lib "password" req' = Web.stripped_field lib "password" req ->
  Web.handle lib Web.RLogin req' s' (Web.db_after o)
  = Web.returns (Web.Redirect "dashboard")
      {| Web.user_id := Some (Web.next_id Web.u_id (Web.users_table d));
         Web.username := Some (Web.stripped_field lib "username" req) |}
      (Web.db_after o) [].
Proof.
  intros Hhash H A M' Hu Hp.
  rewrite handle_post; [| exact M' | simpl; tauto].
  cbn [Web.view]. unfold Web.login. rewrite M', Hu, Hp.
  cbn [String.eqb Ascii.eqb Bool.eqb].
  revert H A. unfold Web.handle, Web.returns.
  destruct (String.eqb _ "OPTIONS"); [intros [= <-]; discriminate |].
  destruct (existsb _ _); [| intros [= <-]; discriminate].
  cbn [Web.view]. unfold Web.signup, Web.signup_between, Web.returns.
  destruct (String.eqb _ "POST"); [| intros [= <-]; discriminate].
  destruct (_ || _); [intros [= <-]; discriminate |].
  destruct (Web.select_user _ d) eqn:E; [intros [= <-]; discriminate |].
  rewrite (insert_user_after_select _ _ _ _ E). intros [= <-] _.
  cbn [Web.db_after]. unfold Web.select_user at 1.
  cbn [Web.users_table Web.rows]. unfold Py.append.
  rewrite (find_snoc _ _ _ E) by (cbn; apply String.eqb_refl).
  cbn [Web.u_password_hash Web.u_id Web.u_username].
  now rewrite Hhash.
Qed.

Lemma find_unique {A : Type} (f : A -> bool) (key : A -> string) (l : list A)
    (x : A) :
  (forall y, f y = true <-> key y = key x) ->
  NoDup (map key l) -> In x l -> find f l = Some x.
Proof.
  intros Hf. induction l as [| y l IH]; simpl; [contradiction |].
  intros Hnd [-> | Hin].
  - now rewrite (proj2 (Hf x) eq_refl).
  - inversion Hnd as [| ? ? Hy Hl]; subst.
    destruct (f y) eqn:E; [| now apply IH].
    apply Hf in E. elim Hy. rewrite E. now apply in_map.
Qed.

(** X15. A POST to [login], on any database: it raises exactly when
    [check_password_hash] raises on the stored hash of the first user with
    the stripped name, and raises the same; when it returns, the database
    is as it was, and either it redirects to [dashboard], a stored user has
    the stripped name and a hash that verifies the stripped password, and
    the session holds the key and the name of that user, or it renders
    [login.html], flashes that the credentials are invalid and leaves the
    session as it was.  When no two stored users share a name, every
    stored user whose hash verifies the password is logged in: the POST
    returns and redirects to [dashboard] with the key and the name of that
    user in the session. *)
Theorem login_succeeds_iff (req : Web.request) (s : Web.session) (d : Web.db) :
  Web.method req = "POST" ->
  (forall e,
      Web.handle lib Web.RLogin req s d = inl e
      <-> exists user e',
            Web.select_user (Web.stripped_field lib "username" req) d
            = Some user
            /\ Web.check_password_hash lib (Web.u_password_hash user)
                 (Web.stripped_field lib "password" req) = Py.Raise e'
            /\ e = Web.Python e')
  /\ (forall o,
         Web.handle lib Web.RLogin req s d = inr o ->
         Web.db_after o = d
         /\ ((Web.answer o = Web.Redirect "dashboard"
              /\ exists user,
                   In user (user_rows d)
                   /\ Web.u_username user
                      = Web.stripped_field lib "username" req
                   /\ Web.check_password_hash lib (Web.u_password_hash user)
                        (Web.stripped_field lib "password" req) = Py.Ok true
                   /\ Web.session_after o
                      = {| Web.user_id := Some (Web.u_id user);
                           Web.username := Some (Web.u_username user) |})
             \/ (Web.answer o = Web.Render "login.html" Web.NoContext
                 /\ Web.session_after o = s
                 /\ Web.flashed o = [("❌ Invalid credentials.", "danger")])))
  /\ (NoDup (map Web.u_username (user_rows d)) ->
      forall user,
        In user (user_rows d) ->
        Web.u_username user = Web.stripped_field lib "username" req ->
        Web.check_password_hash lib (Web.u_password_hash user)
          (Web.stripped_field lib "password" req) = Py.Ok true ->
        Web.handle lib Web.RLogin req s d
        = Web.returns (Web.Redirect "dashboard")
            {| Web.user_id := Some (Web.u_id user);
               Web.username := Some (Web.u_username user) |}
            d []).
Proof.
  intros M. rewrite handle_post; [| exact M | simpl; tauto].
  cbn [Web.view]. unfold Web.login, Web.returns. rewrite M.
  cbn [String.eqb Ascii.eqb Bool.eqb].
  set (name := Web.stripped_field lib "username" req).
  set (password := Web.stripped_field lib "password" req).
  assert (Hsel : NoDup (map Web.u_username (user_rows d)) ->
                 forall user, In user (user_rows d) ->
                              Web.u_username user = name ->
                              Web.select_user name d = Some user).
  { intros Hnd user Hin Hn. unfold Web.select_user.
    apply (find_unique _ Web.u_username); try assumption.
    intros y. rewrite String.eqb_eq. rewrite Hn. tauto. }
  destruct (Web.select_user name d) as [user |] eqn:E.
  - pose proof (find_some _ _ E) as [Hin Hn]. apply String.eqb_eq in Hn.
    destruct (Web.check_password_hash lib (Web.u_password_hash user) password)
      as [[|] | e'] eqn:C.
    + split; [| split].
      * intros e. split; [discriminate |].
        intros (u & e0 & [= <-] & C' & _). congruence.
      * intros o [= <-]. cbn. split; [reflexivity |]. left.
        split; [reflexivity |]. exists user. repeat split; assumption.
      * intros Hnd u Hu Hnu Cu.
        pose proof (Hsel Hnd u Hu Hnu) as X. rewrite ?E in X.
        injection X as <-. reflexivity.
    + split; [| split].
      * intros e. split; [discriminate |].
        intros (u & e0 & [= <-] & C' & _). congruence.
      * intros o [= <-]. cbn. split; [reflexivity |]. right. repeat split.
      * intros Hnd u Hu Hnu Cu.
        pose proof (Hsel Hnd u Hu Hnu) as X. rewrite ?E in X.
        injection X as <-. congruence.
    + split; [| split].
      * intros e. split.
        -- intros [= <-]. now exists user, e'.
        -- intros (u & e0 & [= <-] & C' & ->). congruence.
      * intros o. discriminate.
      * intros Hnd u Hu Hnu Cu.
        pose proof (Hsel Hnd u Hu Hnu) as X. rewrite ?E in X.
        injection X as <-. congruence.
  - split; [| split].
    + intros e. split; [discriminate |].
      intros (u & e0 & X & _). discriminate X.
    + intros o [= <-]. cbn. split; [reflexivity |]. right. repeat split.
    + intros Hnd u Hu Hnu Cu.
      pose proof (Hsel Hnd u Hu Hnu) as X. rewrite ?E in X. discriminate X.
Qed.

Lemma dashboard_post_effect (req : Web.request) (s : Web.session)
    (d : Web.db) (o : Web.outcome J) (uid : Z) :
  Web.method req = "POST" ->
  Web.user_id s = Some uid ->
  Web.handle lib Web.RDashboard req s d = inr o ->
  exists res inp narrative,
    dashboard (Web.engine lib) (Web.form req) = Py.Ok (res, inp, narrative)
    /\ Web.answer o
       = Web.Render "dashboard.html"
           (Web.DashboardContext (Some res) (Some narrative))
    /\ Web.session_after o = s
    /\ Web.users_table (Web.db_after o) = Web.users_table d
    /\ history_rows (Web.db_after o)
       = (history_rows d
          ++ [{| Web.h_id := Web.next_id Web.h_id (Web.history_table d);
                 Web.h_user_id := uid;
                 Web.h_inputs_json := Some (Web.json_dumps lib inp);
                 Web.h_diabetes_risk := Some (category (diabetes res));
                 Web.h_hypertension_risk := Some (category (hypertension res));
                 Web.h_heart_risk := Some (category (heart res));
                 Web.h_narrative := Some narrative;
                 Web.h_created_at := Some (Web.now req) |}])%list.
Proof.
  intros M U. rewrite handle_post; [| exact M | simpl; tauto].
  cbn [Web.view]. unfold Web.dashboard, Web.logged_in, Web.returns.
  rewrite M, U. cbn [negb String.eqb Ascii.eqb Bool.eqb].
  destruct (dashboard _ _) as [[[res inp] narrative] | e]; [| discriminate].
  intros [= <-]. exists res, inp, narrative. repeat split.
Qed.

(** X17. What [history] shows to one session is not changed by a request made
    in a session that holds another user id, or none. *)
Theorem history_isolated (r : Web.route) (req req' : Web.request)
    (s s' : Web.session) (d : Web.db) (o : Web.outcome J) :
  Web.handle lib r req s d = inr o ->
  Web.user_id s' <> Web.user_id s ->
  answer_of (Web.handle lib Web.RHistory req' s' (Web.db_after o))
  = answer_of (Web.handle lib Web.RHistory req' s' d).
Proof.
  intros H Hne.
  assert (Hsel : forall uid, Web.user_id s' = Some uid ->
                 Web.select_history lib uid (Web.db_after o)
                 = Web.select_history lib uid d).
  { intros uid U. unfold Web.select_history. f_equal.
    apply handle_effect in H.
    destruct H as [r o Hs Hd | o M Hu Hp E A Hs Hr Hh | o user M E C A Hs Hd
                  | o A Hs Hd | o uid' res inp narrative M U' E A Hs Hu Hr];
      try (now rewrite Hd); try (now rewrite Hh).
    fold (history_rows (Web.db_after o)). rewrite Hr, filter_app.
    cbn [filter Web.h_user_id].
    destruct (uid' =? uid) eqn:Q; [| now rewrite app_nil_r].
    apply Z.eqb_eq in Q. congruence. }
  unfold Web.handle, Web.returns.
  destruct (String.eqb _ "OPTIONS"); [reflexivity |].
  destruct (existsb _ _); [| reflexivity].
  cbn [Web.view]. unfold Web.history, Web.logged_in, Web.returns.
  destruct (Web.user_id s') as [uid |] eqn:U; cbn [negb]; [| reflexivity].
  cbn [answer_of Web.answer]. now rewrite (Hsel uid eq_refl).
Qed.

(** X18. After a POST to [dashboard] that returns, a GET of [history] in the
    same session shows a record with the three categories and the
    narrative that were rendered, when [ORDER BY] hands back the rows it is
    given. *)
Theorem assessment_appears_in_history (req req' : Web.request)
    (s : Web.session) (d : Web.db) (o : Web.outcome J) (uid : Z)
    (res : result) (narrative : string) :
  (forall l, Permutation (Web.order_by_created_at_desc lib l) l) ->
  Web.method req = "POST" ->
  Web.user_id s = Some uid ->
  Web.handle lib Web.RDashboard req s d = inr o ->
  Web.answer o
  = Web.Render "dashboard.html" (Web.DashboardContext (Some res) (Some narrative)) ->
  Web.method req' = "GET" ->
  exists records record,
    Web.handle lib Web.RHistory req' (Web.session_after o) (Web.db_after o)
    = Web.returns (Web.Render "history.html" (Web.HistoryContext records))
        (Web.session_after o) (Web.db_after o) []
    /\ In record records
    /\ Web.rec_id record = Web.next_id Web.h_id (Web.history_table d)
    /\ Web.rec_diabetes record = Some (category (diabetes res))
    /\ Web.rec_hypertension record = Some (category (hypertension res))
    /\ Web.rec_heart record = Some (category (heart res))
    /\ Web.rec_narrative record = narrative.
Proof.
  intros Hperm M U H A M'.
  destruct (dashboard_post_effect _ _ _ _ _ M U H)
    as (res' & inp & narrative' & _ & A' & Hs & _ & Hr).
  rewrite A in A'. injection A' as <- <-.
  rewrite handle_get by exact M'.
  cbn [Web.view]. unfold Web.history, Web.logged_in.
  rewrite Hs, U. cbn [negb].
  eexists. eexists. split; [reflexivity |].
  split.
  - apply in_map.
    unfold Web.select_history.
    apply (Permutation_in _ (Permutation_sym (Hperm _))).
    apply filter_In. split.
    + fold (history_rows (Web.db_after o)). rewrite Hr.
      apply in_or_app. right. now left.
    + cbn. apply Z.eqb_refl.
  - repeat split.
Qed.

(** X19. A session that is not logged in gets nothing from [dashboard] and
    [history]: whatever the request, the answer is the redirection to
    [login] or a bare status, nothing is flashed, and session and database
    stay as they were.  After a GET of [logout] every session is in that
    case. *)
Theorem protected_views_need_login (r : Web.route) (req req' : Web.request)
    (s : Web.session) (d : Web.db) :
  In r [Web.RDashboard; Web.RHistory] ->
  (Web.logged_in s = false ->
   exists a,
     Web.handle lib r req s d = Web.returns a s d []
     /\ In a [Web.Redirect "login"; Web.Status 200; Web.Status 405])
  /\ (Web.method req' = "GET" ->
      exists o a,
        Web.handle lib Web.RLogout req' s d = inr o
        /\ Web.handle lib r req (Web.session_after o) (Web.db_after o)
           = Web.returns a Web.no_session d []
        /\ In a [Web.Redirect "login"; Web.Status 200; Web.Status 405]).
Proof.
  intros Hr.
  assert (G : forall s0, Web.logged_in s0 = false ->
              exists a,
                Web.handle lib r req s0 d = Web.returns a s0 d []
                /\ In a [Web.Redirect "login"; Web.Status 200; Web.Status 405]).
  { intros s0 L. unfold Web.handle.
    destruct (String.eqb _ "OPTIONS");
      [eexists; split; [reflexivity | simpl; tauto] |].
    destruct (existsb _ _); [| eexists; split; [reflexivity | simpl; tauto]].
    simpl in Hr. destruct Hr as [<- | [<- | []]]; cbn [Web.view];
      unfold Web.dashboard, Web.history; rewrite L; cbn [negb];
      eexists; split; try reflexivity; simpl; tauto. }
  split; [apply G |].
  intros M. rewrite handle_get by exact M. cbn [Web.view]. unfold Web.logout.
  destruct (G Web.no_session eq_refl) as (a & Ha & Hin).
  eexists. exists a. split; [reflexivity |]. now split.
Qed.

End ViewProperties.

Lemma views_raise_in_two_places_witness :
  Web.handle plain_library Web.RDashboard
    (post [("height_cm", "1e-170"); ("weight_kg", "70")]) alice alice_db
  = inl (Web.Python Py.ZeroDivisionError)
  /\ Web.handle plain_library Web.RLogin (post credentials) Web.no_session
       legacy_db
     = inl (Web.Python Py.ValueError)
  /\ exists user,
       In user (user_rows legacy_db)
       /\ Web.check_password_hash plain_library (Web.u_password_hash user)
            "secret"
          = Py.Raise Py.ValueError.
Proof.
  assert (H1 : Web.handle plain_library Web.RDashboard
                 (post [("height_cm", "1e-170"); ("weight_kg", "70")]) alice
                 alice_db
               = inl (Web.Python Py.ZeroDivisionError))
    by (vm_compute; reflexivity).
  assert (H2 : Web.handle plain_library Web.RLogin (post credentials)
                 Web.no_session legacy_db
               = inl (Web.Python Py.ValueError))
    by (vm_compute; reflexivity).
  split; [exact H1 |]. split; [exact H2 |].
  destruct (views_raise_in_two_places plain_library Web.RLogin
              (post credentials) Web.no_session legacy_db
              (Web.Python Py.ValueError) H2)
    as [(X & _) | (_ & _ & user & e' & Hin & _ & C & E)];
    [discriminate X |].
  injection E as <-. exists user. split; [exact Hin | exact C].
Defined.

Lemma views_only_append_witness :
  exists o new_users,
    Web.handle plain_library Web.RSignup (post credentials) Web.no_session empty_db
    = inr o
    /\ user_rows (Web.db_after o) = (user_rows empty_db ++ new_users)%list
    /\ (List.length new_users <= 1)%nat.
Proof.
  destruct (Web.handle plain_library Web.RSignup (post credentials)
              Web.no_session empty_db) as [e | o] eqn:E;
    [vm_compute in E; discriminate E |].
  destruct (views_only_append plain_library Web.RSignup (post credentials)
              Web.no_session empty_db o E)
    as (new_users & new_history & Hu & _ & Hl & _).
  exists o, new_users. split; [reflexivity |]. split; [exact Hu | lia].
Defined.

Lemma views_keep_db_ok_witness :
  exists o,
    Web.handle plain_library Web.RSignup (post bob_credentials) Web.no_session
      alice_db
    = inr o
    /\ List.length (user_rows (Web.db_after o)) = 2%nat
    /\ db_ok (Web.db_after o).
Proof.
  destruct (Web.handle plain_library Web.RSignup (post bob_credentials)
              Web.no_session alice_db) as [e | o] eqn:E;
    [vm_compute in E; discriminate E |].
  exists o. split; [reflexivity |].
  split; [vm_compute in E; injection E as <-; reflexivity |].
  apply (views_keep_db_ok plain_library Web.RSignup (post bob_credentials)
           Web.no_session alice_db o); [| exact E].
  unfold db_ok. cbn. repeat split.
  - constructor; [intros [] | constructor].
  - constructor; [intros [] | constructor].
  - constructor; [discriminate | constructor].
  - constructor.
Defined.

Lemma session_only_by_login_witness :
  exists o user,
    Web.handle plain_library Web.RLogin (post credentials) Web.no_session alice_db
    = inr o
    /\ Web.user_id (Web.session_after o) = Some 1
    /\ In user (user_rows alice_db)
    /\ Web.u_id user = 1
    /\ Web.check_password_hash plain_library (Web.u_password_hash user) "secret"
       = Py.Ok true.
Proof.
  destruct (Web.handle plain_library Web.RLogin (post credentials)
              Web.no_session alice_db) as [e | o] eqn:E;
    [vm_compute in E; discriminate E |].
  assert (U : Web.user_id (Web.session_after o) = Some 1)
    by (vm_compute in E; injection E as <-; reflexivity).
  destruct (session_only_by_login plain_library Web.RLogin (post credentials)
              Web.no_session alice_db o 1 E U)
    as [H | (_ & _ & user & Hin & Hid & _ & Hc & _)]; [discriminate H |].
  exists o, user. split; [reflexivity |]. repeat split; assumption.
Defined.

Lemma signup_creates_iff_witness :
  (exists o,
      Web.handle plain_library Web.RSignup (post credentials) Web.no_session
        empty_db
      = inr o
      /\ Web.session_after o = Web.no_session)
  /\ Web.signup_between plain_library (post credentials) Web.no_session
       empty_db alice_db
     = inl Web.IntegrityError.
Proof.
  destruct (signup_creates_iff plain_library (post credentials) Web.no_session
              empty_db eq_refl) as [(o & H & Hs & _) R].
  split; [exists o; split; assumption |].
  apply (proj2 (R alice_db Web.IntegrityError)).
  cbn. repeat split; try discriminate; [intros [] | now left].
Defined.

Lemma signup_then_login_witness :
  exists o,
    Web.handle plain_library Web.RSignup (post credentials) Web.no_session empty_db
    = inr o
    /\ Web.handle plain_library Web.RLogin (post credentials) Web.no_session
         (Web.db_after o)
       = Web.returns (Web.Redirect "dashboard") alice (Web.db_after o) [].
Proof.
  destruct (Web.handle plain_library Web.RSignup (post credentials)
              Web.no_session empty_db) as [e | o] eqn:E;
    [vm_compute in E; discriminate E |].
  exists o. split; [reflexivity |].
  apply (signup_then_login plain_library (post credentials) (post credentials)
           Web.no_session Web.no_session empty_db o);
    [intros salt password;
     cbv [plain_library Web.check_password_hash Web.generate_password_hash];
     rewrite prefix_app, String.eqb_refl; reflexivity
    | exact E | | reflexivity | reflexivity | reflexivity].
  vm_compute in E. injection E as <-. reflexivity.
Defined.

Lemma login_succeeds_iff_witness :
  Web.handle plain_library Web.RLogin (post bob_credentials) alice two_users_db
  = Web.returns (Web.Redirect "dashboard") bob two_users_db [].
Proof.
  apply (proj2 (proj2 (login_succeeds_iff plain_library (post bob_credentials)
                         alice two_users_db eq_refl))
           ltac:(cbn; constructor;
                 [intros [H | []]; discriminate H
                 | constructor; [intros [] | constructor]])
           bob_row (or_intror (or_introl eq_refl)) eq_refl eq_refl).
Defined.

Lemma history_isolated_witness :
  exists o,
    Web.handle plain_library Web.RDashboard (post checkup) alice alice_db = inr o
    /\ answer_of (Web.handle plain_library Web.RHistory get bob (Web.db_after o))
       = answer_of (Web.handle plain_library Web.RHistory get bob alice_db).
Proof.
  destruct (Web.handle plain_library Web.RDashboard (post checkup) alice alice_db)
    as [e | o] eqn:E; [vm_compute in E; discriminate E |].
  exists o. split; [reflexivity |].
  apply (history_isolated plain_library Web.RDashboard (post checkup) get alice
           bob alice_db o E).
  discriminate.
Defined.

Lemma assessment_appears_in_history_witness :
  exists o records record,
    Web.handle plain_library Web.RDashboard (post checkup) alice alice_db = inr o
    /\ Web.handle plain_library Web.RHistory get (Web.session_after o)
         (Web.db_after o)
       = Web.returns (Web.Render "history.html" (Web.HistoryContext records))
           (Web.session_after o) (Web.db_after o) []
    /\ In record records
    /\ Web.rec_id record = 1.
Proof.
  destruct (Web.handle plain_library Web.RDashboard (post checkup) alice alice_db)
    as [e | o] eqn:E; [vm_compute in E; discriminate E |].
  destruct (dashboard_post_effect plain_library (post checkup) alice alice_db o 1
              eq_refl eq_refl E)
    as (res & inp & narrative & _ & A & _).
  destruct (assessment_appears_in_history plain_library (post checkup) get alice
              alice_db o 1 res narrative
              (fun l => Permutation_refl l) eq_refl eq_refl E A eq_refl)
    as (records & record & H & Hin & Hid & _).
  exists o, records, record. split; [reflexivity |].
  split; [exact H |]. split; [exact Hin | exact Hid].
Defined.

Lemma protected_views_need_login_witness :
  exists a,
    Web.handle plain_library Web.RHistory get Web.no_session alice_db
    = Web.returns a Web.no_session alice_db []
    /\ In a [Web.Redirect "login"; Web.Status 200; Web.Status 405].
Proof.
  apply (proj1 (protected_views_need_login plain_library Web.RHistory get get
                  Web.no_session alice_db (or_intror (or_introl eq_refl)))).
  reflexivity.
Defined.

(** *** The migration of the schema *)

Lemma same_name_refl (a : string) : Schema.same_name a a = true.
Proof. apply String.eqb_refl. Qed.

Lemma same_name_sym (a b : string) : Schema.same_name a b = Schema.same_name b a.
Proof. apply String.eqb_sym. Qed.

Lemma same_name_trans (a b c : string) :
  Schema.same_name a b = true -> Schema.same_name b c = Schema.same_name a c.
Proof.
  unfold Schema.same_name. intros H. apply String.eqb_eq in H. now rewrite H.
Qed.

Lemma same_name_apart (a b c : string) :
  Schema.same_name a b = true -> Schema.same_name c b = false ->
  Schema.same_name a c = false.
Proof.
  unfold Schema.same_name. intros H H'.
  apply String.eqb_eq in H. apply String.eqb_neq in H'.
  apply String.eqb_neq. congruence.
Qed.

Lemma existsb_eqb_In (c : string) (l : list string) :
  existsb (String.eqb c) l = true <-> In c l.
Proof.
  rewrite existsb_exists. split.
  - intros (x & Hin & E). apply String.eqb_eq in E. now subst.
  - intros H. exists c. split; [exact H | apply String.eqb_refl].
Qed.

Lemma table_info_none (table : string) (s : Schema.schema) :
  has_table table s = false -> Schema.table_info table s = [].
Proof.
  unfold has_table, Schema.table_info. intros H.
  destruct (find _ s) as [t |] eqn:E; [| reflexivity].
  apply find_some in E. destruct E as [Hin Ht].
  assert (existsb (fun t => Schema.same_name (fst t) table) s = true)
    by (apply existsb_exists; now exists t).
  congruence.
Qed.

Lemma has_table_same (a b : string) (s : Schema.schema) :
  Schema.same_name a b = true -> has_table a s = has_table b s.
Proof.
  intros H. unfold has_table. induction s as [| t s IH]; [reflexivity |].
  simpl. rewrite IH. f_equal.
  rewrite (same_name_sym (fst t) a), (same_name_sym (fst t) b).
  rewrite same_name_sym in H. rewrite <- (same_name_trans _ _ _ H).
  reflexivity.
Qed.

Lemma table_info_same (a b : string) (s : Schema.schema) :
  Schema.same_name a b = true -> Schema.table_info a s = Schema.table_info b s.
Proof.
  intros H. unfold Schema.table_info.
  induction s as [| t s IH]; [reflexivity |].
  simpl.
  replace (Schema.same_name (fst t) b) with (Schema.same_name (fst t) a).
  - destruct (Schema.same_name (fst t) a); [reflexivity | exact IH].
  - rewrite (same_name_sym (fst t) a), (same_name_sym (fst t) b).
    rewrite same_name_sym in H. now rewrite <- (same_name_trans _ _ _ H).
Qed.

(** [CREATE TABLE IF NOT EXISTS]. *)
Lemma create_has_table (table : string) (columns : list string)
    (s : Schema.schema) (t : string) :
  has_table t (Schema.create_table_if_not_exists table columns s)
  = has_table t s || Schema.same_name table t.
Proof.
  unfold Schema.create_table_if_not_exists. fold (has_table table s).
  destruct (has_table table s) eqn:E.
  - destruct (Schema.same_name table t) eqn:N.
    + rewrite <- (has_table_same _ _ _ N), E. reflexivity.
    + now rewrite orb_false_r.
  - unfold has_table, Py.append. rewrite existsb_app. simpl.
    now rewrite orb_false_r.
Qed.

Lemma find_app {A : Type} (f : A -> bool) (l l' : list A) :
  find f (l ++ l') = match find f l with Some x => Some x | None => find f l' end.
Proof.
  induction l as [| x l IH]; [reflexivity |]. simpl.
  destruct (f x); [reflexivity | exact IH].
Qed.

Lemma find_existsb_false {A : Type} (f : A -> bool) (l : list A) :
  existsb f l = false -> find f l = None.
Proof.
  induction l as [| x l IH]; [reflexivity |]. simpl.
  destruct (f x); [discriminate | exact IH].
Qed.

Lemma find_existsb_true {A : Type} (f : A -> bool) (l : list A) :
  existsb f l = true -> exists x, find f l = Some x.
Proof.
  induction l as [| x l IH]; [discriminate |]. simpl.
  destruct (f x); [now exists x | exact IH].
Qed.

Lemma create_table_info_old (table : string) (columns : list string)
    (s : Schema.schema) (t : string) :
  has_table t s = true ->
  Schema.table_info t (Schema.create_table_if_not_exists table columns s)
  = Schema.table_info t s.
Proof.
  intros H. unfold Schema.create_table_if_not_exists.
  destruct (existsb _ s); [reflexivity |].
  unfold Schema.table_info, Py.append. rewrite find_app.
  destruct (find_existsb_true _ _ H) as (x & ->). reflexivity.
Qed.

Lemma create_table_info_new (table : string) (columns : list string)
    (s : Schema.schema) :
  has_table table s = false ->
  Schema.table_info table (Schema.create_table_if_not_exists table columns s)
  = columns.
Proof.
  intros H. unfold Schema.create_table_if_not_exists.
  fold (has_table table s). rewrite H.
  unfold Schema.table_info, Py.append. rewrite find_app.
  rewrite (find_existsb_false _ _ H). simpl.
  now rewrite same_name_refl.
Qed.

Lemma create_table_info_grows (table : string) (columns : list string)
    (s : Schema.schema) (t : string) :
  exists added,
    Schema.table_info t (Schema.create_table_if_not_exists table columns s)
    = (Schema.table_info t s ++ added)%list.
Proof.
  destruct (has_table t s) eqn:H.
  - exists []. rewrite app_nil_r. now apply create_table_info_old.
  - rewrite (table_info_none _ _ H). eexists. reflexivity.
Qed.

(** [ALTER TABLE ... ADD COLUMN]. *)
Lemma add_column_raises (table c : string) (s : Schema.schema) :
  existsb (Schema.same_name c) (Schema.table_info table s) = true ->
  Schema.add_column table c s = inl Schema.OperationalError.
Proof.
  unfold Schema.table_info.
  induction s as [| t s IH]; simpl; [discriminate |].
  destruct (Schema.same_name (fst t) table).
  - now intros ->.
  - intros H. now rewrite (IH H).
Qed.

Lemma add_column_returns (table c : string) (s : Schema.schema) :
  has_table table s = true ->
  existsb (Schema.same_name c) (Schema.table_info table s) = false ->
  exists s',
    Schema.add_column table c s = inr s'
    /\ Schema.table_info table s' = (Schema.table_info table s ++ [c])%list
    /\ (forall t, has_table t s' = has_table t s)
    /\ (forall t, Schema.same_name t table = false ->
                  Schema.table_info t s' = Schema.table_info t s).
Proof.
  unfold has_table, Schema.table_info.
  induction s as [| t s IH]; simpl; [discriminate |].
  destruct (Schema.same_name (fst t) table) eqn:N.
  - intros _ ->. eexists. split; [reflexivity |]. simpl. rewrite N.
    split; [reflexivity |]. split; [reflexivity |].
    intros t' N'.
    now rewrite (same_name_apart _ _ _ N N').
  - simpl. intros H C. destruct (IH H C) as (s' & -> & Hi & Ht & Ho).
    eexists. split; [reflexivity |]. simpl. rewrite N.
    split; [| split].
    + exact Hi.
    + intros t'. now rewrite Ht.
    + intros t' N'. destruct (Schema.same_name (fst t) t'); [reflexivity |].
      now apply Ho.
Qed.

(** The five tests, on a table [history] that holds [cols] and the columns
    [added] since [cols] was read. *)
Lemma ensure_columns_spec (cols columns : list string) :
  forall (s : Schema.schema) (added : list string),
  has_table "history" s = true ->
  Schema.table_info "history" s = (cols ++ added)%list ->
  (forall c a, In c columns -> In a added -> Schema.same_name c a = false) ->
  ForallOrdPairs (fun a b => Schema.same_name b a = false) columns ->
  match ensure_columns cols columns s with
  | inl _ =>
      exists c, In c columns /\ ~ In c cols
                /\ existsb (Schema.same_name c) cols = true
  | inr s' =>
      (forall c, In c columns -> ~ In c cols ->
                 existsb (Schema.same_name c) cols = false)
      /\ Schema.table_info "history" s'
         = (cols ++ added
            ++ filter (fun c => negb (existsb (String.eqb c) cols)) columns)%list
      /\ (forall t, has_table t s' = has_table t s)
      /\ (forall t, Schema.same_name t "history" = false ->
                    Schema.table_info t s' = Schema.table_info t s)
  end.
Proof.
  induction columns as [| c columns IH]; intros s added Hh Hi Ha Hp.
  - simpl. rewrite app_nil_r. repeat split; try easy.
  - inversion Hp as [| ? ? Hc Hp']; subst.
    cbn [ensure_columns filter]. unfold Schema.ensure_column.
    destruct (existsb (String.eqb c) cols) eqn:E; cbn [negb].
    + apply existsb_eqb_In in E.
      specialize (IH s added Hh Hi
                    (fun c' a H => Ha c' a (or_intror H)) Hp').
      destruct (ensure_columns cols columns s) as [e | s'].
      * destruct IH as (c' & Hin & H). exists c'. split; [now right | exact H].
      * destruct IH as (H1 & H2 & H3 & H4). repeat split; try assumption.
        intros c' [<- | Hin] Hn; [contradiction | now apply H1].
    + assert (Ea : existsb (Schema.same_name c) added = false).
      { destruct (existsb _ added) eqn:X; [| reflexivity].
        apply existsb_exists in X. destruct X as (a & Hin & X).
        rewrite (Ha c a (or_introl eq_refl) Hin) in X. discriminate. }
      assert (Hn : ~ In c cols).
      { intros H. apply existsb_eqb_In in H. congruence. }
      destruct (existsb (Schema.same_name c) cols) eqn:C.
      * rewrite add_column_raises
          by (rewrite Hi, existsb_app, C; reflexivity).
        exists c. split; [now left | now split].
      * destruct (add_column_returns "history" c s Hh) as (s1 & -> & Hi1 & Ht1 & Ho1);
          [rewrite Hi, existsb_app, C, Ea; reflexivity |].
        assert (Ha1 : forall c' a, In c' columns -> In a (added ++ [c])%list ->
                                   Schema.same_name c' a = false).
        { intros c' a Hin Hin'. apply in_app_or in Hin'.
          destruct Hin' as [Hin' | [<- | []]].
          - apply Ha; [now right | exact Hin'].
          - rewrite Forall_forall in Hc. now apply Hc. }
        specialize (IH s1 (added ++ [c])%list).
        rewrite Ht1, Hi1, Hi, <- app_assoc in IH.
        specialize (IH Hh eq_refl Ha1 Hp').
        destruct (ensure_columns cols columns s1) as [e | s'].
        -- destruct IH as (c' & Hin & H). exists c'. split; [now right | exact H].
        -- destruct IH as (H1 & H2 & H3 & H4). split; [| split; [| split]].
           ++ intros c' [<- | Hin] Hn'; [exact C | now apply H1].
           ++ rewrite H2, <- app_assoc. reflexivity.
           ++ intros t. now rewrite H3, Ht1.
           ++ intros t N. now rewrite (H4 t N), (Ho1 t N).
Qed.

Lemma init_db_unfold (s : Schema.schema) :
  Schema.init_db s
  = ensure_columns (Schema.table_info "history" (created s)) migrated_columns
      (created s).
Proof.
  unfold Schema.init_db. fold (created s).
  cbn [ensure_columns migrated_columns].
  repeat match goal with
         | |- context [match Schema.ensure_column ?a ?b ?c with _ => _ end] =>
             destruct (Schema.ensure_column a b c)
         end; reflexivity.
Qed.

Lemma created_has_table (s : Schema.schema) (t : string) :
  has_table t (created s)
  = has_table t s || Schema.same_name "users" t || Schema.same_name "history" t.
Proof. unfold created. now rewrite !create_has_table. Qed.

Lemma created_history (s : Schema.schema) :
  Schema.table_info "history" (created s)
  = if has_table "history" s then Schema.table_info "history" s
    else Schema.history_columns.
Proof.
  unfold created. destruct (has_table "history" s) eqn:H.
  - rewrite !create_table_info_old; try reflexivity; try assumption.
    rewrite create_has_table, H. reflexivity.
  - apply create_table_info_new. rewrite create_has_table, H. reflexivity.
Qed.

Lemma created_grows (s : Schema.schema) (t : string) :
  exists added,
    Schema.table_info t (created s) = (Schema.table_info t s ++ added)%list.
Proof.
  unfold created.
  destruct (create_table_info_grows "history" Schema.history_columns
              (Schema.create_table_if_not_exists "users" Schema.users_columns s) t)
    as (a2 & ->).
  destruct (create_table_info_grows "users" Schema.users_columns s t) as (a1 & ->).
  exists (a1 ++ a2)%list. now rewrite app_assoc.
Qed.

Lemma migrated_apart :
  ForallOrdPairs (fun a b => Schema.same_name b a = false) migrated_columns.
Proof. repeat constructor. Qed.

(** What [init_db] does, whether it raises or returns. *)
Lemma init_db_spec (s : Schema.schema) :
  match Schema.init_db s with
  | inl _ => exists c, clashes s c
  | inr s' =>
      (forall c, ~ clashes s c)
      /\ Schema.table_info "history" s'
         = (Schema.table_info "history" (created s)
            ++ filter (fun c => negb (existsb (String.eqb c)
                                        (Schema.table_info "history" (created s))))
                 migrated_columns)%list
      /\ (forall t, has_table t s' = has_table t (created s))
      /\ (forall t, Schema.same_name t "history" = false ->
                    Schema.table_info t s' = Schema.table_info t (created s))
  end.
Proof.
  rewrite init_db_unfold.
  pose proof (ensure_columns_spec (Schema.table_info "history" (created s))
                migrated_columns (created s) []) as H.
  rewrite app_nil_r in H.
  specialize (H ltac:(rewrite created_has_table; apply orb_true_r) eq_refl
                ltac:(intros ? ? _ []) migrated_apart).
  rewrite created_history in H |- *.
  destruct (ensure_columns _ _ _) as [e | s'].
  - destruct H as (c & Hin & Hn & Hc). exists c.
    destruct (has_table "history" s) eqn:T; [now repeat split |].
    exfalso. apply Hn. revert Hin. clear.
    simpl. intuition (subst; simpl; tauto).
  - destruct H as (H1 & H2 & H3 & H4). split; [| now repeat split].
    intros c (Hin & Hn & Hc).
    destruct (has_table "history" s) eqn:T.
    + rewrite (H1 c Hin Hn) in Hc. discriminate.
    + rewrite (table_info_none _ _ T) in Hc. discriminate.
Qed.

(** X20. [init_db] raises, and what it raises is [sqlite3.OperationalError],
    exactly when the table [history] it finds has a column that SQLite
    takes for one of the five migrated columns while none of its columns is
    spelled like that one: a column [Narrative] of an old database, say. *)
Theorem init_db_raises_iff (s : Schema.schema) :
  Schema.init_db s = inl Schema.OperationalError <-> exists c, clashes s c.
Proof.
  pose proof (init_db_spec s) as H.
  destruct (Schema.init_db s) as [[] | s'].
  - tauto.
  - split; [discriminate |]. intros (c & Hc). now destruct (proj1 H c).
Qed.

(** X21. When [init_db] returns, the tables [users] and [history] exist,
    [column_exists] finds each of the five migrated columns in [history],
    no table has lost a column or changed the order of its old ones, and a
    table that was missing has the columns of its [CREATE TABLE]. *)
Theorem init_db_ensures_columns (s s' : Schema.schema) :
  Schema.init_db s = inr s' ->
  has_table "users" s' = true
  /\ has_table "history" s' = true
  /\ (forall c, In c migrated_columns ->
                Schema.column_exists s' "history" c = true)
  /\ (forall t, exists added,
         Schema.table_info t s' = (Schema.table_info t s ++ added)%list)
  /\ (has_table "users" s = false ->
      Schema.table_info "users" s' = Schema.users_columns)
  /\ (has_table "history" s = false ->
      Schema.table_info "history" s' = Schema.history_columns).
Proof.
  intros E. pose proof (init_db_spec s) as H. rewrite E in H.
  destruct H as (_ & Hi & Ht & Ho).
  split; [rewrite Ht, created_has_table; now rewrite orb_true_r |].
  split; [rewrite Ht, created_has_table; now rewrite orb_true_r |].
  split; [| split; [| split]].
  - intros c Hin. unfold Schema.column_exists. rewrite Hi, existsb_app.
    destruct (existsb (String.eqb c) (Schema.table_info "history" (created s))) eqn:X;
      [reflexivity |].
    apply existsb_eqb_In. apply filter_In. split; [exact Hin |].
    now rewrite X.
  - intros t. destruct (Schema.same_name t "history") eqn:N.
    + rewrite !(table_info_same _ _ _ N), Hi.
      destruct (created_grows s "history") as (a & ->).
      eexists. rewrite <- app_assoc. reflexivity.
    + rewrite (Ho t N). apply created_grows.
  - intros T. rewrite (Ho "users" eq_refl). unfold created.
    rewrite create_table_info_old
      by (rewrite create_has_table; apply orb_true_r).
    now apply create_table_info_new.
  - intros T. rewrite Hi, created_history, T. reflexivity.
Qed.

(** X22. Running [init_db] again on what it returned changes nothing and does
    not raise. *)
Theorem init_db_idempotent (s s' : Schema.schema) :
  Schema.init_db s = inr s' -> Schema.init_db s' = inr s'.
Proof.
  intros E. pose proof (init_db_spec s) as H. rewrite E in H.
  destruct H as (_ & Hi & Ht & _).
  assert (Hu : has_table "users" s' = true)
    by (rewrite Ht, created_has_table; now rewrite orb_true_r).
  assert (Hh : has_table "history" s' = true)
    by (rewrite Ht, created_has_table; now rewrite orb_true_r).
  assert (Hc : forall c, In c migrated_columns ->
                 existsb (String.eqb c) (Schema.table_info "history" s') = true).
  { intros c Hin. rewrite Hi, existsb_app.
    destruct (existsb (String.eqb c) (Schema.table_info "history" (created s))) eqn:X;
      [reflexivity |].
    apply existsb_eqb_In. apply filter_In. split; [exact Hin |].
    now rewrite X. }
  unfold Schema.init_db, Schema.create_table_if_not_exists.
  fold (has_table "users" s'). rewrite Hu.
  fold (has_table "history" s'). rewrite Hh.
  unfold Schema.ensure_column.
  rewrite !Hc by (simpl; tauto). reflexivity.
Qed.

Lemma init_db_ensures_columns_witness :
  exists s',
    Schema.init_db old_schema = inr s'
    /\ Schema.column_exists s' "history" "narrative" = true
    /\ Schema.table_info "users" s' = Schema.users_columns.
Proof.
  destruct (Schema.init_db old_schema) as [e | s'] eqn:E;
    [vm_compute in E; discriminate E |].
  destruct (init_db_ensures_columns old_schema s' E)
    as (_ & _ & Hc & Hg & _).
  exists s'. split; [reflexivity |].
  split; [apply Hc; simpl; tauto |].
  vm_compute in E. injection E as <-. reflexivity.
Defined.

Lemma init_db_idempotent_witness :
  exists s', Schema.init_db old_schema = inr s' /\ Schema.init_db s' = inr s'.
Proof.
  destruct (Schema.init_db old_schema) as [e | s'] eqn:E;
    [vm_compute in E; discriminate E |].
  exists s'. split; [reflexivity |].
  exact (init_db_idempotent old_schema s' E).
Defined.
